(** * Adding spatial metadata to AORC forcing: a shallow embedding

    The notebook [thredds/aorc-adding-spatial-metadata.ipynb] is a linear
    sequence of code cells.  Each cell is embedded as a function over the
    values the cell reads and binds; a cell that can raise returns in the
    [result] monad, and [pattern_lookup], which prints, lives in [Py], which
    threads the text written to standard output.

    Conventions of the embedding:
    - a Python [str] is a [string]; the provenance text is taken to be ASCII,
      so the class [\d] of the regular expressions is the ten digits 0-9;
    - a Python [int] is a [Z]; a NumPy [float64] is a primitive [float];
    - [None] versus a value is [option];
    - an exception is the name of its class together with its message. *)

From Stdlib Require Import ZArith Ascii String List Lia Floats.
From stdpp Require Import base option list gmap strings.

(** ** Exceptions, results and standard output *)

Record exn := Exn { exn_class : string; exn_msg : string }.

Inductive result (A : Type) : Type :=
| Ok (a : A)
| Raise (e : exn).
Arguments Ok {A} a.
Arguments Raise {A} e.

#[global] Instance result_ret : MRet result := fun A a => Ok a.
#[global] Instance result_bind : MBind result := fun A B f m =>
  match m with
  | Ok a => f a
  | Raise e => Raise e
  end.
#[global] Instance result_fmap : FMap result := fun A B f m =>
  match m with
  | Ok a => Ok (f a)
  | Raise e => Raise e
  end.

Definition raises {A} (cls : string) (r : result A) : Prop :=
  exists msg, r = Raise (Exn cls msg).

(** A computation that may print: it receives the lines printed so far and
    returns them extended, next to its value or the exception it raised. *)
Definition Py (A : Type) : Type := list string -> result A * list string.

#[global] Instance Py_ret : MRet Py := fun A a out => (Ok a, out).
#[global] Instance Py_bind : MBind Py := fun A B f m out =>
  match m out with
  | (Ok a, out') => f a out'
  | (Raise e, out') => (Raise e, out')
  end.

Definition print (line : string) : Py unit := fun out => (Ok tt, out ++ [line]).

Definition lift {A} (r : result A) : Py A := fun out => (r, out).

(** Running a computation from an empty output. *)
Definition run {A} (m : Py A) : result A * list string := m [].

Definition AttributeError (msg : string) : exn := Exn "AttributeError" msg.
Definition ValueError (msg : string) : exn := Exn "ValueError" msg.
Definition IndexError (msg : string) : exn := Exn "IndexError" msg.
Definition KeyError (msg : string) : exn := Exn "KeyError" msg.
Definition TypeError (msg : string) : exn := Exn "TypeError" msg.

(** ** The Python built-ins the cells use *)

(** [digit_value c] is the value of a decimal digit, [None] for any other
    character. *)
Definition digit_value (c : ascii) : option Z :=
  Z.of_nat <$> Ascii.is_nat c.

Definition is_digit (c : ascii) : bool := bool_decide (is_Some (Ascii.is_nat c)).

Fixpoint all_digits (s : string) : bool :=
  match s with
  | EmptyString => true
  | String c s' => is_digit c && all_digits s'
  end.

(** A non-empty run of decimal digits: what [\d+] matches. *)
Definition digit_string (s : string) : Prop :=
  s <> EmptyString /\ all_digits s = true.

Fixpoint int_digits (acc : Z) (s : string) : option Z :=
  match s with
  | EmptyString => Some acc
  | String c s' =>
      match digit_value c with
      | Some d => int_digits (10 * acc + d) s'
      | None => None
      end
  end.

(** [int(s)] on a string of decimal digits, the only strings the notebook
    converts (they are the two [\d+] pieces of a match).  Anything else here
    is a [ValueError]; the signs, blanks and underscores that Python's [int]
    also tolerates are left out. *)
Definition py_int (s : string) : result Z :=
  match s with
  | EmptyString => Raise (ValueError "invalid literal for int() with base 10: ''")
  | _ =>
      match int_digits 0 s with
      | Some z => Ok z
      | None =>
          Raise (ValueError ("invalid literal for int() with base 10: '" +:+ s +:+ "'"))
      end
  end.

(** [s.split(sep)] for a one-character separator. *)
Fixpoint py_split (sep : ascii) (s : string) : list string :=
  match s with
  | EmptyString => [EmptyString]
  | String c s' =>
      if Ascii.eqb c sep then EmptyString :: py_split sep s'
      else
        match py_split sep s' with
        | w :: ws => String c w :: ws
        | [] => [String c EmptyString]
        end
  end.

(** The normalisation Python applies to one bound of a slice of a sequence of
    length [len]: a negative bound counts from the end, and the result is
    clamped to [0..len]. *)
Definition slice_index (len i : Z) : Z :=
  if (i <? 0)%Z then Z.max 0 (i + len) else Z.min i len.

(** [l[start:stop]] with either bound possibly omitted ([None]). *)
Definition py_slice {A} (start stop : option Z) (l : list A) : list A :=
  let len := Z.of_nat (length l) in
  let lo := from_option (slice_index len) 0%Z start in
  let hi := from_option (slice_index len) len stop in
  take (Z.to_nat (hi - lo)) (drop (Z.to_nat lo) l).

(** [l[i]]: a negative index counts from the end; out of range raises. *)
Definition py_getitem {A} (l : list A) (i : Z) : result A :=
  let len := Z.of_nat (length l) in
  let j := if (i <? 0)%Z then (i + len)%Z else i in
  if (j <? 0)%Z then Raise (IndexError "list index out of range")
  else
    match l !! Z.to_nat j with
    | Some a => Ok a
    | None => Raise (IndexError "list index out of range")
    end.

(** ** Regular expressions

    Both patterns of the notebook, [west_east,(\d+),(\d+)] and
    [south_north,(\d+),(\d+)], are sequences of literal characters and of
    [\d+].  Only group 0 (the whole match) is ever read, so the capture
    parentheses carry no information and a pattern is a list of atoms. *)

Inductive atom : Type :=
| Lit (c : ascii)      (* one literal character *)
| Digits.              (* [\d+], greedy *)

Definition regex : Type := list atom.

Fixpoint lit (s : string) : regex :=
  match s with
  | EmptyString => []
  | String c s' => Lit c :: lit s'
  end.

(** The text of a match, rebuilt from the digits a [\d+] consumed (held most
    recent first) and the text matched after them. *)
Fixpoint prepend_rev (taken : list ascii) (m : string) : string :=
  match taken with
  | [] => m
  | c :: taken' => prepend_rev taken' (String c m)
  end.

(** The longest run of digits at the head of [s], most recent first, with the
    remainder of [s]. *)
Fixpoint span_digits (taken : list ascii) (s : string) : list ascii * string :=
  match s with
  | String c s' => if is_digit c then span_digits (c :: taken) s' else (taken, s)
  | EmptyString => (taken, s)
  end.

(** Greedy repetition with backtracking: the rest of the pattern, [k], is
    tried after the longest run; each time it fails one digit is given back,
    as long as one digit stays consumed. *)
Fixpoint backtrack (k : string -> option string)
    (taken : list ascii) (rest : string) : option string :=
  match taken with
  | [] => None
  | c :: taken' =>
      match k rest with
      | Some m => Some (prepend_rev taken m)
      | None => backtrack k taken' (String c rest)
      end
  end.

(** [match_here p s] is the text matched by [p] at the very start of [s]. *)
Fixpoint match_here (p : regex) (s : string) : option string :=
  match p with
  | [] => Some EmptyString
  | Lit c :: p' =>
      match s with
      | String c' s' =>
          if Ascii.eqb c c' then String c' <$> match_here p' s' else None
      | EmptyString => None
      end
  | Digits :: p' =>
      let '(taken, rest) := span_digits [] s in
      backtrack (match_here p') taken rest
  end.

(** [re.search(p, s)]: the leftmost position at which [p] matches; the value
    is group 0 of the match object, [None] when there is no match. *)
Fixpoint re_search (p : regex) (s : string) : option string :=
  match match_here p s with
  | Some m => Some m
  | None =>
      match s with
      | String _ s' => re_search p s'
      | EmptyString => None
      end
  end.

(** ** Cell [pattern_lookup] *)

Definition pattern_lookup (pattern : regex) (s : string) : Py (option string) :=
  let match_ := re_search pattern s in
  match match_ with
  | Some group0 =>
      let result_ := group0 in
      mret (Some result_)
  | None =>
      print "No match found.";; mret None
  end.

(** ** Datasets

    What the cells need of an [xarray.Dataset]: its variables by name, which
    of them are coordinates, the size of every dimension, and its global
    attributes.  The values of a variable are a 1-D or 2-D array of floats,
    or, for the remote fields that are never read, a shape only. *)

Inductive attr_value : Type :=
| AStr (s : string)
| AFloat (x : float).

Inductive ndarray : Type :=
| Arr1 (v : list float)
| Arr2 (ncols : nat) (rows : list (list float))
| Remote (shp : list nat).

Definition shape (a : ndarray) : list nat :=
  match a with
  | Arr1 v => [length v]
  | Arr2 ncols rows => [length rows; ncols]
  | Remote shp => shp
  end.

Record DataVar := mkVar {
  var_dims : list string;
  var_data : ndarray;
  var_attrs : gmap string attr_value
}.

Record Dataset := mkDataset {
  variables : gmap string DataVar;
  coord_names : gset string;
  dims : gmap string nat;
  attrs : gmap string attr_value
}.

(** The dimension names and sizes of a variable: all that
    [calculate_dimensions] reads of it. *)
Definition var_sig (v : DataVar) : list string * list nat :=
  (var_dims v, shape (var_data v)).

(** One step of [calculate_dimensions]: dimension [d] of size [n] is seen on
    some variable.  The messages are abridged: the library also names the
    two variables and the two lengths. *)
Definition see_dim (sigs : gmap string (list string * list nat))
    (acc : result (gmap string nat)) (dn : string * nat) : result (gmap string nat) :=
  seen ← acc;
  let '(d, n) := dn in
  match sigs !! d with
  | Some ([], _) =>
      Raise (ValueError ("dimension '" +:+ d +:+ "' already exists as a scalar variable"))
  | _ =>
      match seen !! d with
      | None => Ok (<[d := n]> seen)
      | Some m =>
          if decide (m = n) then Ok seen
          else Raise (ValueError ("conflicting sizes for dimension '" +:+ d +:+ "'"))
      end
  end.

Definition dims_of_sigs (sigs : gmap string (list string * list nat))
    : result (gmap string nat) :=
  foldl (see_dim sigs) (Ok ∅)
    (map_to_list sigs ≫= fun kv => zip (fst (snd kv)) (snd (snd kv))).

(** [xarray.core.dataset.calculate_dimensions]: the size of every dimension
    used by some variable, a [ValueError] when two variables disagree. *)
Definition calculate_dimensions (vars : gmap string DataVar) : result (gmap string nat) :=
  dims_of_sigs (var_sig <$> vars).

(** [coords.update]: the new coordinate replaces any variable of that name,
    the dimension sizes are recomputed over all variables, and every
    dimension that is also a variable becomes a coordinate. *)
Definition update_coord (name : string) (v : DataVar) (ds : Dataset) : result Dataset :=
  let vars := <[name := v]> (variables ds) in
  ds_dims ← calculate_dimensions vars;
  Ok {| variables := vars;
        coord_names := coord_names ds ∪ {[name]} ∪ (dom ds_dims ∩ dom vars);
        dims := ds_dims;
        attrs := attrs ds |}.

(** [ds.assign_coords(name=(dims, data))]: a fresh variable, without
    attributes; the number of names must be the number of axes. *)
Definition assign_coords_tuple (name : string) (vdims : list string) (data : ndarray)
    (ds : Dataset) : result Dataset :=
  if decide (length vdims = length (shape data))
  then update_coord name (mkVar vdims data ∅) ds
  else Raise (ValueError "dimensions must have the same length as the number of data dimensions").

(** [ds.assign_coords(name=data)] with a bare 1-D array: the variable lies
    along the dimension of its own name. *)
Definition assign_coords_array (name : string) (data : list float)
    (ds : Dataset) : result Dataset :=
  update_coord name (mkVar [name] (Arr1 data) ∅) ds.

(** [ds.<name>.attrs[key] = value].  Attribute access on the dataset
    ([__getattr__]) tries the variables, then the dimensions, then the
    global attributes.
    - A variable is the one held by the dataset: its attribute dictionary
      is updated in place.
    - A dimension without a variable gives an index variable built for this
      access (the range of the dimension's size); the write goes to its
      dictionary and is lost with it, so the dataset is left as it was.
    - A global attribute gives its value, a string or a number, which has no
      [attrs] (the message is abridged: the library names the type).
    - Any other name is no attribute of the dataset. *)
Definition set_var_attr (name key : string) (value : attr_value)
    (ds : Dataset) : result Dataset :=
  match variables ds !! name with
  | Some v =>
      Ok {| variables :=
              <[name := mkVar (var_dims v) (var_data v) (<[key := value]> (var_attrs v))]>
                (variables ds);
            coord_names := coord_names ds;
            dims := dims ds;
            attrs := attrs ds |}
  | None =>
      match dims ds !! name with
      | Some _ => Ok ds
      | None =>
          match attrs ds !! name with
          | Some _ => Raise (AttributeError "object has no attribute 'attrs'")
          | None =>
              Raise (AttributeError
                       ("'Dataset' object has no attribute '" +:+ name +:+ "'"))
          end
      end
  end.

(** [dims_dict.get(d, d)] *)
Fixpoint dict_get_default (dims_dict : list (string * string)) (d : string) : string :=
  match dims_dict with
  | [] => d
  | (k, v) :: rest => if decide (k = d) then v else dict_get_default rest d
  end.

(** The checks [rename_dims] runs over the items of [dims_dict] before it
    renames anything. *)
Fixpoint rename_dims_check (items : list (string * string)) (ds : Dataset) : result unit :=
  match items with
  | [] => Ok tt
  | (k, v) :: rest =>
      if decide (k ∈ dom (dims ds)) then
        if decide (v ∈ dom (dims ds) \/ v ∈ dom (variables ds)) then
          Raise (ValueError ("Cannot rename " +:+ k +:+ " to " +:+ v +:+ " because " +:+ v +:+
                             " already exists. Try using swap_dims instead."))
        else rename_dims_check rest ds
      else
        Raise (ValueError ("cannot rename '" +:+ k +:+
                           "' because it is not a dimension in this dataset"))
  end.

Definition rename_var_dims (dims_dict : list (string * string)) (v : DataVar) : DataVar :=
  mkVar (dict_get_default dims_dict <$> var_dims v) (var_data v) (var_attrs v).

(** [ds.rename_dims(dims_dict)]: variables keep their names; the dimensions
    they lie along, and the keys of the size table, are renamed. *)
Definition rename_dims (dims_dict : list (string * string)) (ds : Dataset) : result Dataset :=
  rename_dims_check dims_dict ds;;
  Ok {| variables := rename_var_dims dims_dict <$> variables ds;
        coord_names := coord_names ds;
        dims := list_to_map (prod_map (dict_get_default dims_dict) id <$> map_to_list (dims ds));
        attrs := attrs ds |}.

(** ** The cells of the notebook, in order *)

Definition pattern_we : regex := lit "west_east," ++ [Digits] ++ lit "," ++ [Digits].
Definition pattern_sn : regex := lit "south_north," ++ [Digits] ++ lit "," ++ [Digits].

(** [ds.attrs['history']], passed to [re.search]. *)
Definition history_of (ds : Dataset) : result string :=
  match attrs ds !! "history" with
  | Some (AStr s) => Ok s
  | Some (AFloat _) => Raise (TypeError "expected string or bytes-like object")
  | None => Raise (KeyError "'history'")
  end.

(** [o.split(',')] where [o] is a string or [None]. *)
Definition split_commas (o : option string) : result (list string) :=
  match o with
  | Some s => Ok (py_split "," s)
  | None => Raise (AttributeError "'NoneType' object has no attribute 'split'")
  end.

(** The offset cell; it binds [y_index] and [x_index], returned here as the
    pair [(x_index, y_index)]. *)
Definition offset_cell (ds : Dataset) : Py (list string * list string) :=
  h ← lift (history_of ds);
  GSL_westeast ← pattern_lookup pattern_we h;
  h' ← lift (history_of ds);
  GSL_southnorth ← pattern_lookup pattern_sn h';
  y_index ← lift (py_slice (Some 1%Z) None <$> split_commas GSL_southnorth);
  x_index ← lift (py_slice (Some 1%Z) None <$> split_commas GSL_westeast);
  mret (x_index, y_index).

(** The slicing cell, over the two 1-D coordinate arrays [ds_meta.x] and
    [ds_meta.y]; it binds [x] and [y]. *)
Definition slicing_cell (ds_meta_x ds_meta_y : list float)
    (x_index y_index : list string) : result (list float * list float) :=
  let leny := Z.of_nat (length ds_meta_y) in
  x0 ← py_getitem x_index 0 ≫= py_int;
  x1 ← py_getitem x_index 1 ≫= py_int;
  let x := py_slice (Some x0) (Some (x1 + 1)%Z) ds_meta_x in
  y1 ← py_getitem y_index 1 ≫= py_int;
  y0 ← py_getitem y_index 0 ≫= py_int;
  let y := py_slice (Some (leny - y1 - 1)%Z) (Some (leny - y0)%Z) ds_meta_y in
  mret (x, y).

(** The keyword arguments of the call in the rename cell. *)
Definition cf_names : list (string * string) :=
  [("south_north", "y"); ("west_east", "x"); ("Time", "time")].

Definition rename_cell (ds : Dataset) : result Dataset :=
  rename_dims cf_names ds.

(** [numpy.meshgrid(x, y)]: both grids have one row per element of [y] and
    one column per element of [x]; row [i] of the first is [x], row [i] of
    the second repeats [y[i]]. *)
Definition meshgrid (x y : list float) : list (list float) * list (list float) :=
  ((fun _ => x) <$> y, (fun yi => (fun _ => yi) <$> x) <$> y).

Section Reprojection.

(** The point transform of [Transformer.from_crs(wrf_proj.crs, wgs_proj.crs)]:
    from Lambert conformal conic x, y to longitude, latitude.  It is
    computed by PROJ and is kept abstract. *)
Variable lcc_to_lonlat : float -> float -> float * float.

(** [transformer.transform(X, Y)] on two grids: point by point. *)
Definition transform_grids (X Y : list (list float)) : list (list float) * list (list float) :=
  (zip_with (zip_with (fun a b => fst (lcc_to_lonlat a b))) X Y,
   zip_with (zip_with (fun a b => snd (lcc_to_lonlat a b))) X Y).

(** The reprojection cell; it binds [lon] and [lat], arrays of
    [len(y)] rows and [len(x)] columns. *)
Definition reprojection_cell (x y : list float) : ndarray * ndarray :=
  let '(X, Y) := meshgrid x y in
  let '(lon, lat) := transform_grids X Y in
  (Arr2 (length x) lon, Arr2 (length x) lat).

End Reprojection.

Definition assign_coords_cell (x y : list float) (lon lat : ndarray)
    (ds : Dataset) : result Dataset :=
  ds ← assign_coords_tuple "lon" ["y"; "x"] lon ds;
  ds ← assign_coords_tuple "lat" ["y"; "x"] lat ds;
  ds ← assign_coords_array "x" x ds;
  assign_coords_array "y" y ds.

Definition attrs_cell (ds : Dataset) : result Dataset :=
  ds ← set_var_attr "x" "axis" (AStr "X") ds;
  ds ← set_var_attr "x" "standard_name" (AStr "projection_x_coordinate") ds;
  ds ← set_var_attr "x" "long_name" (AStr "x-coordinate in projected coordinate system") ds;
  ds ← set_var_attr "x" "resolution" (AFloat 1000) ds;
  ds ← set_var_attr "y" "axis" (AStr "Y") ds;
  ds ← set_var_attr "y" "standard_name" (AStr "projection_y_coordinate") ds;
  ds ← set_var_attr "y" "long_name" (AStr "y-coordinate in projected coordinate system") ds;
  ds ← set_var_attr "y" "resolution" (AFloat 1000) ds;
  ds ← set_var_attr "lon" "units" (AStr "degrees_east") ds;
  ds ← set_var_attr "lon" "standard_name" (AStr "longitude") ds;
  ds ← set_var_attr "lon" "long_name" (AStr "longitude") ds;
  ds ← set_var_attr "lat" "units" (AStr "degrees_north") ds;
  ds ← set_var_attr "lat" "standard_name" (AStr "latitude") ds;
  set_var_attr "lat" "long_name" (AStr "latitude") ds.

(** The annotation of the target dataset with the derived coordinates: the
    [assign_coords] cell followed by the attribute cell. *)
Definition annotate (x y : list float) (lon lat : ndarray) (ds : Dataset) : result Dataset :=
  assign_coords_cell x y lon lat ds ≫= attrs_cell.

(** What a run of the cells leaves bound, up to the annotated dataset. *)
Record Bound := mkBound {
  b_x_index : list string;
  b_y_index : list string;
  b_x : list float;
  b_y : list float;
  b_lon : ndarray;
  b_lat : ndarray;
  b_ds : Dataset
}.

(** The cells run top to bottom; the first exception stops the run.  The
    two cells that open the remote datasets come before (their results are
    the arguments here); the cell that writes the reference system through
    rioxarray and the plotting cell come after and are not embedded. *)
Definition notebook (lcc_to_lonlat : float -> float -> float * float)
    (ds : Dataset) (ds_meta_x ds_meta_y : list float) : Py Bound :=
  '(x_index, y_index) ← offset_cell ds;
  '(x, y) ← lift (slicing_cell ds_meta_x ds_meta_y x_index y_index);
  ds ← lift (rename_cell ds);
  let '(lon, lat) := reprojection_cell lcc_to_lonlat x y in
  ds ← lift (assign_coords_cell x y lon lat ds);
  ds ← lift (attrs_cell ds);
  mret (mkBound x_index y_index x y lon lat ds).

(** ** Specification-level notions used by the statements *)

(** [matches p m]: the text [m] belongs to the language of the pattern [p]. *)
Inductive matches : regex -> string -> Prop :=
| matches_nil : matches [] EmptyString
| matches_lit c p m : matches p m -> matches (Lit c :: p) (String c m)
| matches_digits p d m :
    digit_string d -> matches p m -> matches (Digits :: p) (d +:+ m).

(** [occurs p s]: some substring of [s] is matched by [p]. *)
Definition occurs (p : regex) (s : string) : Prop :=
  exists pre m post, s = pre +:+ m +:+ post /\ matches p m.

(** The pattern [<tok>,(\d+),(\d+)] for an axis token. *)
Definition axis_pattern (tok : string) : regex :=
  lit tok ++ [Lit ","%char; Digits; Lit ","%char; Digits].

(** The text [<tok>,<start>,<end>] of an axis-labeled offset. *)
Definition offset_text (tok d1 d2 : string) : string :=
  tok +:+ "," +:+ d1 +:+ "," +:+ d2.

(** [s] contains an axis-labeled offset for the token [tok]. *)
Definition axis_occurrence (tok s : string) : Prop :=
  exists pre d1 d2 post,
    s = pre +:+ offset_text tok d1 d2 +:+ post /\ digit_string d1 /\ digit_string d2.

(** [s] is empty or begins with a character that is not a digit. *)
Definition starts_without_digit (s : string) : Prop :=
  match s with
  | EmptyString => True
  | String c _ => is_digit c = false
  end.

(** [h] contains the offset [<tok>,d1,d2], the digits [d2] are not followed
    by a further digit, and the token occurs nowhere else in [h]: the one
    occurrence per axis that the history of a subset carries. *)
Definition sole_offset (tok d1 d2 h : string) : Prop :=
  exists pre post,
    h = pre +:+ offset_text tok d1 d2 +:+ post /\
    digit_string d1 /\ digit_string d2 /\ starts_without_digit post /\
    forall pre' post', h = pre' +:+ tok +:+ post' -> pre' = pre.

(** [t] is a prefix of [s]. *)
Fixpoint starts_with (t s : string) : bool :=
  match t, s with
  | EmptyString, _ => true
  | String a t', String b s' => Ascii.eqb a b && starts_with t' s'
  | String _ _, EmptyString => false
  end.

(** The positions of [s], counted from [i], at which [t] occurs. *)
Fixpoint positions (t s : string) (i : nat) : list nat :=
  (if starts_with t s then [i] else []) ++
  match s with
  | EmptyString => []
  | String _ s' => positions t s' (S i)
  end.

(** [sep] does not occur in [s]. *)
Fixpoint sep_free (sep : ascii) (s : string) : bool :=
  match s with
  | EmptyString => true
  | String c s' => negb (Ascii.eqb c sep) && sep_free sep s'
  end.

(** The two offsets of one axis as the slicing cell reads them off an index
    list: [(int(index[0]), int(index[1]))]. *)
Definition offsets_read (index : list string) : result (Z * Z) :=
  a ← py_getitem index 0 ≫= py_int;
  b ← py_getitem index 1 ≫= py_int;
  mret (a, b).

(** The exception raised by [None.split(',')]. *)
Definition none_split_error : exn :=
  AttributeError "'NoneType' object has no attribute 'split'".

(** A target dataset in the shape of the AORC file: one remote field over
    (Time, south_north, west_east), no coordinates, and a history text. *)
Definition sample_target (h : string) (T H W : nat) : Dataset :=
  {| variables :=
       {[ "LWDOWN" := mkVar ["Time"; "south_north"; "west_east"] (Remote [T; H; W]) ∅ ]};
     coord_names := ∅;
     dims := {[ "Time" := T; "south_north" := H; "west_east" := W ]};
     attrs := {[ "history" := AStr h ]} |}.

(** Element [(i, j)] of a 2-D array. *)
Definition arr2_get (a : ndarray) (i j : nat) : option float :=
  match a with
  | Arr2 _ rows => rows !! i ≫= fun row => row !! j
  | _ => None
  end.

(** The coordinate values 0, 1, ..., n-1. *)
Definition ramp (n : nat) : list float :=
  (fun i => PrimFloat.of_uint63 (Uint63.of_Z (Z.of_nat i))) <$> seq 0 n.

(** What [rename_dims] checks of the dataset for the call of the rename
    cell: the three old names are dimensions, and none of the new names is a
    dimension or a variable already. *)
Definition cf_renamable (ds : Dataset) : Prop :=
  (("south_north" ∈ dom (dims ds)) /\ ("west_east" ∈ dom (dims ds)) /\
   ("Time" ∈ dom (dims ds))) /\
  (("y" ∉ dom (dims ds)) /\ ("x" ∉ dom (dims ds)) /\ ("time" ∉ dom (dims ds))) /\
  (("y" ∉ dom (variables ds)) /\ ("x" ∉ dom (variables ds)) /\
   ("time" ∉ dom (variables ds))).

(** The (dimension, size) pairs of a variable. *)
Definition var_axes (v : DataVar) : list (string * nat) :=
  zip (var_dims v) (shape (var_data v)).

(** The variables [vars] agree with the size table [D]: every axis of every
    variable has the size [D] gives its dimension, and no dimension of [D]
    is the name of a variable without dimensions. *)
Definition consistent (D : gmap string nat) (vars : gmap string DataVar) : Prop :=
  (forall k v d n, vars !! k = Some v -> (d, n) ∈ var_axes v -> D !! d = Some n) /\
  (forall d v, is_Some (D !! d) -> vars !! d = Some v -> var_dims v <> []).

(** The names of the four coordinates the annotation writes. *)
Definition annotated : list string := ["x"; "y"; "lon"; "lat"].

(** [ds'] is [ds] up to the attributes of the variables listed in [names]:
    same variables elsewhere, same dimensions and shapes everywhere. *)
Definition attrs_only (names : list string) (ds ds' : Dataset) : Prop :=
  dims ds' = dims ds /\ coord_names ds' = coord_names ds /\ attrs ds' = attrs ds /\
  (forall k, k ∉ names -> variables ds' !! k = variables ds !! k) /\
  (forall k, var_sig <$> variables ds' !! k = var_sig <$> variables ds !! k).

(** The dataset has the four coordinates among its variables. *)
Definition has_annotated (ds : Dataset) : Prop :=
  forall k, k ∈ annotated -> is_Some (variables ds !! k).

(** Attribute access [ds.<name>] gives something that carries [attrs]: the
    name is a variable or a dimension of the dataset. *)
Definition resolves (ds : Dataset) (name : string) : Prop :=
  is_Some (variables ds !! name) \/ is_Some (dims ds !! name).

(** The four names of the attribute cell all resolve. *)
Definition annotatable (ds : Dataset) : Prop :=
  forall k, k ∈ annotated -> resolves ds k.

(** One attribute set on a variable. *)
Definition with_attr (key : string) (value : attr_value) (v : DataVar) : DataVar :=
  mkVar (var_dims v) (var_data v) (<[key := value]> (var_attrs v)).

(** Attributes set one after the other, first to last. *)
Definition put_attrs (kvs : list (string * attr_value)) (v : DataVar) : DataVar :=
  foldl (fun u kv => with_attr (fst kv) (snd kv) u) v kvs.

(** The attributes the attribute cell writes on each coordinate, in the
    order of its assignments; nothing for any other name. *)
Definition cf_attrs (name : string) : list (string * attr_value) :=
  if decide (name = "x") then
    [("axis", AStr "X"); ("standard_name", AStr "projection_x_coordinate");
     ("long_name", AStr "x-coordinate in projected coordinate system");
     ("resolution", AFloat 1000)]
  else if decide (name = "y") then
    [("axis", AStr "Y"); ("standard_name", AStr "projection_y_coordinate");
     ("long_name", AStr "y-coordinate in projected coordinate system");
     ("resolution", AFloat 1000)]
  else if decide (name = "lon") then
    [("units", AStr "degrees_east"); ("standard_name", AStr "longitude");
     ("long_name", AStr "longitude")]
  else if decide (name = "lat") then
    [("units", AStr "degrees_north"); ("standard_name", AStr "latitude");
     ("long_name", AStr "latitude")]
  else [].

(** A target already carrying the CF dimension names: one remote field
    over (time, y, x). *)
Definition renamed_target (T H W : nat) : Dataset :=
  {| variables := {[ "LWDOWN" := mkVar ["time"; "y"; "x"] (Remote [T; H; W]) ∅ ]};
     coord_names := ∅;
     dims := {[ "time" := T; "y" := H; "x" := W ]};
     attrs := ∅ |}.

(** A dataset with [lon] and [lat] over (y, x) whose [y] and [x] are
    dimensions only: there is no coordinate variable for either. *)
Definition bare_grid (H W : nat) : Dataset :=
  {| variables :=
       {[ "lon" := mkVar ["y"; "x"] (Remote [H; W]) {[ "grid_mapping" := AStr "crs" ]};
          "lat" := mkVar ["y"; "x"] (Remote [H; W]) ∅ ]};
     coord_names := {[ "lon"; "lat" ]};
     dims := {[ "y" := H; "x" := W ]};
     attrs := ∅ |}.

(** The dataset without the variable [name]. *)
Definition drop_var (name : string) (ds : Dataset) : Dataset :=
  {| variables := delete name (variables ds);
     coord_names := coord_names ds;
     dims := dims ds;
     attrs := attrs ds |}.

(** The cells after the offset cell print nothing: they run in [result]. *)
Definition after_offsets (tr : float -> float -> float * float) (ds : Dataset)
    (mx my : list float) (x_index y_index : list string) : result Bound :=
  match slicing_cell mx my x_index y_index with
  | Ok (x, y) =>
      match rename_cell ds with
      | Ok ds1 =>
          match assign_coords_cell x y (fst (reprojection_cell tr x y))
                  (snd (reprojection_cell tr x y)) ds1 with
          | Ok ds2 =>
              match attrs_cell ds2 with
              | Ok ds3 =>
                  Ok (mkBound x_index y_index x y (fst (reprojection_cell tr x y))
                        (snd (reprojection_cell tr x y)) ds3)
              | Raise e => Raise e
              end
          | Raise e => Raise e
          end
      | Raise e => Raise e
      end
  | Raise e => Raise e
  end.

(** * Properties *)

(** ** Strings *)

Lemma sapp_nil_r (s : string) : s +:+ "" = s.
Proof. induction s as [|c s IH]; [done|]. change (String c (s +:+ "") = String c s). by rewrite IH. Qed.

Lemma sapp_assoc (a b c : string) : (a +:+ b) +:+ c = a +:+ b +:+ c.
Proof.
  induction a as [|x a IH]; [done|].
  change (String x ((a +:+ b) +:+ c) = String x (a +:+ b +:+ c)). by rewrite IH.
Qed.

Lemma sapp_cons (x : ascii) (a b : string) : String x a +:+ b = String x (a +:+ b).
Proof. done. Qed.

Lemma prepend_rev_app (t1 t2 : list ascii) (s : string) :
  prepend_rev (t1 ++ t2) s = prepend_rev t2 (prepend_rev t1 s).
Proof. revert s. induction t1 as [|c t1 IH]; intros s; simpl; [done|]. by rewrite IH. Qed.

Lemma prepend_rev_sapp (t : list ascii) (a b : string) :
  prepend_rev t (a +:+ b) = prepend_rev t a +:+ b.
Proof. revert a. induction t as [|c t IH]; intros a; simpl; [done|]. by rewrite <- IH. Qed.

Lemma prepend_rev_digits (t : list ascii) (m : string) :
  Forall (fun c => is_digit c = true) t -> all_digits m = true ->
  all_digits (prepend_rev t m) = true.
Proof.
  intros Ht. revert m. induction Ht as [|c t Hc Ht IH]; intros m Hm; simpl; [done|].
  apply IH. simpl. by rewrite Hc, Hm.
Qed.

Lemma prepend_rev_nonempty (t : list ascii) (m : string) :
  t <> [] -> prepend_rev t m <> "".
Proof.
  revert m. induction t as [|c t IH]; intros m Hne; [done|]. simpl.
  destruct t as [|c' t]; [done|]. by apply IH.
Qed.

(** ** The matcher agrees with the language of the pattern *)

Lemma span_digits_spec (s : string) (acc : list ascii) :
  exists t rest,
    span_digits acc s = (t ++ acc, rest) /\ prepend_rev t rest = s /\
    Forall (fun c => is_digit c = true) t.
Proof.
  revert acc. induction s as [|c s IH]; intros acc.
  - by exists [], "".
  - simpl. destruct (is_digit c) eqn:Hc.
    + destruct (IH (c :: acc)) as (t & rest & Hs & Hp & Hd).
      exists (t ++ [c]), rest. split_and!.
      * by rewrite Hs, <- app_assoc.
      * rewrite prepend_rev_app. simpl. by rewrite Hp.
      * apply Forall_app. split; [done|]. by constructor.
    + by exists [], (String c s).
Qed.

Lemma span_digits_run (d s : string) (acc : list ascii) :
  all_digits d = true ->
  exists t, span_digits acc (d +:+ s) = span_digits (t ++ acc) s /\
            prepend_rev t "" = d /\ (d <> "" -> t <> []).
Proof.
  revert acc. induction d as [|c d IH]; intros acc Hd.
  - by exists [].
  - simpl in Hd. apply andb_prop in Hd as [Hc Hd].
    rewrite sapp_cons. simpl. rewrite Hc.
    destruct (IH (c :: acc) Hd) as (t & Hs & Hp & _).
    exists (t ++ [c]). split_and!.
    + by rewrite Hs, <- app_assoc.
    + rewrite prepend_rev_app. simpl. by rewrite Hp.
    + intros _. by destruct t.
Qed.

Lemma backtrack_sound (k : string -> option string) (taken : list ascii) (rest m : string) :
  backtrack k taken rest = Some m ->
  exists t1 t2 m', taken = t1 ++ t2 /\ t2 <> [] /\
                   k (prepend_rev t1 rest) = Some m' /\ m = prepend_rev t2 m'.
Proof.
  revert rest. induction taken as [|c taken IH]; intros rest; simpl; [done|].
  destruct (k rest) as [m'|] eqn:Hk.
  - intros [= <-]. by exists [], (c :: taken), m'.
  - intros (t1 & t2 & m' & -> & Hne & Hk' & ->)%IH.
    by exists (c :: t1), t2, m'.
Qed.

Lemma backtrack_complete (k : string -> option string) (t1 t2 : list ascii) (rest : string) :
  t2 <> [] -> is_Some (k (prepend_rev t1 rest)) -> is_Some (backtrack k (t1 ++ t2) rest).
Proof.
  intros Hne. revert rest. induction t1 as [|c t1 IH]; intros rest Hk; simpl in *.
  - destruct t2 as [|c t2]; [done|]. simpl. by destruct Hk as [m ->].
  - destruct (k rest); [done|]. by apply IH.
Qed.

Lemma match_here_sound (p : regex) (s m : string) :
  match_here p s = Some m -> matches p m /\ exists post, s = m +:+ post.
Proof.
  revert s m. induction p as [|[c|] p IH]; intros s m; simpl.
  - intros [= <-]. split; [constructor|]. by exists s.
  - destruct s as [|c' s]; [done|]. destruct (Ascii.eqb_spec c c') as [<-|]; [|done].
    destruct (match_here p s) as [m'|] eqn:Hm; [|done]. intros [= <-].
    destruct (IH _ _ Hm) as [Hp [post ->]].
    split; [by constructor|]. by exists post.
  - destruct (span_digits_spec s []) as (t & rest & Hs & Hp & Hd).
    rewrite Hs, app_nil_r.
    intros (t1 & t2 & m' & -> & Hne & Hk & ->)%backtrack_sound.
    destruct (IH _ _ Hk) as [Hm' [post Hpost]].
    apply Forall_app in Hd as [_ Hd2].
    replace (prepend_rev t2 m') with (prepend_rev t2 "" +:+ m')
      by (by rewrite <- prepend_rev_sapp).
    split.
    + constructor; [|done]. split; [by apply prepend_rev_nonempty|].
      by apply prepend_rev_digits.
    + exists post. rewrite <- Hp, prepend_rev_app, Hpost, sapp_assoc.
      by rewrite <- !prepend_rev_sapp.
Qed.

Lemma match_here_complete (p : regex) (m : string) :
  matches p m -> forall post, is_Some (match_here p (m +:+ post)).
Proof.
  induction 1 as [|c p m Hm IH|p d m [Hne Hd] Hm IH]; intros post; simpl.
  - done.
  - rewrite Ascii.eqb_refl. destruct (IH post) as [m' ->]. done.
  - rewrite sapp_assoc.
    destruct (span_digits_run d (m +:+ post) [] Hd) as (t2 & -> & _ & Ht2).
    destruct (span_digits_spec (m +:+ post) (t2 ++ [])) as (t1 & rest & -> & Hp & _).
    rewrite app_nil_r. apply backtrack_complete; [by apply Ht2|].
    rewrite Hp. apply IH.
Qed.

Lemma re_search_sound (p : regex) (s m : string) :
  re_search p s = Some m ->
  exists pre post, s = pre +:+ m +:+ post /\ matches p m.
Proof.
  induction s as [|c s IH]; simpl.
  - destruct (match_here p "") as [m'|] eqn:Hm; [|done]. intros [= <-].
    destruct (match_here_sound _ _ _ Hm) as [Hp [post Hs]]. by exists "", post.
  - destruct (match_here p (String c s)) as [m'|] eqn:Hm.
    + intros [= <-]. destruct (match_here_sound _ _ _ Hm) as [Hp [post Hs]].
      by exists "", post.
    + intros (pre & post & -> & Hp)%IH. by exists (String c pre), post.
Qed.

Lemma re_search_complete (p : regex) (s : string) :
  occurs p s -> is_Some (re_search p s).
Proof.
  intros (pre & m & post & -> & Hm). induction pre as [|c pre IH].
  - change ("" +:+ m +:+ post) with (m +:+ post).
    destruct (match_here_complete p m Hm post) as [m' Hm'].
    destruct (m +:+ post); simpl; by rewrite Hm'.
  - rewrite sapp_cons. simpl. by destruct (match_here p _).
Qed.

Lemma re_search_none (p : regex) (s : string) :
  re_search p s = None <-> ~ occurs p s.
Proof.
  split.
  - intros Hn [m Hm]%re_search_complete. congruence.
  - intros Hno. destruct (re_search p s) as [m|] eqn:Hs; [|done].
    destruct Hno. apply re_search_sound in Hs as (pre & post & -> & Hm).
    by exists pre, m, post.
Qed.

(** ** Axis patterns *)

Lemma pattern_we_axis : pattern_we = axis_pattern "west_east".
Proof. reflexivity. Qed.

Lemma pattern_sn_axis : pattern_sn = axis_pattern "south_north".
Proof. reflexivity. Qed.

Lemma matches_lit_app (t : string) (p : regex) (m : string) :
  matches (lit t ++ p) m <-> exists m', m = t +:+ m' /\ matches p m'.
Proof.
  revert m. induction t as [|c t IH]; intros m; simpl.
  - split; [by exists m|]. by intros (m' & -> & Hm).
  - split.
    + inversion 1 as [|c' p' m1 Hm1|]; subst. apply IH in Hm1 as (m' & -> & Hm').
      by exists m'.
    + intros (m' & -> & Hm'). rewrite sapp_cons. constructor. apply IH. by exists m'.
Qed.

Lemma matches_axis_pattern (tok m : string) :
  matches (axis_pattern tok) m <->
  exists d1 d2, m = offset_text tok d1 d2 /\ digit_string d1 /\ digit_string d2.
Proof.
  unfold axis_pattern, offset_text. rewrite matches_lit_app. split.
  - intros (m' & -> & Hm).
    inversion Hm as [|c p1 m1 Hm1|]; subst.
    inversion Hm1 as [| |p2 d1 m2 Hd1 Hm2]; subst.
    inversion Hm2 as [|c p3 m3 Hm3|]; subst.
    inversion Hm3 as [| |p4 d2 m4 Hd2 Hm4]; subst.
    inversion Hm4; subst. exists d1, d2. by rewrite sapp_nil_r.
  - intros (d1 & d2 & -> & Hd1 & Hd2). eexists; split; [done|].
    change ("," +:+ d1 +:+ "," +:+ d2) with (String "," (d1 +:+ String "," d2)).
    constructor. constructor; [done|]. constructor.
    rewrite <- (sapp_nil_r d2). constructor; [done|]. constructor.
Qed.

Lemma occurs_axis_pattern (tok s : string) :
  occurs (axis_pattern tok) s <-> axis_occurrence tok s.
Proof.
  unfold occurs, axis_occurrence. split.
  - intros (pre & m & post & -> & (d1 & d2 & -> & Hd1 & Hd2)%matches_axis_pattern).
    by exists pre, d1, d2, post.
  - intros (pre & d1 & d2 & post & -> & Hd1 & Hd2).
    exists pre, (offset_text tok d1 d2), post. split; [done|].
    apply matches_axis_pattern. by exists d1, d2.
Qed.

(** ** A history with one offset per axis *)

Lemma slength_app (a b : string) : String.length (a +:+ b) = String.length a + String.length b.
Proof. induction a as [|x a IH]; [done|]. simpl. by rewrite IH. Qed.

Lemma sapp_same_length (a a' b b' : string) :
  a +:+ b = a' +:+ b' -> String.length a = String.length a' -> a = a'.
Proof.
  revert a'. induction a as [|x a IH]; intros [|x' a']; simpl; try done.
  intros [= -> Heq] [= Hlen]. f_equal. by apply IH.
Qed.

Lemma starts_with_app (t post : string) : starts_with t (t +:+ post) = true.
Proof. induction t as [|a t IH]; [done|]. simpl. by rewrite Ascii.eqb_refl, IH. Qed.

Lemma positions_spec (t pre post : string) (i : nat) :
  i + String.length pre ∈ positions t (pre +:+ t +:+ post) i.
Proof.
  revert i. induction pre as [|c pre IH]; intros i.
  - change ("" +:+ t +:+ post) with (t +:+ post). simpl.
    destruct (t +:+ post) eqn:Heq; simpl; rewrite <- ?Heq, starts_with_app, Nat.add_0_r;
      apply elem_of_app; left; by left.
  - simpl. apply elem_of_app. right.
    replace (i + S (String.length pre)) with (S i + String.length pre) by lia. apply IH.
Qed.

(** The token occurs once when a single position is found for it. *)
Lemma sole_by_positions (tok h pre rest : string) :
  h = pre +:+ tok +:+ rest -> positions tok h 0 = [String.length pre] ->
  forall pre' post', h = pre' +:+ tok +:+ post' -> pre' = pre.
Proof.
  intros Hh Hpos pre' post' Hh'.
  pose proof (positions_spec tok pre' post' 0) as Hin.
  rewrite <- Hh', Hpos in Hin. apply list_elem_of_singleton in Hin. simpl in Hin.
  apply (sapp_same_length pre' pre (tok +:+ post') (tok +:+ rest)); [congruence|done].
Qed.

Lemma match_here_lit (t : string) (p : regex) (s : string) :
  match_here (lit t ++ p) (t +:+ s) = String.append t <$> match_here p s.
Proof.
  induction t as [|c t IH].
  - change (match_here p s = String.append "" <$> match_here p s).
    destruct (match_here p s); reflexivity.
  - change (String c t +:+ s) with (String c (t +:+ s)).
    change (lit (String c t) ++ p) with (Lit c :: (lit t ++ p)).
    cbn [match_here]. rewrite Ascii.eqb_refl, IH.
    destruct (match_here p s); reflexivity.
Qed.

Lemma span_digits_stop (acc : list ascii) (s : string) :
  starts_without_digit s -> span_digits acc s = (acc, s).
Proof. destruct s as [|c s]; simpl; [done|]. by intros ->. Qed.

Lemma match_here_digits_stop (p : regex) (d s m : string) :
  digit_string d -> starts_without_digit s -> match_here p s = Some m ->
  match_here (Digits :: p) (d +:+ s) = Some (d +:+ m).
Proof.
  intros [Hne Hd] Hs Hm. simpl.
  destruct (span_digits_run d s [] Hd) as (t & -> & Ht & Htne).
  rewrite app_nil_r, (span_digits_stop t s Hs).
  destruct t as [|c t]; [by destruct Htne|]. cbn [backtrack]. rewrite Hm.
  by rewrite <- Ht, <- prepend_rev_sapp.
Qed.

Lemma match_here_offset_text (tok d1 d2 post : string) :
  digit_string d1 -> digit_string d2 -> starts_without_digit post ->
  match_here (axis_pattern tok) (offset_text tok d1 d2 +:+ post) =
    Some (offset_text tok d1 d2).
Proof.
  intros Hd1 Hd2 Hpost. unfold axis_pattern, offset_text.
  rewrite !sapp_assoc, match_here_lit.
  change ("," +:+ d1 +:+ "," +:+ d2 +:+ post) with (String "," (d1 +:+ String "," (d2 +:+ post))).
  change (match_here (Lit "," :: ?q) (String "," ?s))
    with (String ","%char <$> match_here q s).
  assert (H2 : match_here [Digits] (d2 +:+ post) = Some d2).
  { rewrite (match_here_digits_stop [] d2 post "") by done. by rewrite sapp_nil_r. }
  assert (H1 : match_here [Lit ","%char; Digits] (String "," (d2 +:+ post)) =
               Some (String "," d2)).
  { change (match_here [Lit ","%char; Digits] (String "," (d2 +:+ post)))
      with (String ","%char <$> match_here [Digits] (d2 +:+ post)). by rewrite H2. }
  rewrite (match_here_digits_stop [Lit ","%char; Digits] d1 (String "," (d2 +:+ post))
             (String "," d2) Hd1 eq_refl H1). done.
Qed.

Lemma re_search_skip (p : regex) (pre rest m : string) :
  (forall pre1 pre2, pre = pre1 +:+ pre2 -> pre2 <> "" ->
                     match_here p (pre2 +:+ rest) = None) ->
  match_here p rest = Some m -> re_search p (pre +:+ rest) = Some m.
Proof.
  intros Hnone Hm. induction pre as [|c pre IH].
  - change ("" +:+ rest) with rest. destruct rest; simpl; by rewrite Hm.
  - change (String c pre +:+ rest) with (String c (pre +:+ rest)). cbn [re_search].
    change (String c (pre +:+ rest)) with (String c pre +:+ rest).
    rewrite (Hnone "" (String c pre)) by done.
    apply IH. intros pre1 pre2 -> Hne. by apply (Hnone (String c pre1) pre2).
Qed.

(** With one offset per axis, the search returns that offset. *)
Lemma sole_offset_search (tok d1 d2 h : string) :
  sole_offset tok d1 d2 h ->
  re_search (axis_pattern tok) h = Some (offset_text tok d1 d2).
Proof.
  intros (pre & post & -> & Hd1 & Hd2 & Hpost & Hsole).
  apply re_search_skip; [|by apply match_here_offset_text].
  intros pre1 pre2 -> Hne.
  destruct (match_here _ _) as [m'|] eqn:Hm; [|done]. exfalso.
  apply match_here_sound in Hm as [(e1 & e2 & -> & _)%matches_axis_pattern [post' Heq]].
  assert (Hpre : pre1 = pre1 +:+ pre2).
  { apply (Hsole pre1 ("," +:+ e1 +:+ "," +:+ e2 +:+ post')).
    rewrite sapp_assoc, Heq. unfold offset_text. by rewrite !sapp_assoc. }
  apply (f_equal String.length) in Hpre. rewrite slength_app in Hpre.
  destruct pre2; [done|]. simpl in Hpre. lia.
Qed.

(** ** Built-ins *)

Lemma py_split_sep_free (sep : ascii) (a : string) :
  sep_free sep a = true -> py_split sep a = [a].
Proof.
  induction a as [|c a IH]; simpl; [done|].
  intros [Hc Ha]%andb_prop. apply negb_true_iff in Hc. rewrite Hc, (IH Ha). done.
Qed.

Lemma py_split_app (sep : ascii) (a rest : string) :
  sep_free sep a = true ->
  py_split sep (a +:+ String sep rest) = a :: py_split sep rest.
Proof.
  induction a as [|c a IH]; simpl.
  - intros _. by rewrite Ascii.eqb_refl.
  - intros [Hc Ha]%andb_prop. apply negb_true_iff in Hc. rewrite Hc, (IH Ha). done.
Qed.

Lemma is_digit_not_comma (c : ascii) : is_digit c = true -> Ascii.eqb c "," = false.
Proof. destruct c as [[] [] [] [] [] [] [] []]; by vm_compute. Qed.

Lemma digits_sep_free (d : string) : all_digits d = true -> sep_free "," d = true.
Proof.
  induction d as [|c d IH]; simpl; [done|].
  intros [Hc Hd]%andb_prop. by rewrite (is_digit_not_comma c Hc), (IH Hd).
Qed.

Lemma py_split_offset_text (tok d1 d2 : string) :
  sep_free "," tok = true -> digit_string d1 -> digit_string d2 ->
  py_split "," (offset_text tok d1 d2) = [tok; d1; d2].
Proof.
  intros Ht [_ H1] [_ H2]. unfold offset_text.
  change ("," +:+ d1 +:+ "," +:+ d2) with (String "," (d1 +:+ String "," d2)).
  rewrite py_split_app by done. rewrite py_split_app by by apply digits_sep_free.
  by rewrite py_split_sep_free by by apply digits_sep_free.
Qed.

Lemma digit_value_range (c : ascii) :
  is_digit c = true -> exists v, digit_value c = Some v /\ (0 <= v <= 9)%Z.
Proof.
  unfold is_digit, digit_value. intros [n Hn]%bool_decide_eq_true. rewrite Hn. simpl.
  exists (Z.of_nat n). split; [done|].
  destruct c as [[] [] [] [] [] [] [] []]; simpl in Hn; inversion Hn; lia.
Qed.

Lemma int_digits_nonneg (d : string) (acc : Z) :
  all_digits d = true -> (0 <= acc)%Z ->
  exists z, int_digits acc d = Some z /\ (0 <= z)%Z.
Proof.
  revert acc. induction d as [|c d IH]; intros acc Hd Hacc; simpl.
  - by exists acc.
  - simpl in Hd. apply andb_prop in Hd as [Hc Hd].
    destruct (digit_value_range c Hc) as (v & -> & Hv). apply IH; [done|lia].
Qed.

(** [int] of a run of digits succeeds, and the integer is not negative. *)
Lemma py_int_digit_string (d : string) :
  digit_string d -> exists z, py_int d = Ok z /\ (0 <= z)%Z.
Proof.
  intros [Hne Hd]. destruct (int_digits_nonneg d 0 Hd) as (z & Hz & Hpos); [lia|].
  exists z. split; [|done]. unfold py_int. rewrite Hz. by destruct d.
Qed.

Lemma py_int_nonneg (s : string) (z : Z) : py_int s = Ok z -> (0 <= z)%Z.
Proof.
  assert (Hgen : forall s acc z, (0 <= acc)%Z -> int_digits acc s = Some z -> (0 <= z)%Z).
  { clear. induction s as [|c s IH]; intros acc z Hacc; simpl; [by intros [= <-]|].
    unfold digit_value. destruct (Ascii.is_nat c) as [n|]; simpl; [|done].
    apply IH. lia. }
  unfold py_int. destruct s as [|c s]; [done|].
  destruct (int_digits 0 (String c s)) as [z'|] eqn:Hz; [|done].
  intros [= <-]. by apply (Hgen (String c s) 0%Z).
Qed.

Lemma offsets_read_pair (a b : string) (za zb : Z) :
  py_int a = Ok za -> py_int b = Ok zb -> offsets_read [a; b] = Ok (za, zb).
Proof. intros Ha Hb. unfold offsets_read. simpl. rewrite Ha. simpl. by rewrite Hb. Qed.

(** A slice with both bounds given, in order and within the sequence. *)
Lemma py_slice_in_range {A} (l : list A) (a b : Z) :
  (0 <= a <= b)%Z -> (b <= Z.of_nat (length l))%Z ->
  py_slice (Some a) (Some b) l = take (Z.to_nat (b - a)) (drop (Z.to_nat a) l) /\
  length (py_slice (Some a) (Some b) l) = Z.to_nat (b - a) /\
  forall i, (i < Z.to_nat (b - a))%nat ->
            py_slice (Some a) (Some b) l !! i = l !! (Z.to_nat a + i)%nat.
Proof.
  intros Hab Hb. unfold py_slice. simpl. unfold slice_index.
  destruct (Z.ltb_spec a 0); [lia|]. destruct (Z.ltb_spec b 0); [lia|].
  rewrite !Z.min_l by lia. split_and!.
  - done.
  - rewrite length_take, length_drop. lia.
  - intros i Hi. by rewrite lookup_take_lt, lookup_drop.
Qed.

(** ** Offset extraction *)

(** The offset cell, case by case on the two searches. *)
Lemma offset_cell_cases (ds : Dataset) (h : string) (out : list string) :
  history_of ds = Ok h ->
  offset_cell ds out =
    match re_search pattern_we h, re_search pattern_sn h with
    | Some gw, Some gs =>
        (Ok (py_slice (Some 1%Z) None (py_split "," gw),
             py_slice (Some 1%Z) None (py_split "," gs)), out)
    | Some _, None => (Raise none_split_error, out ++ ["No match found."])
    | None, Some _ => (Raise none_split_error, out ++ ["No match found."])
    | None, None =>
        (Raise none_split_error, (out ++ ["No match found."]) ++ ["No match found."])
    end.
Proof.
  intros Hh. unfold offset_cell, pattern_lookup, mbind, Py_bind, lift, print, mret, Py_ret.
  rewrite Hh. by destruct (re_search pattern_we h), (re_search pattern_sn h).
Qed.

Lemma notebook_stops_with_offset_cell (tr : float -> float -> float * float)
    (ds : Dataset) (mx my : list float) (e : exn) (out0 out : list string) :
  offset_cell ds out0 = (Raise e, out) -> notebook tr ds mx my out0 = (Raise e, out).
Proof. intros H. unfold notebook, mbind, Py_bind. by rewrite H. Qed.

Lemma lookup_found (tok h : string) :
  sep_free "," tok = true -> axis_occurrence tok h ->
  exists d1 d2, re_search (axis_pattern tok) h = Some (offset_text tok d1 d2) /\
                digit_string d1 /\ digit_string d2 /\
                (exists pre post, h = pre +:+ offset_text tok d1 d2 +:+ post) /\
                py_slice (Some 1%Z) None (py_split "," (offset_text tok d1 d2)) = [d1; d2].
Proof.
  intros Htok Hocc. apply occurs_axis_pattern in Hocc.
  destruct (re_search_complete _ _ Hocc) as [m Hm]. rewrite Hm.
  destruct (re_search_sound _ _ _ Hm) as (pre & post & Hh & Hmatch).
  apply matches_axis_pattern in Hmatch as (d1 & d2 & -> & Hd1 & Hd2).
  exists d1, d2. split_and!; [done..| by exists pre, post|].
  by rewrite py_split_offset_text.
Qed.

Lemma lookup_absent (tok h : string) :
  ~ axis_occurrence tok h -> re_search (axis_pattern tok) h = None.
Proof. intros Hno. apply re_search_none. by rewrite occurs_axis_pattern. Qed.

(** C10. When the axis-labeled pattern is absent from the text,
    [pattern_lookup] prints the line 'No match found.' and returns [None];
    splitting that value raises an [AttributeError], and so does the offset
    cell.  When the pattern is present, [pattern_lookup] prints nothing and
    returns the whole matched text [<tok>,<digits>,<digits>] as one string. *)
Theorem pattern_lookup_result (tok s : string) (out : list string) :
  (~ axis_occurrence tok s ->
     pattern_lookup (axis_pattern tok) s out = (Ok None, out ++ ["No match found."]) /\
     split_commas None = Raise none_split_error /\
     exn_class none_split_error = "AttributeError") /\
  (axis_occurrence tok s ->
     exists pre d1 d2 post,
       s = pre +:+ offset_text tok d1 d2 +:+ post /\ digit_string d1 /\ digit_string d2 /\
       pattern_lookup (axis_pattern tok) s out = (Ok (Some (offset_text tok d1 d2)), out)) /\
  (forall ds : Dataset,
     history_of ds = Ok s ->
     ~ axis_occurrence "west_east" s \/ ~ axis_occurrence "south_north" s ->
     fst (offset_cell ds out) = Raise none_split_error).
Proof.
  split_and!.
  - intros Hno. unfold pattern_lookup. rewrite (lookup_absent _ _ Hno). done.
  - intros Hocc. apply occurs_axis_pattern in Hocc.
    destruct (re_search_complete _ _ Hocc) as [m Hm].
    destruct (re_search_sound _ _ _ Hm) as (pre & post & Hs & Hmatch).
    apply matches_axis_pattern in Hmatch as (d1 & d2 & -> & Hd1 & Hd2).
    exists pre, d1, d2, post. split_and!; [done..|].
    unfold pattern_lookup. by rewrite Hm.
  - intros ds Hh Hno. rewrite (offset_cell_cases ds s out Hh).
    rewrite pattern_we_axis, pattern_sn_axis.
    destruct Hno as [Hno|Hno]; rewrite (lookup_absent _ _ Hno).
    + by destruct (re_search _ s).
    + by destruct (re_search _ s).
Qed.

Lemma pattern_lookup_result_witness :
  ~ axis_occurrence "west_east" "no offsets recorded" /\
  pattern_lookup (axis_pattern "west_east") "no offsets recorded" [] =
    (Ok None, ["No match found."]) /\
  fst (offset_cell (sample_target "no offsets recorded" 2 4 3) []) =
    Raise none_split_error /\
  axis_occurrence "west_east" "...west_east,10,12 ... south_north,20,23..." /\
  exists pre d1 d2 post,
    "...west_east,10,12 ... south_north,20,23..." =
      pre +:+ offset_text "west_east" d1 d2 +:+ post /\
    digit_string d1 /\ digit_string d2 /\
    pattern_lookup (axis_pattern "west_east")
      "...west_east,10,12 ... south_north,20,23..." [] =
      (Ok (Some (offset_text "west_east" d1 d2)), []).
Proof.
  assert (Habs : ~ axis_occurrence "west_east" "no offsets recorded").
  { rewrite <- occurs_axis_pattern, <- re_search_none. reflexivity. }
  assert (Hocc : axis_occurrence "west_east" "...west_east,10,12 ... south_north,20,23...").
  { exists "...", "10", "12", " ... south_north,20,23...". by repeat split. }
  split; [exact Habs|]. split.
  { exact (proj1 (proj1 (pattern_lookup_result "west_east" "no offsets recorded" []) Habs)). }
  split.
  { exact (proj2 (proj2 (pattern_lookup_result "west_east" "no offsets recorded" []))
             (sample_target "no offsets recorded" 2 4 3) eq_refl (or_introl Habs)). }
  split; [exact Hocc|].
  exact (proj1 (proj2 (pattern_lookup_result "west_east"
           "...west_east,10,12 ... south_north,20,23..." [])) Hocc).
Defined.

(** C1 (as amended). When the text lacks the axis-labeled offset of either
    axis, the offset cell prints 'No match found.' and stops with the
    [AttributeError] of splitting [None], whose message names no axis; a run
    of the notebook stops with that same exception, so the slicing cell is
    never reached. *)
Theorem missing_offset_stops_run (ds : Dataset) (h : string) :
  history_of ds = Ok h ->
  ~ axis_occurrence "west_east" h \/ ~ axis_occurrence "south_north" h ->
  exists out,
    run (offset_cell ds) = (Raise none_split_error, out) /\
    "No match found." ∈ out /\
    exn_class none_split_error = "AttributeError" /\
    forall tr mx my, run (notebook tr ds mx my) = (Raise none_split_error, out).
Proof.
  intros Hh Hno. unfold run.
  assert (Hcell : exists out, offset_cell ds [] = (Raise none_split_error, out) /\
                              "No match found." ∈ out).
  { rewrite (offset_cell_cases ds h [] Hh), pattern_we_axis, pattern_sn_axis.
    destruct Hno as [Hno|Hno]; rewrite (lookup_absent _ _ Hno);
      destruct (re_search _ h); eexists; (split; [reflexivity|set_solver]). }
  destruct Hcell as (out & Hcell & Hout). exists out. split_and!; [done..|].
  intros tr mx my. by apply notebook_stops_with_offset_cell.
Qed.

Lemma missing_offset_stops_run_witness :
  history_of (sample_target "no offsets recorded" 2 4 3) = Ok "no offsets recorded" /\
  (~ axis_occurrence "west_east" "no offsets recorded" \/
   ~ axis_occurrence "south_north" "no offsets recorded") /\
  exists out,
    run (offset_cell (sample_target "no offsets recorded" 2 4 3)) =
      (Raise none_split_error, out) /\
    "No match found." ∈ out /\
    exn_class none_split_error = "AttributeError" /\
    forall tr mx my,
      run (notebook tr (sample_target "no offsets recorded" 2 4 3) mx my) =
        (Raise none_split_error, out).
Proof.
  assert (Habs : ~ axis_occurrence "west_east" "no offsets recorded").
  { rewrite <- occurs_axis_pattern, <- re_search_none. reflexivity. }
  split; [reflexivity|]. split; [by left|].
  exact (missing_offset_stops_run (sample_target "no offsets recorded" 2 4 3)
           "no offsets recorded" eq_refl (or_introl Habs)).
Defined.

(** C1 fails as stated: on a history without offsets the exception is an
    [AttributeError], not a [MetadataParseError], and its message does not
    name the axis. *)
Lemma missing_offset_not_metadata_error :
  history_of (sample_target "no offsets recorded" 2 4 3) = Ok "no offsets recorded" /\
  ~ axis_occurrence "west_east" "no offsets recorded" /\
  fst (run (offset_cell (sample_target "no offsets recorded" 2 4 3))) =
    Raise (Exn "AttributeError" "'NoneType' object has no attribute 'split'") /\
  ~ raises "MetadataParseError"
      (fst (run (offset_cell (sample_target "no offsets recorded" 2 4 3)))).
Proof.
  split; [reflexivity|]. split.
  { rewrite <- occurs_axis_pattern, <- re_search_none. reflexivity. }
  split; [reflexivity|]. intros [msg Hmsg]. vm_compute in Hmsg. discriminate Hmsg.
Qed.

(** C4 (as amended). For a text that contains the axis-labeled offsets of
    both axes, the offset cell prints nothing and yields, for each axis, the
    two digit runs of an offset occurring in the text; read with [int], each
    is a non-negative integer.  Nothing orders start and end. *)
Theorem offsets_extracted (ds : Dataset) (h : string) :
  history_of ds = Ok h ->
  axis_occurrence "west_east" h -> axis_occurrence "south_north" h ->
  exists (xs xe ys ye : string) (x0 x1 y0 y1 : Z),
    run (offset_cell ds) = (Ok ([xs; xe], [ys; ye]), []) /\
    (exists pre post, h = pre +:+ offset_text "west_east" xs xe +:+ post) /\
    (exists pre post, h = pre +:+ offset_text "south_north" ys ye +:+ post) /\
    digit_string xs /\ digit_string xe /\ digit_string ys /\ digit_string ye /\
    offsets_read [xs; xe] = Ok (x0, x1) /\ offsets_read [ys; ye] = Ok (y0, y1) /\
    (0 <= x0)%Z /\ (0 <= x1)%Z /\ (0 <= y0)%Z /\ (0 <= y1)%Z.
Proof.
  intros Hh Hwe Hsn. unfold run.
  rewrite (offset_cell_cases ds h [] Hh), pattern_we_axis, pattern_sn_axis.
  destruct (lookup_found "west_east" h eq_refl Hwe)
    as (xs & xe & -> & Hxs & Hxe & Hwhere_x & ->).
  destruct (lookup_found "south_north" h eq_refl Hsn)
    as (ys & ye & -> & Hys & Hye & Hwhere_y & ->).
  destruct (py_int_digit_string xs Hxs) as (x0 & Hx0 & ?).
  destruct (py_int_digit_string xe Hxe) as (x1 & Hx1 & ?).
  destruct (py_int_digit_string ys Hys) as (y0 & Hy0 & ?).
  destruct (py_int_digit_string ye Hye) as (y1 & Hy1 & ?).
  exists xs, xe, ys, ye, x0, x1, y0, y1.
  split_and!; try done; by apply offsets_read_pair.
Qed.

Lemma offsets_extracted_witness :
  history_of (sample_target "...west_east,10,12 ... south_north,20,23..." 2 4 3) =
    Ok "...west_east,10,12 ... south_north,20,23..." /\
  axis_occurrence "west_east" "...west_east,10,12 ... south_north,20,23..." /\
  axis_occurrence "south_north" "...west_east,10,12 ... south_north,20,23..." /\
  exists (xs xe ys ye : string) (x0 x1 y0 y1 : Z),
    run (offset_cell (sample_target "...west_east,10,12 ... south_north,20,23..." 2 4 3)) =
      (Ok ([xs; xe], [ys; ye]), []) /\
    (exists pre post, "...west_east,10,12 ... south_north,20,23..." =
                        pre +:+ offset_text "west_east" xs xe +:+ post) /\
    (exists pre post, "...west_east,10,12 ... south_north,20,23..." =
                        pre +:+ offset_text "south_north" ys ye +:+ post) /\
    digit_string xs /\ digit_string xe /\ digit_string ys /\ digit_string ye /\
    offsets_read [xs; xe] = Ok (x0, x1) /\ offsets_read [ys; ye] = Ok (y0, y1) /\
    (0 <= x0)%Z /\ (0 <= x1)%Z /\ (0 <= y0)%Z /\ (0 <= y1)%Z.
Proof.
  assert (Hwe : axis_occurrence "west_east" "...west_east,10,12 ... south_north,20,23...").
  { exists "...", "10", "12", " ... south_north,20,23...". by repeat split. }
  assert (Hsn : axis_occurrence "south_north" "...west_east,10,12 ... south_north,20,23...").
  { exists "...west_east,10,12 ... ", "20", "23", "...". by repeat split. }
  split; [reflexivity|]. split; [exact Hwe|]. split; [exact Hsn|].
  exact (offsets_extracted (sample_target "...west_east,10,12 ... south_north,20,23..." 2 4 3)
           "...west_east,10,12 ... south_north,20,23..." eq_refl Hwe Hsn).
Defined.

(** C4 fails as stated: the history below contains both axis-labeled offsets,
    and the column offsets come out as start 12, end 10. *)
Lemma offsets_not_ordered :
  history_of (sample_target "west_east,12,10 south_north,5,3" 2 4 3) =
    Ok "west_east,12,10 south_north,5,3" /\
  axis_occurrence "west_east" "west_east,12,10 south_north,5,3" /\
  axis_occurrence "south_north" "west_east,12,10 south_north,5,3" /\
  run (offset_cell (sample_target "west_east,12,10 south_north,5,3" 2 4 3)) =
    (Ok (["12"; "10"], ["5"; "3"]), []) /\
  offsets_read ["12"; "10"] = Ok (12, 10)%Z /\
  offsets_read ["5"; "3"] = Ok (5, 3)%Z /\
  ~ (12 <= 10)%Z /\ ~ (5 <= 3)%Z.
Proof.
  split; [reflexivity|]. split.
  { exists "", "12", "10", " south_north,5,3". by repeat split. }
  split.
  { exists "west_east,12,10 ", "5", "3", "". by repeat split. }
  split; [reflexivity|]. split; [reflexivity|]. split; [reflexivity|]. lia.
Qed.

(** ** Reference-grid slicing *)

Lemma slicing_cell_digits (mx my : list float) (xs xe ys ye : string) (x0 x1 y0 y1 : Z) :
  py_int xs = Ok x0 -> py_int xe = Ok x1 -> py_int ys = Ok y0 -> py_int ye = Ok y1 ->
  slicing_cell mx my [xs; xe] [ys; ye] =
    Ok (py_slice (Some x0) (Some (x1 + 1)%Z) mx,
        py_slice (Some (Z.of_nat (length my) - y1 - 1)%Z)
                 (Some (Z.of_nat (length my) - y0)%Z) my).
Proof.
  intros Hx0 Hx1 Hy0 Hy1. unfold slicing_cell. simpl.
  rewrite Hx0. simpl. rewrite Hx1. simpl. rewrite Hy1. simpl. rewrite Hy0. done.
Qed.

(** C2. With offsets [row_start <= row_end < H_ref] the slicing cell binds
    [y] to [row_coords[H_ref - row_end - 1 : H_ref - row_start]]: the
    [row_end - row_start + 1] elements from position [H_ref - row_end - 1]
    on.  On the reference array 0..9 with offsets (2, 5) this is
    [4; 5; 6; 7], of length 4. *)
Theorem row_slice_from_the_end :
  (forall (mx my : list float) (xs xe ys ye : string) (x0 x1 row_start row_end : Z),
     py_int xs = Ok x0 -> py_int xe = Ok x1 ->
     py_int ys = Ok row_start -> py_int ye = Ok row_end ->
     (row_start <= row_end < Z.of_nat (length my))%Z ->
     exists x y,
       slicing_cell mx my [xs; xe] [ys; ye] = Ok (x, y) /\
       y = py_slice (Some (Z.of_nat (length my) - row_end - 1)%Z)
                    (Some (Z.of_nat (length my) - row_start)%Z) my /\
       y = take (Z.to_nat (row_end - row_start + 1))
             (drop (Z.to_nat (Z.of_nat (length my) - row_end - 1)) my) /\
       length y = Z.to_nat (row_end - row_start + 1) /\
       forall i, (i < Z.to_nat (row_end - row_start + 1))%nat ->
                 y !! i = my !! (Z.to_nat (Z.of_nat (length my) - row_end - 1) + i)%nat) /\
  (forall (mx : list float) (xs xe : string) (x0 x1 : Z),
     py_int xs = Ok x0 -> py_int xe = Ok x1 ->
     exists x,
       slicing_cell mx [0; 1; 2; 3; 4; 5; 6; 7; 8; 9]%float [xs; xe] ["2"; "5"] =
         Ok (x, [4; 5; 6; 7]%float)) /\
  length [4; 5; 6; 7]%float = 4%nat.
Proof.
  split_and!; [| |done].
  - intros mx my xs xe ys ye x0 x1 rs re Hx0 Hx1 Hrs Hre Hrange.
    pose proof (py_int_nonneg _ _ Hrs) as Hpos.
    rewrite (slicing_cell_digits mx my xs xe ys ye x0 x1 rs re) by done.
    destruct (py_slice_in_range my (Z.of_nat (length my) - re - 1)
                (Z.of_nat (length my) - rs)) as (Heq & Hlen & Hget); [lia..|].
    replace (Z.of_nat (length my) - rs - (Z.of_nat (length my) - re - 1))%Z
      with (re - rs + 1)%Z in * by lia.
    eexists _, _. split; [reflexivity|]. by split_and!.
  - intros mx xs xe x0 x1 Hx0 Hx1.
    rewrite (slicing_cell_digits mx _ xs xe "2" "5" x0 x1 2 5) by done.
    eexists. reflexivity.
Qed.

Lemma row_slice_from_the_end_witness :
  py_int "0" = Ok 0%Z /\ py_int "1" = Ok 1%Z /\ py_int "2" = Ok 2%Z /\ py_int "5" = Ok 5%Z /\
  (2 <= 5 < Z.of_nat (length (ramp 10)))%Z /\
  exists x y,
    slicing_cell (ramp 3) (ramp 10) ["0"; "1"] ["2"; "5"] = Ok (x, y) /\
    y = py_slice (Some (Z.of_nat (length (ramp 10)) - 5 - 1)%Z)
                 (Some (Z.of_nat (length (ramp 10)) - 2)%Z) (ramp 10) /\
    y = take (Z.to_nat (5 - 2 + 1))
          (drop (Z.to_nat (Z.of_nat (length (ramp 10)) - 5 - 1)) (ramp 10)) /\
    length y = Z.to_nat (5 - 2 + 1) /\
    forall i, (i < Z.to_nat (5 - 2 + 1))%nat ->
              y !! i = ramp 10 !! (Z.to_nat (Z.of_nat (length (ramp 10)) - 5 - 1) + i)%nat.
Proof.
  assert (Hrange : (2 <= 5 < Z.of_nat (length (ramp 10)))%Z)
    by (vm_compute; split; [discriminate|reflexivity]).
  split; [reflexivity|]. split; [reflexivity|]. split; [reflexivity|].
  split; [reflexivity|]. split; [exact Hrange|].
  exact (proj1 row_slice_from_the_end (ramp 3) (ramp 10) "0" "1" "2" "5" 0%Z 1%Z 2%Z 5%Z
           eq_refl eq_refl eq_refl eq_refl Hrange).
Defined.

(** ** Reprojection *)

Lemma zip_with_mesh {B} (g : float -> float -> B) (x y : list float) :
  zip_with (zip_with g) ((fun _ => x) <$> y) ((fun yi => (fun _ => yi) <$> x) <$> y) =
  (fun yi => (fun xj => g xj yi) <$> x) <$> y.
Proof.
  rewrite zip_with_fmap_l, zip_with_fmap_r, zip_with_diag.
  apply list_fmap_ext. intros _ yi _.
  by rewrite zip_with_fmap_r, zip_with_diag.
Qed.

Lemma reprojection_cell_rows (tr : float -> float -> float * float) (x y : list float) :
  reprojection_cell tr x y =
    (Arr2 (length x) ((fun yi => (fun xj => fst (tr xj yi)) <$> x) <$> y),
     Arr2 (length x) ((fun yi => (fun xj => snd (tr xj yi)) <$> x) <$> y)).
Proof.
  unfold reprojection_cell, meshgrid, transform_grids. by rewrite !zip_with_mesh.
Qed.

Lemma mesh_rows_get {B} (g : float -> float -> B) (x y : list float) (i j : nat) (xj yi : float) :
  y !! i = Some yi -> x !! j = Some xj ->
  ((fun yi => (fun xj => g xj yi) <$> x) <$> y) !! i ≫= (fun row => row !! j) = Some (g xj yi).
Proof.
  intros Hy Hx. rewrite list_lookup_fmap, Hy. simpl. by rewrite list_lookup_fmap, Hx.
Qed.

(** C6. For all 1-D arrays [x] and [y] the reprojection cell binds [lon]
    and [lat] to 2-D arrays of shape [(len(y), len(x))]: [len(y)] rows, each
    of [len(x)] values, where element [(i, j)] is the longitude (latitude) of
    the point [(x[j], y[i])], i.e. row index then column index. *)
Theorem reprojection_grid_shape (tr : float -> float -> float * float) (x y : list float) :
  exists lon_rows lat_rows,
    reprojection_cell tr x y = (Arr2 (length x) lon_rows, Arr2 (length x) lat_rows) /\
    shape (Arr2 (length x) lon_rows) = [length y; length x] /\
    shape (Arr2 (length x) lat_rows) = [length y; length x] /\
    Forall (fun row => length row = length x) lon_rows /\
    Forall (fun row => length row = length x) lat_rows /\
    forall i j xj yi,
      y !! i = Some yi -> x !! j = Some xj ->
      arr2_get (Arr2 (length x) lon_rows) i j = Some (fst (tr xj yi)) /\
      arr2_get (Arr2 (length x) lat_rows) i j = Some (snd (tr xj yi)).
Proof.
  eexists _, _. split; [apply reprojection_cell_rows|]. simpl.
  rewrite !length_fmap. split_and!; [done..| | |].
  - apply Forall_fmap, Forall_forall. intros yi _. simpl. by rewrite length_fmap.
  - apply Forall_fmap, Forall_forall. intros yi _. simpl. by rewrite length_fmap.
  - intros i j xj yi Hy Hx. split.
    + by apply (mesh_rows_get (fun a b => fst (tr a b))).
    + by apply (mesh_rows_get (fun a b => snd (tr a b))).
Qed.

Lemma reprojection_grid_shape_witness :
  exists lon_rows lat_rows,
    reprojection_cell (fun a b => (a, b)) (ramp 3) (ramp 4) =
      (Arr2 (length (ramp 3)) lon_rows, Arr2 (length (ramp 3)) lat_rows) /\
    shape (Arr2 (length (ramp 3)) lon_rows) = [length (ramp 4); length (ramp 3)] /\
    shape (Arr2 (length (ramp 3)) lat_rows) = [length (ramp 4); length (ramp 3)] /\
    Forall (fun row => length row = length (ramp 3)) lon_rows /\
    Forall (fun row => length row = length (ramp 3)) lat_rows /\
    arr2_get (Arr2 (length (ramp 3)) lon_rows) 1 2 = Some 2%float /\
    arr2_get (Arr2 (length (ramp 3)) lat_rows) 1 2 = Some 1%float.
Proof.
  destruct (reprojection_grid_shape (fun a b => (a, b)) (ramp 3) (ramp 4))
    as (lon_rows & lat_rows & Hcell & Hs1 & Hs2 & Hr1 & Hr2 & Hget).
  exists lon_rows, lat_rows. split; [exact Hcell|]. split; [exact Hs1|].
  split; [exact Hs2|]. split; [exact Hr1|]. split; [exact Hr2|].
  exact (Hget 1%nat 2%nat 2%float 1%float eq_refl eq_refl).
Defined.

(** ** Renaming the dimensions *)

Lemma cf_names_values (d : string) :
  dict_get_default cf_names d =
    if decide (d = "south_north") then "y"
    else if decide (d = "west_east") then "x"
    else if decide (d = "Time") then "time" else d.
Proof. unfold cf_names. simpl. repeat case_decide; congruence. Qed.

(** The size table after a renaming that is injective on the dimensions. *)
Lemma renamed_dims_lookup (f : string -> string) (D : gmap string nat) (d' : string) (n : nat) :
  (forall a b, a ∈ dom D -> b ∈ dom D -> f a = f b -> a = b) ->
  (list_to_map (prod_map f id <$> map_to_list D) : gmap string nat) !! d' = Some n <->
  exists d, f d = d' /\ D !! d = Some n.
Proof.
  intros Hinj. rewrite <- elem_of_list_to_map.
  - rewrite list_elem_of_fmap. split.
    + intros ([d m] & [= -> ->] & Hin%elem_of_map_to_list). by exists d.
    + intros (d & <- & Hd). exists (d, n). split; [done|]. by apply elem_of_map_to_list.
  - rewrite <- list_fmap_compose.
    change (fst ∘ prod_map f id) with (f ∘ (fst : string * nat -> string)).
    rewrite list_fmap_compose. apply NoDup_fmap_2_strong; [|apply NoDup_fst_map_to_list].
    intros a b ([a' na] & -> & Ha%elem_of_map_to_list)%list_elem_of_fmap
               ([b' nb] & -> & Hb%elem_of_map_to_list)%list_elem_of_fmap.
    apply Hinj; apply elem_of_dom; eauto.
Qed.

Lemma cf_names_inj (ds : Dataset) (a b : string) :
  cf_renamable ds -> a ∈ dom (dims ds) -> b ∈ dom (dims ds) ->
  dict_get_default cf_names a = dict_get_default cf_names b -> a = b.
Proof.
  intros (_ & (Hy & Hx & Ht) & _) Ha Hb. rewrite !cf_names_values.
  repeat case_decide; intros Heq; subst; congruence.
Qed.

Lemma rename_cell_succeeds (ds : Dataset) :
  cf_renamable ds ->
  rename_cell ds =
    Ok {| variables := rename_var_dims cf_names <$> variables ds;
          coord_names := coord_names ds;
          dims := list_to_map (prod_map (dict_get_default cf_names) id <$> map_to_list (dims ds));
          attrs := attrs ds |}.
Proof.
  intros ((H1 & H2 & H3) & (Hy & Hx & Ht) & (Hvy & Hvx & Hvt)).
  unfold rename_cell, rename_dims, cf_names. simpl.
  repeat (rewrite decide_True by done; rewrite decide_False by tauto). done.
Qed.

Lemma rename_cell_dims (ds ds' : Dataset) (d' : string) (n : nat) :
  cf_renamable ds -> rename_cell ds = Ok ds' ->
  dims ds' !! d' = Some n <->
  exists d, dict_get_default cf_names d = d' /\ dims ds !! d = Some n.
Proof.
  intros Hren. rewrite (rename_cell_succeeds ds Hren). intros [= <-]. simpl.
  apply renamed_dims_lookup. intros a b. by apply cf_names_inj.
Qed.

Lemma rename_cell_dims_image (ds ds' : Dataset) (d : string) :
  cf_renamable ds -> rename_cell ds = Ok ds' -> d ∈ dom (dims ds) ->
  dims ds' !! dict_get_default cf_names d = dims ds !! d.
Proof.
  intros Hren Hcell [n Hn]%elem_of_dom. rewrite Hn.
  apply (rename_cell_dims ds ds' _ n Hren Hcell). by exists d.
Qed.

Lemma rename_cell_dims_fresh (ds ds' : Dataset) (d' : string) :
  cf_renamable ds -> rename_cell ds = Ok ds' ->
  (forall d, d ∈ dom (dims ds) -> dict_get_default cf_names d <> d') ->
  dims ds' !! d' = None.
Proof.
  intros Hren Hcell Hfresh. apply eq_None_not_Some. intros [n Hn].
  apply (rename_cell_dims ds ds' d' n Hren Hcell) in Hn as (d & Hd & Hdn).
  apply (Hfresh d); [|done]. apply elem_of_dom. eauto.
Qed.

(** C9. When the three old names are dimensions and the new names are free,
    the rename cell succeeds, and in its result: the sizes of [y], [x] and
    [time] are those of [south_north], [west_east] and [Time]; the three old
    names are no longer dimensions; every other name is a dimension exactly
    when it was one, with the size it had; every variable keeps its name,
    values and attributes and lies along the renamed dimensions; coordinates
    and global attributes are unchanged. *)
Theorem rename_cell_axes (ds : Dataset) :
  cf_renamable ds ->
  exists ds',
    rename_cell ds = Ok ds' /\
    dims ds' !! "y" = dims ds !! "south_north" /\
    dims ds' !! "x" = dims ds !! "west_east" /\
    dims ds' !! "time" = dims ds !! "Time" /\
    dims ds' !! "south_north" = None /\
    dims ds' !! "west_east" = None /\
    dims ds' !! "Time" = None /\
    (forall d, d ∉ ["y"; "x"; "time"; "south_north"; "west_east"; "Time"] ->
               dims ds' !! d = dims ds !! d) /\
    (forall k, variables ds' !! k = rename_var_dims cf_names <$> variables ds !! k) /\
    (forall v, var_dims (rename_var_dims cf_names v) =
                 (fun d => if decide (d = "south_north") then "y"
                           else if decide (d = "west_east") then "x"
                           else if decide (d = "Time") then "time" else d) <$> var_dims v /\
               var_data (rename_var_dims cf_names v) = var_data v /\
               var_attrs (rename_var_dims cf_names v) = var_attrs v) /\
    coord_names ds' = coord_names ds /\
    attrs ds' = attrs ds.
Proof.
  intros Hren. pose proof (rename_cell_succeeds ds Hren) as Hcell.
  pose proof Hren as ((H1 & H2 & H3) & (Hy & Hx & Ht) & Hv).
  eexists. split; [exact Hcell|]. split_and!.
  - apply (rename_cell_dims_image ds _ "south_north" Hren Hcell H1).
  - apply (rename_cell_dims_image ds _ "west_east" Hren Hcell H2).
  - apply (rename_cell_dims_image ds _ "Time" Hren Hcell H3).
  - apply (rename_cell_dims_fresh ds _ _ Hren Hcell). intros d _.
    rewrite cf_names_values. repeat case_decide; congruence.
  - apply (rename_cell_dims_fresh ds _ _ Hren Hcell). intros d _.
    rewrite cf_names_values. repeat case_decide; congruence.
  - apply (rename_cell_dims_fresh ds _ _ Hren Hcell). intros d _.
    rewrite cf_names_values. repeat case_decide; congruence.
  - intros d Hd. rewrite !not_elem_of_cons in Hd.
    destruct Hd as (Hd1 & Hd2 & Hd3 & Hd4 & Hd5 & Hd6 & _).
    assert (Hsame : dict_get_default cf_names d = d).
    { rewrite cf_names_values. repeat case_decide; congruence. }
    destruct (dims ds !! d) as [n|] eqn:Hn.
    + apply (rename_cell_dims ds _ d n Hren Hcell). by exists d.
    + apply (rename_cell_dims_fresh ds _ _ Hren Hcell). intros d0 Hd0 Heq.
      rewrite cf_names_values in Heq. apply elem_of_dom in Hd0 as [n0 Hn0].
      repeat case_decide; subst; congruence.
  - intros k. simpl. by rewrite lookup_fmap.
  - intros v. split_and!; [|done..]. simpl. apply list_fmap_ext. intros _ d _.
    apply cf_names_values.
  - done.
  - done.
Qed.

Lemma sample_target_renamable (h : string) (T H W : nat) :
  cf_renamable (sample_target h T H W).
Proof.
  unfold cf_renamable, sample_target. simpl. rewrite !not_elem_of_dom, !elem_of_dom.
  split_and!; vm_compute; first [reflexivity | by eexists].
Qed.

Lemma rename_cell_axes_witness :
  cf_renamable (sample_target "" 2 4 3) /\
  exists ds',
    rename_cell (sample_target "" 2 4 3) = Ok ds' /\
    dims ds' !! "y" = Some 4 /\ dims ds' !! "x" = Some 3 /\ dims ds' !! "time" = Some 2 /\
    dims ds' !! "south_north" = None.
Proof.
  split; [apply sample_target_renamable|].
  destruct (rename_cell_axes (sample_target "" 2 4 3) (sample_target_renamable "" 2 4 3))
    as (ds' & Hcell & Hy & Hx & Ht & Hsn & _).
  exists ds'. split; [exact Hcell|]. split; [exact Hy|]. split; [exact Hx|].
  split; [exact Ht|exact Hsn].
Defined.

(** ** The sizes of the dimensions *)

Lemma elem_of_sig_axes (sigs : gmap string (list string * list nat)) (d : string) (n : nat) :
  (d, n) ∈ (map_to_list sigs ≫= fun kv => zip (fst (snd kv)) (snd (snd kv))) <->
  exists k ds shp, sigs !! k = Some (ds, shp) /\ (d, n) ∈ zip ds shp.
Proof.
  rewrite list_elem_of_bind. split.
  - intros ([k [ds shp]] & Hin & Hk%elem_of_map_to_list). by exists k, ds, shp.
  - intros (k & ds & shp & Hk & Hin). exists (k, (ds, shp)). split; [done|].
    by apply elem_of_map_to_list.
Qed.

Lemma foldl_see_dim_raise (sigs : gmap string (list string * list nat))
    (l : list (string * nat)) (e : exn) :
  foldl (see_dim sigs) (Raise e) l = Raise e.
Proof. induction l as [|dn l IH]; [done|]. simpl. exact IH. Qed.

Lemma see_dim_cases (sigs : gmap string (list string * list nat))
    (acc : gmap string nat) (d : string) (n : nat) :
  (exists acc', see_dim sigs (Ok acc) (d, n) = Ok acc' /\ acc ⊆ acc' /\ acc' !! d = Some n /\
                (forall D0 : gmap string nat, acc ⊆ D0 -> D0 !! d = Some n -> acc' ⊆ D0)) \/
  (exists msg, see_dim sigs (Ok acc) (d, n) = Raise (ValueError msg) /\
               ((exists shp, sigs !! d = Some ([], shp)) \/
                (exists m, acc !! d = Some m /\ m <> n))).
Proof.
  unfold see_dim. simpl.
  assert (Hrest :
    (exists acc', match acc !! d with
                  | Some m => if decide (m = n) then Ok acc
                              else Raise (ValueError ("conflicting sizes for dimension '" +:+ d +:+ "'"))
                  | None => Ok (<[d:=n]> acc)
                  end = Ok acc' /\ acc ⊆ acc' /\ acc' !! d = Some n /\
                (forall D0 : gmap string nat, acc ⊆ D0 -> D0 !! d = Some n -> acc' ⊆ D0)) \/
    (exists msg, match acc !! d with
                 | Some m => if decide (m = n) then Ok acc
                             else Raise (ValueError ("conflicting sizes for dimension '" +:+ d +:+ "'"))
                 | None => Ok (<[d:=n]> acc)
                 end = Raise (ValueError msg) /\ exists m, acc !! d = Some m /\ m <> n)).
  { destruct (acc !! d) as [m|] eqn:Hacc.
    - destruct (decide (m = n)) as [->|Hne].
      + left. exists acc. by split_and!.
      + right. eexists. split; [done|]. by exists m.
    - left. exists (<[d:=n]> acc). split_and!; [done| |by rewrite lookup_insert_eq|].
      + by apply insert_subseteq.
      + intros D0 Hsub HD0. by apply insert_subseteq_l. }
  destruct (sigs !! d) as [[[|d0 ds] shp]|] eqn:Hs.
  - right. eexists. split; [done|]. left. by exists shp.
  - destruct Hrest as [Hok|(msg & Hr & Hm)]; [by left|]. right. exists msg. eauto.
  - destruct Hrest as [Hok|(msg & Hr & Hm)]; [by left|]. right. exists msg. eauto.
Qed.

Lemma foldl_see_dim_sound (sigs : gmap string (list string * list nat))
    (l : list (string * nat)) (acc D : gmap string nat) :
  foldl (see_dim sigs) (Ok acc) l = Ok D ->
  acc ⊆ D /\ forall d n, (d, n) ∈ l -> D !! d = Some n.
Proof.
  revert acc. induction l as [|[d n] l IH]; intros acc; cbn [foldl].
  - intros [= <-]. split; [done|]. intros d n Hin. by apply elem_of_nil in Hin.
  - destruct (see_dim_cases sigs acc d n) as [(acc' & -> & Hsub & Hd & _)|(msg & -> & _)].
    + intros [Hsub' Hall]%IH. split; [by etrans|].
      intros d' n' [[= -> ->]|Hin]%elem_of_cons; [|by apply Hall].
      by apply (lookup_weaken acc').
    + by rewrite foldl_see_dim_raise.
Qed.

Lemma foldl_see_dim_class (sigs : gmap string (list string * list nat))
    (l : list (string * nat)) (acc : gmap string nat) (e : exn) :
  foldl (see_dim sigs) (Ok acc) l = Raise e -> exn_class e = "ValueError".
Proof.
  revert acc. induction l as [|[d n] l IH]; intros acc; cbn [foldl]; [done|].
  destruct (see_dim_cases sigs acc d n) as [(acc' & -> & _)|(msg & -> & _)].
  - apply IH.
  - rewrite foldl_see_dim_raise. by intros [= <-].
Qed.

Lemma foldl_see_dim_complete (sigs : gmap string (list string * list nat))
    (l : list (string * nat)) (acc D0 : gmap string nat) :
  acc ⊆ D0 ->
  (forall d n, (d, n) ∈ l -> D0 !! d = Some n /\ forall shp, sigs !! d <> Some ([], shp)) ->
  exists D, foldl (see_dim sigs) (Ok acc) l = Ok D /\ D ⊆ D0.
Proof.
  revert acc. induction l as [|[d n] l IH]; intros acc Hsub Hall; cbn [foldl].
  - by exists acc.
  - destruct (Hall d n) as [HD0 Hns]; [by left|].
    destruct (see_dim_cases sigs acc d n)
      as [(acc' & -> & _ & _ & Hmin)|(msg & _ & [[shp Hs]|(m & Hm & Hne)])].
    + apply IH; [by apply Hmin|]. intros d' n' Hin. apply Hall. by right.
    + by destruct (Hns shp).
    + apply (lookup_weaken _ D0) in Hm; [|done]. congruence.
Qed.

Lemma calculate_dimensions_sound (vars : gmap string DataVar) (D : gmap string nat)
    (k : string) (v : DataVar) (d : string) (n : nat) :
  calculate_dimensions vars = Ok D -> vars !! k = Some v -> (d, n) ∈ var_axes v ->
  D !! d = Some n.
Proof.
  unfold calculate_dimensions, dims_of_sigs. intros [_ Hall]%foldl_see_dim_sound Hk Hin.
  apply Hall, elem_of_sig_axes. exists k, (var_dims v), (shape (var_data v)).
  split; [|done]. by rewrite lookup_fmap, Hk.
Qed.

Lemma calculate_dimensions_class (vars : gmap string DataVar) (e : exn) :
  calculate_dimensions vars = Raise e -> exn_class e = "ValueError".
Proof. apply foldl_see_dim_class. Qed.

Lemma calculate_dimensions_complete (vars : gmap string DataVar) (D0 : gmap string nat) :
  consistent D0 vars -> exists D, calculate_dimensions vars = Ok D /\ D ⊆ D0.
Proof.
  intros [Hsizes Hscalar]. apply foldl_see_dim_complete; [apply map_empty_subseteq|].
  intros d n (k & ds & shp & Hk & Hin)%elem_of_sig_axes.
  rewrite lookup_fmap in Hk. destruct (vars !! k) as [v|] eqn:Hv; [|done].
  injection Hk as <- <-. split; [by apply (Hsizes k v)|].
  intros shp Hs. rewrite lookup_fmap in Hs.
  destruct (vars !! d) as [u|] eqn:Hu; [|done]. injection Hs as Hdims _.
  apply (Hscalar d u); [|done..]. exists n. by apply (Hsizes k v).
Qed.

(** ** Assigning coordinates *)

Lemma update_coord_inv (name : string) (v : DataVar) (ds ds' : Dataset) :
  update_coord name v ds = Ok ds' ->
  variables ds' = <[name := v]> (variables ds) /\
  calculate_dimensions (<[name := v]> (variables ds)) = Ok (dims ds') /\
  coord_names ds' =
    coord_names ds ∪ {[name]} ∪ (dom (dims ds') ∩ dom (<[name := v]> (variables ds))) /\
  attrs ds' = attrs ds.
Proof.
  unfold update_coord.
  destruct (calculate_dimensions (<[name := v]> (variables ds))) as [D|e]; [|done].
  simpl. by intros [= <-].
Qed.

Lemma update_coord_class (name : string) (v : DataVar) (ds : Dataset) (e : exn) :
  update_coord name v ds = Raise e -> exn_class e = "ValueError".
Proof.
  unfold update_coord.
  destruct (calculate_dimensions (<[name := v]> (variables ds))) as [D|e'] eqn:Hc; [done|].
  simpl. intros [= <-]. by apply (calculate_dimensions_class _ _ Hc).
Qed.

Lemma update_coord_consistent (name : string) (v : DataVar) (ds : Dataset)
    (D0 : gmap string nat) :
  consistent D0 (<[name := v]> (variables ds)) ->
  exists ds', update_coord name v ds = Ok ds' /\
              variables ds' = <[name := v]> (variables ds).
Proof.
  intros (D & HD & _)%calculate_dimensions_complete. unfold update_coord. rewrite HD.
  simpl. by eexists.
Qed.

Lemma consistent_insert (D0 : gmap string nat) (vars : gmap string DataVar)
    (name : string) (v : DataVar) :
  consistent D0 vars ->
  (forall d n, (d, n) ∈ var_axes v -> D0 !! d = Some n) -> var_dims v <> [] ->
  consistent D0 (<[name := v]> vars).
Proof.
  intros [Hsizes Hscalar] Hv Hne. split.
  - intros k u d n. rewrite lookup_insert. case_decide as Hk.
    + intros [= <-]. apply Hv.
    + apply Hsizes.
  - intros d u HD. rewrite lookup_insert. case_decide as Hk.
    + by intros [= <-].
    + by apply Hscalar.
Qed.

(** A variable that disagrees with the new coordinate on the size of a
    dimension makes [coords.update] fail, with a [ValueError]. *)
Lemma update_coord_conflict (name : string) (v : DataVar) (ds : Dataset)
    (k : string) (u : DataVar) (d : string) (n m : nat) :
  variables ds !! k = Some u -> k <> name ->
  (d, n) ∈ var_axes u -> (d, m) ∈ var_axes v -> n <> m ->
  raises "ValueError" (update_coord name v ds).
Proof.
  intros Hk Hne Hu Hv Hnm.
  destruct (update_coord name v ds) as [ds'|[cls msg]] eqn:Hup.
  - apply update_coord_inv in Hup as (_ & Hcalc & _).
    pose proof (calculate_dimensions_sound _ _ k u d n Hcalc) as H1.
    pose proof (calculate_dimensions_sound _ _ name v d m Hcalc) as H2.
    rewrite lookup_insert_ne in H1 by done. rewrite lookup_insert_eq in H2.
    specialize (H1 Hk Hu). specialize (H2 eq_refl Hv). congruence.
  - apply update_coord_class in Hup. simpl in Hup. subst cls. by exists msg.
Qed.

(** C3 (as amended). The slicing cell does not look at the target grid: for
    any offsets given as digit runs it succeeds, whatever the lengths of [x]
    and [y].  A length that differs from the size a variable of the target,
    other than one named [lon], has along [y] or [x] stops the run only
    later, in the [assign_coords] cell, and with a [ValueError].  (A
    variable named [lon] is replaced by the first assignment of that cell
    before any size is compared, so its own sizes are never checked.) *)
Theorem slicing_has_no_dimension_check (tr : float -> float -> float * float)
    (mx my : list float) (xs xe ys ye : string) :
  digit_string xs -> digit_string xe -> digit_string ys -> digit_string ye ->
  exists x y,
    slicing_cell mx my [xs; xe] [ys; ye] = Ok (x, y) /\
    forall (ds : Dataset) (k : string) (v : DataVar) (n : nat),
      variables ds !! k = Some v -> k <> "lon" ->
      (("y", n) ∈ var_axes v /\ n <> length y) \/ (("x", n) ∈ var_axes v /\ n <> length x) ->
      raises "ValueError"
        (assign_coords_cell x y (fst (reprojection_cell tr x y))
           (snd (reprojection_cell tr x y)) ds).
Proof.
  intros Hxs Hxe Hys Hye.
  destruct (py_int_digit_string xs Hxs) as (x0 & Hx0 & _).
  destruct (py_int_digit_string xe Hxe) as (x1 & Hx1 & _).
  destruct (py_int_digit_string ys Hys) as (y0 & Hy0 & _).
  destruct (py_int_digit_string ye Hye) as (y1 & Hy1 & _).
  eexists _, _. split; [by apply slicing_cell_digits|].
  intros ds k v n Hk Hne Hbad. rewrite reprojection_cell_rows. simpl.
  set (x := py_slice (Some x0) _ mx) in *. set (y := py_slice (Some _) _ my) in *.
  unfold assign_coords_cell, assign_coords_tuple. cbn [shape length].
  rewrite decide_True by done.
  match goal with |- raises _ (update_coord "lon" ?V ds ≫= _) => set (L := V) end.
  assert (Hr : raises "ValueError" (update_coord "lon" L ds)).
  { destruct Hbad as [[Hin Hn]|[Hin Hn]].
    - apply (update_coord_conflict "lon" L ds k v "y" n (length y)); [done..| |done].
      unfold var_axes, L. simpl. rewrite length_fmap. by left.
    - apply (update_coord_conflict "lon" L ds k v "x" n (length x)); [done..| |done].
      unfold var_axes, L. simpl. rewrite length_fmap. right. by left. }
  destruct Hr as [msg ->]. by exists msg.
Qed.

Lemma slicing_has_no_dimension_check_witness :
  digit_string "10" /\ digit_string "12" /\ digit_string "20" /\ digit_string "21" /\
  exists x y,
    slicing_cell (ramp 20) (ramp 30) ["10"; "12"] ["20"; "21"] = Ok (x, y) /\
    length y = 2 /\
    raises "ValueError"
      (assign_coords_cell x y (fst (reprojection_cell (fun a b => (a, b)) x y))
         (snd (reprojection_cell (fun a b => (a, b)) x y))
         {| variables := {[ "LWDOWN" := mkVar ["time"; "y"; "x"] (Remote [2; 4; 3]) ∅ ]};
            coord_names := ∅;
            dims := {[ "time" := 2; "y" := 4; "x" := 3 ]};
            attrs := ∅ |}).
Proof.
  assert (H10 : digit_string "10") by (split; [discriminate|reflexivity]).
  assert (H12 : digit_string "12") by (split; [discriminate|reflexivity]).
  assert (H20 : digit_string "20") by (split; [discriminate|reflexivity]).
  assert (H21 : digit_string "21") by (split; [discriminate|reflexivity]).
  split; [exact H10|]. split; [exact H12|]. split; [exact H20|]. split; [exact H21|].
  destruct (slicing_has_no_dimension_check (fun a b => (a, b)) (ramp 20) (ramp 30)
              "10" "12" "20" "21" H10 H12 H20 H21) as (x & y & Hcell & Hlater).
  assert (Hy : length y = 2).
  { assert (Hc := Hcell). vm_compute in Hc. injection Hc as _ <-. reflexivity. }
  exists x, y. split; [exact Hcell|]. split; [exact Hy|].
  apply (Hlater _ "LWDOWN" (mkVar ["time"; "y"; "x"] (Remote [2; 4; 3]) ∅) 4).
  - reflexivity.
  - discriminate.
  - left. split; [|rewrite Hy; discriminate].
    unfold var_axes. simpl. right. left.
Defined.

(** C3 fails as stated: the target below has 4 rows, the offsets select 2
    rows of the reference, and the slicing cell succeeds all the same; the
    run then stops in the [assign_coords] cell with a [ValueError], never
    with a [DimensionMismatchError]. *)
Lemma slicing_succeeds_on_mismatch :
  dims (sample_target "west_east,10,12 south_north,20,21" 2 4 3) !! "south_north" = Some 4 /\
  run (offset_cell (sample_target "west_east,10,12 south_north,20,21" 2 4 3)) =
    (Ok (["10"; "12"], ["20"; "21"]), []) /\
  (exists x y,
     slicing_cell (ramp 20) (ramp 30) ["10"; "12"] ["20"; "21"] = Ok (x, y) /\
     length x = 3 /\ length y = 2 /\ length y <> 4) /\
  raises "ValueError"
    (fst (run (notebook (fun a b => (a, b))
                 (sample_target "west_east,10,12 south_north,20,21" 2 4 3)
                 (ramp 20) (ramp 30)))) /\
  ~ raises "DimensionMismatchError"
      (fst (run (notebook (fun a b => (a, b))
                   (sample_target "west_east,10,12 south_north,20,21" 2 4 3)
                   (ramp 20) (ramp 30)))).
Proof.
  assert (Hrun : fst (run (notebook (fun a b => (a, b))
                             (sample_target "west_east,10,12 south_north,20,21" 2 4 3)
                             (ramp 20) (ramp 30))) =
                 Raise (Exn "ValueError" "conflicting sizes for dimension 'y'"))
    by (vm_compute; reflexivity).
  split; [vm_compute; reflexivity|]. split; [vm_compute; reflexivity|]. split.
  { eexists _, _. split; [vm_compute; reflexivity|]. vm_compute. repeat split. discriminate. }
  split; [eexists; exact Hrun|]. intros [msg Hmsg].
  pose proof (eq_trans (eq_sym Hrun) Hmsg) as Habs. discriminate Habs.
Qed.

(** ** Annotation *)

Lemma bind_ok {A B} (m : result A) (f : A -> result B) (b : B) :
  m ≫= f = Ok b -> exists a, m = Ok a /\ f a = Ok b.
Proof. destruct m as [a|e]; [|done]. intros H. by exists a. Qed.

Lemma attrs_only_refl (names : list string) (ds : Dataset) : attrs_only names ds ds.
Proof. by repeat split. Qed.

Lemma attrs_only_trans (names : list string) (ds1 ds2 ds3 : Dataset) :
  attrs_only names ds1 ds2 -> attrs_only names ds2 ds3 -> attrs_only names ds1 ds3.
Proof.
  intros (D1 & C1 & A1 & V1 & S1) (D2 & C2 & A2 & V2 & S2).
  split_and!; [congruence..| |].
  - intros k Hk. by rewrite V2, V1.
  - intros k. by rewrite S2, S1.
Qed.

Lemma set_var_attr_attrs_only (names : list string) (name key : string)
    (value : attr_value) (ds ds' : Dataset) :
  name ∈ names -> set_var_attr name key value ds = Ok ds' -> attrs_only names ds ds'.
Proof.
  intros Hin. unfold set_var_attr.
  destruct (variables ds !! name) as [v|] eqn:Hv.
  2:{ destruct (dims ds !! name); [|by destruct (attrs ds !! name)].
      intros [= <-]. apply attrs_only_refl. }
  intros [= <-].
  split_and!; simpl; [done..| |].
  - intros k Hk. rewrite lookup_insert_ne; [done|]. by intros ->.
  - intros k. rewrite lookup_insert. case_decide as Hk; [|done]. subst k. by rewrite Hv.
Qed.

Lemma attrs_cell_attrs_only (ds ds' : Dataset) :
  attrs_cell ds = Ok ds' -> attrs_only annotated ds ds'.
Proof.
  unfold attrs_cell. intros H.
  repeat (apply bind_ok in H as (? & ?%(set_var_attr_attrs_only annotated) & H);
          [|by (unfold annotated; set_solver)]).
  apply (set_var_attr_attrs_only annotated) in H; [|unfold annotated; set_solver].
  repeat (eapply attrs_only_trans; [eassumption|]). apply attrs_only_refl.
Qed.

Lemma update_coord_eq (name : string) (v : DataVar) (ds : Dataset) (D : gmap string nat) :
  calculate_dimensions (<[name := v]> (variables ds)) = Ok D ->
  update_coord name v ds =
    Ok {| variables := <[name := v]> (variables ds);
          coord_names :=
            coord_names ds ∪ {[name]} ∪ (dom D ∩ dom (<[name := v]> (variables ds)));
          dims := D;
          attrs := attrs ds |}.
Proof. intros HD. unfold update_coord. by rewrite HD. Qed.

Lemma assign_coords_tuple_inv (name : string) (vdims : list string) (data : ndarray)
    (ds ds' : Dataset) :
  assign_coords_tuple name vdims data ds = Ok ds' ->
  length vdims = length (shape data) /\ update_coord name (mkVar vdims data ∅) ds = Ok ds'.
Proof. unfold assign_coords_tuple. by case_decide. Qed.

Lemma sig_insert_same (N M : gmap string DataVar) (name : string) (v : DataVar) :
  var_sig <$> N = var_sig <$> M -> M !! name = Some v ->
  var_sig <$> <[name := v]> N = var_sig <$> M.
Proof.
  intros Hsig Hv. rewrite fmap_insert, Hsig. apply insert_id. by rewrite lookup_fmap, Hv.
Qed.

Lemma sig_same_dom (N M : gmap string DataVar) :
  var_sig <$> N = var_sig <$> M -> dom N = dom M.
Proof. intros Hsig. by rewrite <- (dom_fmap_L var_sig N), Hsig, dom_fmap_L. Qed.

Lemma sig_same_dimensions (N M : gmap string DataVar) :
  var_sig <$> N = var_sig <$> M -> calculate_dimensions N = calculate_dimensions M.
Proof. unfold calculate_dimensions. by intros ->. Qed.

(** Assigning the same four coordinates to a dataset that already carries
    them, possibly with attributes on them, gives back the dataset as it was
    right after the first assignment. *)
Lemma assign_coords_cell_again (x y : list float) (lon lat : ndarray) (ds d4 ds1 : Dataset) :
  assign_coords_cell x y lon lat ds = Ok d4 -> attrs_only annotated d4 ds1 ->
  assign_coords_cell x y lon lat ds1 = Ok d4.
Proof.
  unfold assign_coords_cell. intros H (HD & HC & HA & HV & HS).
  apply bind_ok in H as (d1 & [L1 U1]%assign_coords_tuple_inv & H).
  apply bind_ok in H as (d2 & [L2 U2]%assign_coords_tuple_inv & H).
  apply bind_ok in H as (d3 & U3 & U4). unfold assign_coords_array in *.
  unfold assign_coords_tuple. rewrite decide_True by done.
  apply update_coord_inv in U1 as (V1 & _ & N1 & A1).
  apply update_coord_inv in U2 as (V2 & _ & N2 & A2).
  apply update_coord_inv in U3 as (V3 & _ & N3 & A3).
  apply update_coord_inv in U4 as (V4 & K4 & N4 & A4).
  rewrite V3, V2, V1 in V4. rewrite V3, V2, V1 in K4. rewrite V3, V2, V1 in N4.
  rewrite V2, V1 in N3. rewrite V1 in N2.
  set (VL := mkVar ["y"; "x"] lon ∅) in *. set (VA := mkVar ["y"; "x"] lat ∅) in *.
  set (VX := mkVar ["x"] (Arr1 x) ∅) in *. set (VY := mkVar ["y"] (Arr1 y) ∅) in *.
  set (M := <["y" := VY]> (<["x" := VX]> (<["lat" := VA]> (<["lon" := VL]> (variables ds))))) in *.
  set (N := variables ds1) in *.
  assert (ML : M !! "lon" = Some VL) by (unfold M; by simplify_map_eq).
  assert (MA : M !! "lat" = Some VA) by (unfold M; by simplify_map_eq).
  assert (MX : M !! "x" = Some VX) by (unfold M; by simplify_map_eq).
  assert (MY : M !! "y" = Some VY) by (unfold M; by simplify_map_eq).
  assert (S0 : var_sig <$> N = var_sig <$> M).
  { apply map_eq. intros k. rewrite !lookup_fmap, <- V4. apply HS. }
  pose proof (sig_insert_same _ _ _ _ S0 ML) as S1.
  pose proof (sig_insert_same _ _ _ _ S1 MA) as S2.
  pose proof (sig_insert_same _ _ _ _ S2 MX) as S3.
  pose proof (sig_insert_same _ _ _ _ S3 MY) as S4.
  assert (Hfinal : <["y" := VY]> (<["x" := VX]> (<["lat" := VA]> (<["lon" := VL]> N))) = M).
  { apply map_eq. intros k. unfold M.
    destruct (decide (k = "y")) as [->|?]; [by rewrite !lookup_insert_eq|].
    rewrite !(lookup_insert_ne _ "y") by done.
    destruct (decide (k = "x")) as [->|?]; [by rewrite !lookup_insert_eq|].
    rewrite !(lookup_insert_ne _ "x") by done.
    destruct (decide (k = "lat")) as [->|?]; [by rewrite !lookup_insert_eq|].
    rewrite !(lookup_insert_ne _ "lat") by done.
    destruct (decide (k = "lon")) as [->|?]; [by rewrite !lookup_insert_eq|].
    rewrite !(lookup_insert_ne _ "lon") by done.
    unfold N. rewrite HV.
    - rewrite V4. unfold M. by rewrite !lookup_insert_ne by done.
    - unfold annotated. rewrite !not_elem_of_cons. split_and!; [done..|].
      apply not_elem_of_nil. }
  rewrite (update_coord_eq "lon" VL ds1 (dims d4))
    by (fold N; by rewrite (sig_same_dimensions _ _ S1)).
  cbn [mbind result_bind]. rewrite decide_True by done.
  rewrite (update_coord_eq "lat" VA _ (dims d4))
    by (cbn [variables]; fold N; by rewrite (sig_same_dimensions _ _ S2)).
  cbn [mbind result_bind].
  rewrite (update_coord_eq "x" VX _ (dims d4))
    by (cbn [variables]; fold N; by rewrite (sig_same_dimensions _ _ S3)).
  cbn [mbind result_bind].
  rewrite (update_coord_eq "y" VY _ (dims d4))
    by (cbn [variables]; fold N; by rewrite (sig_same_dimensions _ _ S4)).
  cbn [variables coord_names dims attrs]. fold N.
  rewrite (sig_same_dom _ _ S1), (sig_same_dom _ _ S2), (sig_same_dom _ _ S3),
    (sig_same_dom _ _ S4), Hfinal.
  f_equal. destruct d4 as [vars4 cn4 dims4 attrs4]. simpl in *. f_equal.
  - done.
  - rewrite HC, N4, N3, N2, N1. clear. set_unfold. intros k. tauto.
  - done.
Qed.

(** C8. Annotation is idempotent: when annotating a dataset with the
    coordinates [x], [y], [lon], [lat] succeeds, annotating the result once
    more with the same coordinates succeeds and returns that very result:
    same variables and attributes, same coordinates, same dimensions. *)
Theorem annotate_idempotent (x y : list float) (lon lat : ndarray) (ds ds1 : Dataset) :
  annotate x y lon lat ds = Ok ds1 ->
  annotate x y lon lat ds1 = Ok ds1.
Proof.
  unfold annotate. intros (d4 & Hassign & Hattrs)%bind_ok.
  rewrite (assign_coords_cell_again x y lon lat ds d4 ds1 Hassign).
  - exact Hattrs.
  - by apply attrs_cell_attrs_only.
Qed.

Lemma annotate_idempotent_witness :
  exists ds ds1,
    rename_cell (sample_target "" 2 4 3) = Ok ds /\
    annotate (ramp 3) (ramp 4)
      (fst (reprojection_cell (fun a b => (a, b)) (ramp 3) (ramp 4)))
      (snd (reprojection_cell (fun a b => (a, b)) (ramp 3) (ramp 4))) ds = Ok ds1 /\
    annotate (ramp 3) (ramp 4)
      (fst (reprojection_cell (fun a b => (a, b)) (ramp 3) (ramp 4)))
      (snd (reprojection_cell (fun a b => (a, b)) (ramp 3) (ramp 4))) ds1 = Ok ds1.
Proof.
  eexists _, _. split; [vm_compute; reflexivity|].
  match goal with |- ?P /\ _ => assert (H : P) by (vm_compute; reflexivity) end.
  split; [exact H|]. exact (annotate_idempotent _ _ _ _ _ _ H).
Defined.

Lemma set_var_attr_ok (name key : string) (value : attr_value) (ds : Dataset) :
  name ∈ annotated -> has_annotated ds ->
  exists ds', set_var_attr name key value ds = Ok ds' /\ has_annotated ds'.
Proof.
  intros Hin Hall. unfold set_var_attr. destruct (Hall name Hin) as [v ->].
  eexists. split; [done|]. intros k Hk. simpl. rewrite lookup_insert.
  case_decide; [done|]. by apply Hall.
Qed.

Lemma attrs_cell_ok (ds : Dataset) :
  has_annotated ds -> exists ds', attrs_cell ds = Ok ds' /\ attrs_only annotated ds ds'.
Proof.
  intros Hall.
  assert (Hok : exists ds', attrs_cell ds = Ok ds').
  { unfold attrs_cell.
    repeat
      match goal with
      | Hd : has_annotated ?d |- exists ds', set_var_attr ?n ?k ?v ?d ≫= _ = Ok ds' =>
          let Hn := fresh "Hn" in
          assert (Hn : n ∈ annotated) by (unfold annotated; set_solver);
          destruct (set_var_attr_ok n k v d Hn Hd) as (? & -> & ?);
          clear Hd Hn; cbn [mbind result_bind]
      end.
    match goal with
    | Hd : has_annotated ?d |- exists ds', set_var_attr ?n ?k ?v ?d = Ok ds' =>
        let Hn := fresh "Hn" in
        assert (Hn : n ∈ annotated) by (unfold annotated; set_solver);
        destruct (set_var_attr_ok n k v d Hn Hd) as (? & -> & ?); by eexists
    end. }
  destruct Hok as [ds' Hok]. exists ds'. split; [done|]. by apply attrs_cell_attrs_only.
Qed.

Lemma assign_coords_cell_ok (x y : list float) (lon_rows lat_rows : list (list float))
    (ds : Dataset) (D0 : gmap string nat) :
  consistent D0 (variables ds) ->
  D0 !! "y" = Some (length y) -> D0 !! "x" = Some (length x) ->
  length lon_rows = length y -> length lat_rows = length y ->
  exists ds',
    assign_coords_cell x y (Arr2 (length x) lon_rows) (Arr2 (length x) lat_rows) ds = Ok ds' /\
    has_annotated ds' /\
    dims ds' !! "y" = Some (length y) /\ dims ds' !! "x" = Some (length x).
Proof.
  intros Hcons Hy Hx Hlon Hlat. unfold assign_coords_cell, assign_coords_tuple, assign_coords_array.
  cbn [shape length]. rewrite decide_True by done.
  set (VL := mkVar ["y"; "x"] (Arr2 (length x) lon_rows) ∅).
  set (VA := mkVar ["y"; "x"] (Arr2 (length x) lat_rows) ∅).
  set (VX := mkVar ["x"] (Arr1 x) ∅). set (VY := mkVar ["y"] (Arr1 y) ∅).
  assert (HVL : forall d n, (d, n) ∈ var_axes VL -> D0 !! d = Some n).
  { intros d n. unfold var_axes, VL. simpl. rewrite !elem_of_cons, elem_of_nil.
    intros [[= -> ->]|[[= -> ->]|[]]]; congruence. }
  assert (HVA : forall d n, (d, n) ∈ var_axes VA -> D0 !! d = Some n).
  { intros d n. unfold var_axes, VA. simpl. rewrite !elem_of_cons, elem_of_nil.
    intros [[= -> ->]|[[= -> ->]|[]]]; congruence. }
  assert (HVX : forall d n, (d, n) ∈ var_axes VX -> D0 !! d = Some n).
  { intros d n. unfold var_axes, VX. simpl. rewrite !elem_of_cons, elem_of_nil.
    intros [[= -> ->]|[]]; congruence. }
  assert (HVY : forall d n, (d, n) ∈ var_axes VY -> D0 !! d = Some n).
  { intros d n. unfold var_axes, VY. simpl. rewrite !elem_of_cons, elem_of_nil.
    intros [[= -> ->]|[]]; congruence. }
  pose proof (consistent_insert D0 _ "lon" VL Hcons HVL) as C1.
  destruct (update_coord_consistent "lon" VL ds D0) as (d1 & -> & V1); [by apply C1|].
  cbn [mbind result_bind]. rewrite decide_True by done.
  assert (C2 : consistent D0 (<["lat" := VA]> (variables d1))).
  { rewrite V1. apply consistent_insert; [by apply C1|done..]. }
  destruct (update_coord_consistent "lat" VA d1 D0 C2) as (d2 & -> & V2).
  cbn [mbind result_bind].
  assert (C3 : consistent D0 (<["x" := VX]> (variables d2))).
  { rewrite V2. by apply consistent_insert. }
  destruct (update_coord_consistent "x" VX d2 D0 C3) as (d3 & -> & V3).
  cbn [mbind result_bind].
  assert (C4 : consistent D0 (<["y" := VY]> (variables d3))).
  { rewrite V3. by apply consistent_insert. }
  destruct (update_coord_consistent "y" VY d3 D0 C4) as (d4 & Hd4 & V4).
  exists d4. split; [done|].
  apply update_coord_inv in Hd4 as (_ & Hcalc & _). split_and!.
  - intros k. unfold annotated. rewrite V4, V3, V2, V1, !elem_of_cons, elem_of_nil.
    intros [->|[->|[->|[->|[]]]]]; by simplify_map_eq.
  - apply (calculate_dimensions_sound _ _ "y" VY "y" (length y) Hcalc).
    + by rewrite lookup_insert_eq.
    + unfold var_axes, VY. simpl. by left.
  - rewrite V3 in Hcalc.
    apply (calculate_dimensions_sound _ _ "x" VX "x" (length x) Hcalc).
    + by simplify_map_eq.
    + unfold var_axes, VX. simpl. by left.
Qed.

(** ** The run of the notebook on a well-formed target *)

Lemma elem_of_zip_fmap_l (f : string -> string) (l : list string) (s : list nat)
    (d' : string) (n : nat) :
  (d', n) ∈ zip (f <$> l) s -> exists d, d' = f d /\ (d, n) ∈ zip l s.
Proof.
  revert s. induction l as [|a l IH]; intros [|m s]; simpl;
    try (by intros ?%elem_of_nil).
  intros [[= -> ->]|Hin]%elem_of_cons.
  - exists a. split; [done|]. by left.
  - destruct (IH s Hin) as (d & -> & Hd). exists d. split; [done|]. by right.
Qed.

Lemma rename_cell_consistent (ds ds1 : Dataset) :
  cf_renamable ds -> consistent (dims ds) (variables ds) -> rename_cell ds = Ok ds1 ->
  consistent (dims ds1) (variables ds1).
Proof.
  intros Hren [Hsizes Hscalar] Hcell.
  assert (Hvars : variables ds1 = rename_var_dims cf_names <$> variables ds).
  { rewrite (rename_cell_succeeds ds Hren) in Hcell. by injection Hcell as <-. }
  split.
  - intros k v' d' n. rewrite Hvars, lookup_fmap.
    destruct (variables ds !! k) as [v|] eqn:Hv; [|done]. intros [= <-].
    unfold var_axes, rename_var_dims. simpl.
    intros (d & -> & Hd)%elem_of_zip_fmap_l.
    apply (rename_cell_dims ds ds1 _ n Hren Hcell). exists d. split; [done|].
    by apply (Hsizes k v).
  - intros d' u' [n Hn]. rewrite Hvars, lookup_fmap.
    destruct (variables ds !! d') as [u|] eqn:Hu; [|done]. intros [= <-].
    apply (rename_cell_dims ds ds1 d' n Hren Hcell) in Hn as (d & Hd & Hdn).
    destruct Hren as (_ & _ & (Hvy & Hvx & Hvt)).
    apply not_elem_of_dom in Hvy, Hvx, Hvt.
    rewrite cf_names_values in Hd.
    assert (d = d') as ->. { repeat case_decide; subst; congruence. }
    unfold rename_var_dims. simpl. intros Hnil%fmap_nil_inv.
    apply (Hscalar d' u); [by exists n|done..].
Qed.



Lemma sample_target_consistent (h : string) (T H W : nat) :
  consistent (dims (sample_target h T H W)) (variables (sample_target h T H W)).
Proof.
  unfold sample_target. simpl. split.
  - intros k v d n [<- <-]%lookup_singleton_Some. unfold var_axes. simpl.
    rewrite !elem_of_cons, elem_of_nil.
    intros [[= -> ->]|[[= -> ->]|[[= -> ->]|[]]]]; by vm_compute.
  - intros d v [n Hn] [<- <-]%lookup_singleton_Some. by vm_compute in Hn.
Qed.


(** * Further properties of the cells *)

(** ** Which match the search returns *)

Lemma span_digits_rest (s : string) (acc t : list ascii) (rest : string) :
  span_digits acc s = (t, rest) -> starts_without_digit rest.
Proof.
  revert acc. induction s as [|c s IH]; intros acc; simpl.
  - by intros [= _ <-].
  - destruct (is_digit c) eqn:Hc; [apply IH|]. by intros [= _ <-].
Qed.

Lemma match_here_greedy_end (p : regex) (s m : string) :
  last p = Some Digits -> match_here p s = Some m ->
  exists post, s = m +:+ post /\ starts_without_digit post.
Proof.
  revert s m. induction p as [|[c|] p IH]; intros s m Hlast; [by inversion Hlast| |].
  - destruct p as [|a p]; [by inversion Hlast|]. rewrite last_cons_cons in Hlast.
    remember (a :: p) as q eqn:Hq.
    cbn [match_here]. destruct s as [|c' s]; [done|].
    destruct (Ascii.eqb c c'); [|done].
    destruct (match_here q s) as [m'|] eqn:Hm; simpl; [|done]. intros [= <-].
    destruct (IH s m' Hlast Hm) as (post & -> & Hpost). by exists post.
  - destruct (span_digits_spec s []) as (t & rest & Hs & Hp & _).
    rewrite app_nil_r in Hs. pose proof (span_digits_rest _ _ _ _ Hs) as Hrest.
    destruct p as [|a p].
    + cbn [match_here]. rewrite Hs.
      destruct t as [|c t]; [done|]. cbn [backtrack]. intros [= <-].
      exists rest. split; [|done]. by rewrite <- Hp, <- prepend_rev_sapp.
    + rewrite last_cons_cons in Hlast. remember (a :: p) as q eqn:Hq.
      cbn [match_here]. rewrite Hs.
      intros (t1 & t2 & m' & -> & _ & Hk & ->)%backtrack_sound.
      destruct (IH _ _ Hlast Hk) as (post & Hpost & Hstop).
      exists post. split; [|done].
      by rewrite <- Hp, prepend_rev_app, Hpost, <- prepend_rev_sapp.
Qed.

Lemma re_search_first (p : regex) (s m : string) :
  re_search p s = Some m ->
  exists pre post,
    s = pre +:+ m +:+ post /\ match_here p (m +:+ post) = Some m /\
    forall pre1 pre2, pre = pre1 +:+ pre2 -> pre2 <> "" ->
                      match_here p (pre2 +:+ m +:+ post) = None.
Proof.
  assert (Hhere : forall s, match_here p s = Some m ->
            exists pre post, s = pre +:+ m +:+ post /\ match_here p (m +:+ post) = Some m /\
              forall pre1 pre2, pre = pre1 +:+ pre2 -> pre2 <> "" ->
                                match_here p (pre2 +:+ m +:+ post) = None).
  { intros s' Hm. destruct (match_here_sound _ _ _ Hm) as [_ [post ->]].
    exists "", post. split_and!; [done..|]. intros [|??] [|??]; done. }
  induction s as [|c s IH]; cbn [re_search].
  - destruct (match_here p "") as [m'|] eqn:Hm; [|done]. intros [= ->]. by apply Hhere.
  - destruct (match_here p (String c s)) as [m'|] eqn:Hm.
    + intros [= ->]. by apply Hhere.
    + intros (pre & post & -> & Hat & Hbefore)%IH.
      exists (String c pre), post. split_and!; [done..|].
      intros [|c1 pre1] pre2.
      * intros Heq _. change ("" +:+ pre2) with pre2 in Heq. subst pre2. exact Hm.
      * intros Heq Hne. change (String c1 pre1 +:+ pre2) with (String c1 (pre1 +:+ pre2)) in Heq.
        injection Heq as <- ->. by apply (Hbefore pre1 pre2).
Qed.

Lemma sapp_shorter_prefix (q a pre b : string) :
  q +:+ a = pre +:+ b -> String.length q < String.length pre ->
  exists pre2, pre = q +:+ pre2 /\ pre2 <> "" /\ a = pre2 +:+ b.
Proof.
  revert pre. induction q as [|x q IH]; intros pre Heq Hlen.
  - exists pre. split_and!; [done| |done]. by destruct pre; [simpl in Hlen; lia|].
  - destruct pre as [|y pre]; [simpl in Hlen; lia|].
    injection Heq as -> Heq. simpl in Hlen.
    destruct (IH pre Heq) as (pre2 & -> & Hne & ->); [lia|]. by exists pre2.
Qed.

Lemma axis_pattern_last (tok : string) : last (axis_pattern tok) = Some Digits.
Proof. unfold axis_pattern. by rewrite last_app. Qed.

(** X1. The text [pattern_lookup] returns for an axis pattern is the
    leftmost axis-labeled offset of the history (no such offset starts
    before it), and its second number is taken whole: the character after
    the match, if any, is not a digit. *)
Theorem lookup_leftmost_longest (tok h m : string) (out out' : list string) :
  pattern_lookup (axis_pattern tok) h out = (Ok (Some m), out') ->
  out' = out /\
  exists pre d1 d2 post,
    h = pre +:+ m +:+ post /\ m = offset_text tok d1 d2 /\
    digit_string d1 /\ digit_string d2 /\ starts_without_digit post /\
    forall q e1 e2 post',
      h = q +:+ offset_text tok e1 e2 +:+ post' -> digit_string e1 -> digit_string e2 ->
      String.length pre <= String.length q.
Proof.
  unfold pattern_lookup.
  destruct (re_search (axis_pattern tok) h) as [m'|] eqn:Hs; [|done].
  intros [= -> <-]. split; [done|].
  destruct (re_search_first _ _ _ Hs) as (pre & post & -> & Hat & Hbefore).
  destruct (match_here_sound _ _ _ Hat) as [(d1 & d2 & -> & Hd1 & Hd2)%matches_axis_pattern _].
  destruct (match_here_greedy_end _ _ _ (axis_pattern_last tok) Hat) as (post0 & Hpost0 & Hstop).
  apply String.app_inj in Hpost0 as <-.
  exists pre, d1, d2, post. split_and!; [done..|].
  intros q e1 e2 post' Heq He1 He2.
  destruct (decide (String.length pre <= String.length q)) as [|Hlt]; [done|]. exfalso.
  destruct (sapp_shorter_prefix q _ pre _ (eq_sym Heq)) as (pre2 & -> & Hne & Heq2); [lia|].
  assert (Hsome : is_Some (match_here (axis_pattern tok)
                             (offset_text tok e1 e2 +:+ post'))).
  { apply match_here_complete, matches_axis_pattern. by exists e1, e2. }
  rewrite Heq2, (Hbefore q pre2 eq_refl Hne) in Hsome. by destruct Hsome.
Qed.

Lemma lookup_leftmost_longest_witness :
  pattern_lookup (axis_pattern "west_east") "a west_east,1,23 b west_east,4,5" [] =
    (Ok (Some "west_east,1,23"), []) /\
  exists pre d1 d2 post,
    "a west_east,1,23 b west_east,4,5" = pre +:+ "west_east,1,23" +:+ post /\
    "west_east,1,23" = offset_text "west_east" d1 d2 /\
    digit_string d1 /\ digit_string d2 /\ starts_without_digit post /\
    forall q e1 e2 post',
      "a west_east,1,23 b west_east,4,5" = q +:+ offset_text "west_east" e1 e2 +:+ post' ->
      digit_string e1 -> digit_string e2 -> String.length pre <= String.length q.
Proof.
  split; [reflexivity|].
  exact (proj2 (lookup_leftmost_longest "west_east" "a west_east,1,23 b west_east,4,5"
                  "west_east,1,23" [] [] eq_refl)).
Defined.

(** ** What the offset cell hands to the slicing cell *)

Lemma offset_cell_no_history (ds : Dataset) (e : exn) (out : list string) :
  history_of ds = Raise e -> offset_cell ds out = (Raise e, out).
Proof. intros Hh. unfold offset_cell, mbind, Py_bind, lift. by rewrite Hh. Qed.

Lemma offset_cell_ok_inv (ds : Dataset) (out out' : list string)
    (r : list string * list string) :
  offset_cell ds out = (Ok r, out') ->
  out' = out /\
  exists h xs xe ys ye,
    history_of ds = Ok h /\ r = ([xs; xe], [ys; ye]) /\
    digit_string xs /\ digit_string xe /\ digit_string ys /\ digit_string ye /\
    re_search pattern_we h = Some (offset_text "west_east" xs xe) /\
    re_search pattern_sn h = Some (offset_text "south_north" ys ye).
Proof.
  destruct (history_of ds) as [h|e] eqn:Hh.
  2: { by rewrite (offset_cell_no_history ds e out Hh). }
  rewrite (offset_cell_cases ds h out Hh).
  destruct (re_search pattern_we h) as [gw|] eqn:Hw;
    destruct (re_search pattern_sn h) as [gs|] eqn:Hs; try done.
  intros [= <- <-]. split; [done|].
  pose proof Hw as Hw'. pose proof Hs as Hs'.
  rewrite pattern_we_axis in Hw'. rewrite pattern_sn_axis in Hs'.
  apply re_search_sound in Hw' as (_ & _ & _ & (xs & xe & -> & Hxs & Hxe)%matches_axis_pattern).
  apply re_search_sound in Hs' as (_ & _ & _ & (ys & ye & -> & Hys & Hye)%matches_axis_pattern).
  exists h, xs, xe, ys, ye. split_and!; try done.
  by rewrite !py_split_offset_text.
Qed.

(** X2. The ways the offset cell ends.  Without a [history] attribute it
    raises [KeyError], and with a history that is not text [TypeError], in
    both cases before anything is printed.  When it succeeds it has printed
    nothing, the history contains the axis-labeled offsets of both axes, and
    each index list is exactly two runs of digits. *)
Theorem offset_cell_outcomes (ds : Dataset) (out : list string) :
  (attrs ds !! "history" = None ->
     offset_cell ds out = (Raise (KeyError "'history'"), out)) /\
  (forall v, attrs ds !! "history" = Some (AFloat v) ->
     offset_cell ds out = (Raise (TypeError "expected string or bytes-like object"), out)) /\
  (forall r out', offset_cell ds out = (Ok r, out') ->
     out' = out /\
     exists h xs xe ys ye,
       attrs ds !! "history" = Some (AStr h) /\ r = ([xs; xe], [ys; ye]) /\
       digit_string xs /\ digit_string xe /\ digit_string ys /\ digit_string ye /\
       axis_occurrence "west_east" h /\ axis_occurrence "south_north" h).
Proof.
  split_and!.
  - intros Hnone. apply offset_cell_no_history. unfold history_of. by rewrite Hnone.
  - intros v Hv. apply offset_cell_no_history. unfold history_of. by rewrite Hv.
  - intros r out' (-> & h & xs & xe & ys & ye & Hh & -> & Hxs & Hxe & Hys & Hye & Hw & Hs)%offset_cell_ok_inv.
    split; [done|]. exists h, xs, xe, ys, ye. split_and!; try done.
    + unfold history_of in Hh. destruct (attrs ds !! "history") as [[s|v]|]; congruence.
    + rewrite pattern_we_axis in Hw.
      apply re_search_sound in Hw as (pre & post & -> & _). by exists pre, xs, xe, post.
    + rewrite pattern_sn_axis in Hs.
      apply re_search_sound in Hs as (pre & post & -> & _). by exists pre, ys, ye, post.
Qed.

Lemma offset_cell_outcomes_witness :
  attrs (mkDataset ∅ ∅ ∅ ∅) !! "history" = None /\
  offset_cell (mkDataset ∅ ∅ ∅ ∅) [] = (Raise (KeyError "'history'"), []) /\
  attrs (mkDataset ∅ ∅ ∅ {[ "history" := AFloat 1 ]}) !! "history" = Some (AFloat 1) /\
  offset_cell (mkDataset ∅ ∅ ∅ {[ "history" := AFloat 1 ]}) [] =
    (Raise (TypeError "expected string or bytes-like object"), []) /\
  offset_cell (sample_target "west_east,3,5;south_north,7,9" 2 3 3) [] =
    (Ok (["3"; "5"], ["7"; "9"]), []) /\
  exists h xs xe ys ye,
    attrs (sample_target "west_east,3,5;south_north,7,9" 2 3 3) !! "history" = Some (AStr h) /\
    (["3"; "5"], ["7"; "9"]) = ([xs; xe], [ys; ye]) /\
    digit_string xs /\ digit_string xe /\ digit_string ys /\ digit_string ye /\
    axis_occurrence "west_east" h /\ axis_occurrence "south_north" h.
Proof.
  split; [reflexivity|]. split.
  { exact (proj1 (offset_cell_outcomes (mkDataset ∅ ∅ ∅ ∅) []) eq_refl). }
  split; [reflexivity|]. split.
  { exact (proj1 (proj2 (offset_cell_outcomes
                           (mkDataset ∅ ∅ ∅ {[ "history" := AFloat 1 ]}) []))
             1%float eq_refl). }
  split; [reflexivity|].
  exact (proj2 (proj2 (proj2 (offset_cell_outcomes
                  (sample_target "west_east,3,5;south_north,7,9" 2 3 3) []))
                 (["3"; "5"], ["7"; "9"]) [] eq_refl)).
Defined.

Lemma slice_index_range (len i : Z) :
  (0 <= len)%Z -> (0 <= slice_index len i <= len)%Z.
Proof. intros Hlen. unfold slice_index. destruct (Z.ltb_spec i 0); lia. Qed.

(** The length of a slice, from the normalised bounds. *)
Lemma py_slice_length {A} (l : list A) (a b : Z) :
  length (py_slice (Some a) (Some b) l) =
    Z.to_nat (slice_index (Z.of_nat (length l)) b - slice_index (Z.of_nat (length l)) a).
Proof.
  unfold py_slice. simpl.
  pose proof (slice_index_range (Z.of_nat (length l)) a ltac:(lia)).
  pose proof (slice_index_range (Z.of_nat (length l)) b ltac:(lia)).
  rewrite length_take, length_drop. lia.
Qed.

(** X3. Whatever the offset cell returns, the slicing cell accepts: for any
    two reference coordinate arrays it raises nothing (no [IndexError] from
    a missing number, no [ValueError] from [int]), and [x] and [y] are no
    longer than the arrays they are cut from. *)
Theorem offsets_feed_slicing (ds : Dataset) (out out' : list string)
    (x_index y_index : list string) (mx my : list float) :
  offset_cell ds out = (Ok (x_index, y_index), out') ->
  exists x y,
    slicing_cell mx my x_index y_index = Ok (x, y) /\
    length x <= length mx /\ length y <= length my.
Proof.
  intros (_ & h & xs & xe & ys & ye & _ & [= -> ->] & Hxs & Hxe & Hys & Hye & _)%offset_cell_ok_inv.
  destruct (py_int_digit_string xs Hxs) as (x0 & Hx0 & _).
  destruct (py_int_digit_string xe Hxe) as (x1 & Hx1 & _).
  destruct (py_int_digit_string ys Hys) as (y0 & Hy0 & _).
  destruct (py_int_digit_string ye Hye) as (y1 & Hy1 & _).
  eexists _, _. split; [by apply slicing_cell_digits|].
  rewrite !py_slice_length.
  pose proof (slice_index_range (Z.of_nat (length mx)) x0 ltac:(lia)).
  pose proof (slice_index_range (Z.of_nat (length mx)) (x1 + 1) ltac:(lia)).
  pose proof (slice_index_range (Z.of_nat (length my))
                (Z.of_nat (length my) - y1 - 1) ltac:(lia)).
  pose proof (slice_index_range (Z.of_nat (length my))
                (Z.of_nat (length my) - y0) ltac:(lia)).
  lia.
Qed.

Lemma offsets_feed_slicing_witness :
  offset_cell (sample_target "west_east,3,5;south_north,7,9" 2 3 3) [] =
    (Ok (["3"; "5"], ["7"; "9"]), []) /\
  exists x y,
    slicing_cell (ramp 4) (ramp 8) ["3"; "5"] ["7"; "9"] = Ok (x, y) /\
    length x <= length (ramp 4) /\ length y <= length (ramp 8).
Proof.
  split; [reflexivity|].
  exact (offsets_feed_slicing (sample_target "west_east,3,5;south_north,7,9" 2 3 3)
           [] [] ["3"; "5"] ["7"; "9"] (ramp 4) (ramp 8) eq_refl).
Defined.

(** X4. With column offsets [col_start <= col_end < W_ref] the slicing cell
    binds [x] to [col_coords[col_start : col_end + 1]]: the
    [col_end - col_start + 1] elements from position [col_start] on, both
    ends included. *)
Theorem column_slice_inclusive (mx my : list float) (xs xe ys ye : string)
    (col_start col_end y0 y1 : Z) :
  py_int xs = Ok col_start -> py_int xe = Ok col_end ->
  py_int ys = Ok y0 -> py_int ye = Ok y1 ->
  (col_start <= col_end < Z.of_nat (length mx))%Z ->
  exists x y,
    slicing_cell mx my [xs; xe] [ys; ye] = Ok (x, y) /\
    x = take (Z.to_nat (col_end - col_start + 1)) (drop (Z.to_nat col_start) mx) /\
    length x = Z.to_nat (col_end - col_start + 1) /\
    forall i, i < Z.to_nat (col_end - col_start + 1) ->
              x !! i = mx !! (Z.to_nat col_start + i).
Proof.
  intros Hcs Hce Hy0 Hy1 Hrange. pose proof (py_int_nonneg _ _ Hcs) as Hpos.
  rewrite (slicing_cell_digits mx my xs xe ys ye col_start col_end y0 y1) by done.
  destruct (py_slice_in_range mx col_start (col_end + 1)) as (Heq & Hlen & Hget); [lia..|].
  replace (col_end + 1 - col_start)%Z with (col_end - col_start + 1)%Z in * by lia.
  eexists _, _. split; [reflexivity|]. by split_and!.
Qed.

Lemma column_slice_inclusive_witness :
  py_int "1" = Ok 1%Z /\ py_int "2" = Ok 2%Z /\ py_int "0" = Ok 0%Z /\
  (1 <= 2 < Z.of_nat (length (ramp 4)))%Z /\
  exists x y,
    slicing_cell (ramp 4) (ramp 3) ["1"; "2"] ["0"; "0"] = Ok (x, y) /\
    x = take (Z.to_nat (2 - 1 + 1)) (drop (Z.to_nat 1) (ramp 4)) /\
    length x = Z.to_nat (2 - 1 + 1) /\
    forall i, i < Z.to_nat (2 - 1 + 1) -> x !! i = ramp 4 !! (Z.to_nat 1 + i).
Proof.
  assert (Hrange : (1 <= 2 < Z.of_nat (length (ramp 4)))%Z)
    by (vm_compute; split; [discriminate|reflexivity]).
  split; [reflexivity|]. split; [reflexivity|]. split; [reflexivity|].
  split; [exact Hrange|].
  exact (column_slice_inclusive (ramp 4) (ramp 3) "1" "2" "0" "0" 1%Z 2%Z 0%Z 0%Z
           eq_refl eq_refl eq_refl eq_refl Hrange).
Defined.

(** X5. Offsets that reach beyond the reference grid are not detected.  The
    slicing cell still succeeds, and when [col_end] is at or past the last
    column, or [row_end] at or past the last row, the array it binds is
    shorter than the [end - start + 1] elements the offsets ask for. *)
Theorem offsets_beyond_reference_truncate (mx my : list float) (xs xe ys ye : string)
    (col_start col_end row_start row_end : Z) :
  py_int xs = Ok col_start -> py_int xe = Ok col_end ->
  py_int ys = Ok row_start -> py_int ye = Ok row_end ->
  exists x y,
    slicing_cell mx my [xs; xe] [ys; ye] = Ok (x, y) /\
    ((col_start <= col_end)%Z -> (Z.of_nat (length mx) <= col_end)%Z ->
       (Z.of_nat (length x) < col_end - col_start + 1)%Z) /\
    ((row_start <= Z.of_nat (length my) <= row_end)%Z ->
       (Z.of_nat (length y) < row_end - row_start + 1)%Z).
Proof.
  intros Hcs Hce Hrs Hre.
  pose proof (py_int_nonneg _ _ Hcs). pose proof (py_int_nonneg _ _ Hce).
  pose proof (py_int_nonneg _ _ Hrs). pose proof (py_int_nonneg _ _ Hre).
  rewrite (slicing_cell_digits mx my xs xe ys ye col_start col_end row_start row_end) by done.
  eexists _, _. split; [reflexivity|]. rewrite !py_slice_length. unfold slice_index. split.
  - intros Hle Hbig. destruct (Z.ltb_spec col_start 0); [lia|].
    destruct (Z.ltb_spec (col_end + 1) 0); lia.
  - intros [Hle Hbig].
    destruct (Z.ltb_spec (Z.of_nat (length my) - row_end - 1) 0); [|lia].
    destruct (Z.ltb_spec (Z.of_nat (length my) - row_start) 0); lia.
Qed.

Lemma offsets_beyond_reference_truncate_witness :
  py_int "2" = Ok 2%Z /\ py_int "7" = Ok 7%Z /\ py_int "1" = Ok 1%Z /\ py_int "5" = Ok 5%Z /\
  exists x y,
    slicing_cell (ramp 4) (ramp 5) ["2"; "7"] ["1"; "5"] = Ok (x, y) /\
    (Z.of_nat (length x) < 7 - 2 + 1)%Z /\ (Z.of_nat (length y) < 5 - 1 + 1)%Z.
Proof.
  split; [reflexivity|]. split; [reflexivity|]. split; [reflexivity|]. split; [reflexivity|].
  destruct (offsets_beyond_reference_truncate (ramp 4) (ramp 5) "2" "7" "1" "5"
              2%Z 7%Z 1%Z 5%Z eq_refl eq_refl eq_refl eq_refl)
    as (x & y & Hcell & Hx & Hy).
  exists x, y. split; [exact Hcell|]. split.
  - apply Hx; [discriminate|vm_compute; discriminate].
  - apply Hy. vm_compute. split; discriminate.
Defined.

(** ** When the rename cell runs *)

Lemma rename_cell_ok_renamable (ds ds' : Dataset) :
  rename_cell ds = Ok ds' -> cf_renamable ds.
Proof.
  unfold rename_cell, rename_dims, cf_names, cf_renamable. cbn [rename_dims_check].
  repeat case_decide; try done. intros _. tauto.
Qed.

Lemma rename_cell_class (ds : Dataset) (e : exn) :
  rename_cell ds = Raise e -> exn_class e = "ValueError".
Proof.
  unfold rename_cell, rename_dims, cf_names. cbn [rename_dims_check].
  repeat case_decide; try done; by intros [= <-].
Qed.

(** X6. The rename cell succeeds exactly when [south_north], [west_east]
    and [Time] are dimensions of the dataset and none of [y], [x], [time]
    is a dimension or a variable already; in every other case it raises a
    [ValueError]. *)
Theorem rename_cell_succeeds_iff (ds : Dataset) :
  ((exists ds', rename_cell ds = Ok ds') <-> cf_renamable ds) /\
  (~ cf_renamable ds -> raises "ValueError" (rename_cell ds)).
Proof.
  split; [split|].
  - intros [ds' Hds']. by apply (rename_cell_ok_renamable ds ds').
  - intros Hren. eexists. by apply rename_cell_succeeds.
  - intros Hno. destruct (rename_cell ds) as [ds'|[cls msg]] eqn:Hcell.
    + destruct Hno. by apply (rename_cell_ok_renamable ds ds').
    + apply rename_cell_class in Hcell. simpl in Hcell. subst cls. by exists msg.
Qed.

Lemma rename_cell_succeeds_iff_witness :
  cf_renamable (sample_target "" 2 4 3) /\
  (exists ds', rename_cell (sample_target "" 2 4 3) = Ok ds') /\
  ~ cf_renamable (mkDataset ∅ ∅ ∅ ∅) /\
  raises "ValueError" (rename_cell (mkDataset ∅ ∅ ∅ ∅)).
Proof.
  assert (Hno : ~ cf_renamable (mkDataset ∅ ∅ ∅ ∅)).
  { intros ((Hsn & _) & _). simpl in Hsn. by apply elem_of_dom in Hsn as [? ?]. }
  split; [apply sample_target_renamable|]. split.
  { exact (proj2 (proj1 (rename_cell_succeeds_iff (sample_target "" 2 4 3)))
             (sample_target_renamable "" 2 4 3)). }
  split; [exact Hno|].
  exact (proj2 (rename_cell_succeeds_iff (mkDataset ∅ ∅ ∅ ∅)) Hno).
Defined.

(** X7. The rename cell cannot be run twice: on the dataset it has
    produced, [south_north] is no longer a dimension, and the second call
    raises a [ValueError]. *)
Theorem rename_cell_not_rerunnable (ds ds' : Dataset) :
  rename_cell ds = Ok ds' -> raises "ValueError" (rename_cell ds').
Proof.
  intros Hcell. pose proof (rename_cell_ok_renamable ds ds' Hcell) as Hren.
  assert (Hgone : dims ds' !! "south_north" = None).
  { apply (rename_cell_dims_fresh ds ds' _ Hren Hcell). intros d _.
    rewrite cf_names_values. repeat case_decide; congruence. }
  destruct (rename_cell ds') as [ds''|[cls msg]] eqn:Hagain.
  - apply rename_cell_ok_renamable in Hagain as ((Hsn & _) & _).
    apply elem_of_dom in Hsn as [n Hn]. congruence.
  - apply rename_cell_class in Hagain. simpl in Hagain. subst cls. by exists msg.
Qed.

Lemma rename_cell_not_rerunnable_witness :
  exists ds',
    rename_cell (sample_target "" 2 4 3) = Ok ds' /\ raises "ValueError" (rename_cell ds').
Proof.
  eexists. 
  match goal with |- ?P /\ _ => assert (H : P) by (vm_compute; reflexivity) end.
  split; [exact H|]. exact (rename_cell_not_rerunnable _ _ H).
Defined.

Lemma renamed_keys_NoDup (f : string -> string) (D : gmap string nat) :
  (forall a b, a ∈ dom D -> b ∈ dom D -> f a = f b -> a = b) ->
  NoDup (fst <$> (prod_map f id <$> map_to_list D)).
Proof.
  intros Hinj. rewrite <- list_fmap_compose.
  change (fst ∘ prod_map f id) with (f ∘ (fst : string * nat -> string)).
  rewrite list_fmap_compose. apply NoDup_fmap_2_strong; [|apply NoDup_fst_map_to_list].
  intros a b ([a' na] & -> & Ha%elem_of_map_to_list)%list_elem_of_fmap
             ([b' nb] & -> & Hb%elem_of_map_to_list)%list_elem_of_fmap.
  apply Hinj; apply elem_of_dom; eauto.
Qed.

(** X8. Renaming keeps the dataset well formed: when the size table agrees
    with the variables before the rename cell, it does so after it; the
    dataset has the same variable names and as many dimensions as before. *)
Theorem rename_cell_keeps_well_formed (ds ds' : Dataset) :
  rename_cell ds = Ok ds' -> consistent (dims ds) (variables ds) ->
  consistent (dims ds') (variables ds') /\
  dom (variables ds') = dom (variables ds) /\
  size (dims ds') = size (dims ds).
Proof.
  intros Hcell Hcons. pose proof (rename_cell_ok_renamable ds ds' Hcell) as Hren.
  split; [by apply (rename_cell_consistent ds ds')|].
  rewrite (rename_cell_succeeds ds Hren) in Hcell. injection Hcell as <-.
  cbn [variables dims]. split.
  - apply dom_fmap_L.
  - rewrite map_size_list_to_map.
    + by rewrite length_fmap, length_map_to_list.
    + apply renamed_keys_NoDup. intros a b. by apply cf_names_inj.
Qed.

Lemma rename_cell_keeps_well_formed_witness :
  exists ds',
    rename_cell (sample_target "" 2 4 3) = Ok ds' /\
    consistent (dims ds') (variables ds') /\
    dom (variables ds') = dom (variables (sample_target "" 2 4 3)) /\
    size (dims ds') = size (dims (sample_target "" 2 4 3)).
Proof.
  eexists.
  match goal with |- ?P /\ _ => assert (H : P) by (vm_compute; reflexivity) end.
  split; [exact H|].
  exact (rename_cell_keeps_well_formed _ _ H (sample_target_consistent "" 2 4 3)).
Defined.

(** ** What the [assign_coords] cell leaves *)

Lemma assign_coords_cell_inv (x y : list float) (lon lat : ndarray) (ds ds' : Dataset) :
  assign_coords_cell x y lon lat ds = Ok ds' ->
  variables ds' =
    <["y" := mkVar ["y"] (Arr1 y) ∅]> (<["x" := mkVar ["x"] (Arr1 x) ∅]>
      (<["lat" := mkVar ["y"; "x"] lat ∅]> (<["lon" := mkVar ["y"; "x"] lon ∅]>
         (variables ds)))) /\
  calculate_dimensions (variables ds') = Ok (dims ds') /\
  (coord_names ds ⊆ coord_names ds' /\ forall k, k ∈ annotated -> k ∈ coord_names ds') /\
  attrs ds' = attrs ds.
Proof.
  unfold assign_coords_cell. intros H.
  apply bind_ok in H as (d1 & [_ U1]%assign_coords_tuple_inv & H).
  apply bind_ok in H as (d2 & [_ U2]%assign_coords_tuple_inv & H).
  apply bind_ok in H as (d3 & U3 & U4). unfold assign_coords_array in *.
  apply update_coord_inv in U1 as (V1 & _ & N1 & A1).
  apply update_coord_inv in U2 as (V2 & _ & N2 & A2).
  apply update_coord_inv in U3 as (V3 & _ & N3 & A3).
  apply update_coord_inv in U4 as (V4 & K4 & N4 & A4).
  split_and!.
  - by rewrite V4, V3, V2, V1.
  - by rewrite V4.
  - rewrite N4, N3, N2, N1. clear. set_unfold. tauto.
  - intros k. unfold annotated. rewrite N4, N3, N2, N1. clear. set_unfold.
    intros [->|[->|[->|[->|[]]]]]; tauto.
  - congruence.
Qed.

(** X9. After the [assign_coords] cell: [lon], [lat], [x] and [y] are
    variables holding exactly the arrays given, along (y, x), (y, x), (x)
    and (y), with no attributes; every other variable is as before; the
    four names are coordinates and no earlier coordinate is lost; the size
    table agrees with every variable of the dataset, with [x] and [y] as
    long as the arrays; the global attributes are untouched. *)
Theorem assign_coords_cell_result (x y : list float) (lon lat : ndarray) (ds ds' : Dataset) :
  assign_coords_cell x y lon lat ds = Ok ds' ->
  variables ds' !! "lon" = Some (mkVar ["y"; "x"] lon ∅) /\
  variables ds' !! "lat" = Some (mkVar ["y"; "x"] lat ∅) /\
  variables ds' !! "x" = Some (mkVar ["x"] (Arr1 x) ∅) /\
  variables ds' !! "y" = Some (mkVar ["y"] (Arr1 y) ∅) /\
  (forall k, k ∉ annotated -> variables ds' !! k = variables ds !! k) /\
  (forall k, k ∈ annotated -> k ∈ coord_names ds') /\
  coord_names ds ⊆ coord_names ds' /\
  (forall k v d n, variables ds' !! k = Some v -> (d, n) ∈ var_axes v ->
                   dims ds' !! d = Some n) /\
  dims ds' !! "x" = Some (length x) /\ dims ds' !! "y" = Some (length y) /\
  attrs ds' = attrs ds.
Proof.
  intros (HV & HD & [HC1 HC2] & HA)%assign_coords_cell_inv.
  assert (Hx : variables ds' !! "x" = Some (mkVar ["x"] (Arr1 x) ∅))
    by (rewrite HV; by simplify_map_eq).
  assert (Hy : variables ds' !! "y" = Some (mkVar ["y"] (Arr1 y) ∅))
    by (rewrite HV; by simplify_map_eq).
  assert (Hsizes : forall k v d n, variables ds' !! k = Some v -> (d, n) ∈ var_axes v ->
                                   dims ds' !! d = Some n).
  { intros k v d n Hk Hin. by apply (calculate_dimensions_sound _ _ k v d n HD). }
  split_and!; try done.
  - rewrite HV. by simplify_map_eq.
  - rewrite HV. by simplify_map_eq.
  - intros k Hk. unfold annotated in Hk. rewrite !not_elem_of_cons in Hk.
    destruct Hk as (? & ? & ? & ? & _). rewrite HV. by rewrite !lookup_insert_ne.
  - apply (Hsizes "x" _ "x" (length x) Hx). unfold var_axes. simpl. by left.
  - apply (Hsizes "y" _ "y" (length y) Hy). unfold var_axes. simpl. by left.
Qed.

Lemma assign_coords_cell_result_witness :
  match assign_coords_cell (ramp 3) (ramp 4)
          (fst (reprojection_cell (fun a b => (a, b)) (ramp 3) (ramp 4)))
          (snd (reprojection_cell (fun a b => (a, b)) (ramp 3) (ramp 4)))
          (renamed_target 2 4 3) with
  | Ok ds' =>
      variables ds' !! "x" = Some (mkVar ["x"] (Arr1 (ramp 3)) ∅) /\
      variables ds' !! "LWDOWN" = variables (renamed_target 2 4 3) !! "LWDOWN" /\
      dims ds' !! "x" = Some (length (ramp 3)) /\ dims ds' !! "y" = Some (length (ramp 4))
  | Raise _ => False
  end.
Proof.
  destruct (assign_coords_cell _ _ _ _ _) as [ds'|e] eqn:H.
  - destruct (assign_coords_cell_result _ _ _ _ _ _ H)
      as (_ & _ & Hx & _ & Hrest & _ & _ & _ & Hdx & Hdy & _).
    split; [exact Hx|]. split; [|split; [exact Hdx|exact Hdy]].
    apply Hrest. unfold annotated. rewrite !not_elem_of_cons.
    split_and!; [discriminate..|]. apply not_elem_of_nil.
  - vm_compute in H. discriminate H.
Defined.

Lemma assign_coords_cell_class (x y : list float) (lon lat : ndarray) (ds : Dataset) (e : exn) :
  assign_coords_cell x y lon lat ds = Raise e -> exn_class e = "ValueError".
Proof.
  unfold assign_coords_cell, assign_coords_tuple, assign_coords_array.
  destruct (decide (length ["y"; "x"] = length (shape lon))); [|by intros [= <-]].
  destruct (update_coord "lon" _ ds) as [d1|e1] eqn:H1;
    [|apply update_coord_class in H1; by intros [= <-]].
  cbn [mbind result_bind].
  destruct (decide (length ["y"; "x"] = length (shape lat))); [|by intros [= <-]].
  destruct (update_coord "lat" _ d1) as [d2|e2] eqn:H2;
    [|apply update_coord_class in H2; by intros [= <-]].
  cbn [mbind result_bind].
  destruct (update_coord "x" _ d2) as [d3|e3] eqn:H3;
    [|apply update_coord_class in H3; by intros [= <-]].
  cbn [mbind result_bind]. apply update_coord_class.
Qed.

(** X10. The [assign_coords] cell is where the lengths are checked.  On a
    well-formed dataset in which some variable other than [lon] lies along
    [y] and some variable other than [lon] lies along [x], assigning the
    coordinates succeeds exactly when [y] and [x] are as long as those
    dimensions; otherwise it raises a [ValueError].  A variable named [lon]
    does not count: the first assignment replaces it. *)
Theorem assign_coords_checks_lengths (x y : list float)
    (lon_rows lat_rows : list (list float)) (ds : Dataset)
    (ky kx : string) (vy vx : DataVar) (H W : nat) :
  consistent (dims ds) (variables ds) ->
  variables ds !! ky = Some vy -> ky <> "lon" -> ("y", H) ∈ var_axes vy ->
  variables ds !! kx = Some vx -> kx <> "lon" -> ("x", W) ∈ var_axes vx ->
  length lon_rows = length y -> length lat_rows = length y ->
  ((exists ds', assign_coords_cell x y (Arr2 (length x) lon_rows)
                  (Arr2 (length x) lat_rows) ds = Ok ds') <->
   length y = H /\ length x = W) /\
  (~ (length y = H /\ length x = W) ->
   raises "ValueError"
     (assign_coords_cell x y (Arr2 (length x) lon_rows) (Arr2 (length x) lat_rows) ds)).
Proof.
  intros Hcons Hky Hny Hy Hkx Hnx Hx Hlon Hlat.
  assert (Hfwd : forall ds', assign_coords_cell x y (Arr2 (length x) lon_rows)
                               (Arr2 (length x) lat_rows) ds = Ok ds' ->
                             length y = H /\ length x = W).
  { unfold assign_coords_cell. intros ds' Hcell.
    apply bind_ok in Hcell as (d1 & [_ U1]%assign_coords_tuple_inv & _).
    apply update_coord_inv in U1 as (_ & Hcalc & _).
    set (L := mkVar ["y"; "x"] (Arr2 (length x) lon_rows) ∅) in *.
    pose proof (calculate_dimensions_sound _ _ ky vy "y" H Hcalc) as H1.
    pose proof (calculate_dimensions_sound _ _ kx vx "x" W Hcalc) as H2.
    pose proof (calculate_dimensions_sound _ _ "lon" L "y" (length y) Hcalc) as H3.
    pose proof (calculate_dimensions_sound _ _ "lon" L "x" (length x) Hcalc) as H4.
    rewrite lookup_insert_ne in H1 by done. rewrite lookup_insert_ne in H2 by done.
    rewrite lookup_insert_eq in H3, H4.
    specialize (H1 Hky Hy). specialize (H2 Hkx Hx).
    assert (Hy3 : ("y", length y) ∈ var_axes L)
      by (unfold var_axes, L; simpl; rewrite Hlon; by left).
    assert (Hx4 : ("x", length x) ∈ var_axes L)
      by (unfold var_axes, L; simpl; right; by left).
    specialize (H3 eq_refl Hy3). specialize (H4 eq_refl Hx4). split; congruence. }
  split; [split|].
  - intros [ds' Hcell]. by apply (Hfwd ds').
  - intros [<- <-]. destruct Hcons as [Hsizes Hscalar].
    destruct (assign_coords_cell_ok x y lon_rows lat_rows ds (dims ds))
      as (ds' & Hcell & _); [done| | |done..|by exists ds'].
    + by apply (Hsizes ky vy).
    + by apply (Hsizes kx vx).
  - intros Hno.
    destruct (assign_coords_cell _ _ _ _ ds) as [ds'|[cls msg]] eqn:Hcell.
    + destruct Hno. by apply (Hfwd ds').
    + apply assign_coords_cell_class in Hcell. simpl in Hcell. subst cls. by exists msg.
Qed.

Lemma renamed_target_consistent (T H W : nat) :
  consistent (dims (renamed_target T H W)) (variables (renamed_target T H W)).
Proof.
  unfold renamed_target. simpl. split.
  - intros k v d n [<- <-]%lookup_singleton_Some. unfold var_axes. simpl.
    rewrite !elem_of_cons, elem_of_nil.
    intros [[= -> ->]|[[= -> ->]|[[= -> ->]|[]]]]; by vm_compute.
  - intros d v [n Hn] [<- <-]%lookup_singleton_Some. by vm_compute in Hn.
Qed.

Lemma assign_coords_checks_lengths_witness :
  (exists ds', assign_coords_cell (ramp 3) (ramp 4)
                 (Arr2 (length (ramp 3)) ((fun _ : float => ramp 3) <$> ramp 4))
                 (Arr2 (length (ramp 3)) ((fun _ : float => ramp 3) <$> ramp 4)) (renamed_target 2 4 3) = Ok ds') /\
  raises "ValueError"
    (assign_coords_cell (ramp 3) (ramp 2)
       (Arr2 (length (ramp 3)) ((fun _ : float => ramp 3) <$> ramp 2)) (Arr2 (length (ramp 3)) ((fun _ : float => ramp 3) <$> ramp 2))
       (renamed_target 2 4 3)).
Proof.
  assert (Hv : variables (renamed_target 2 4 3) !! "LWDOWN" =
               Some (mkVar ["time"; "y"; "x"] (Remote [2; 4; 3]) ∅)) by reflexivity.
  assert (Hy : ("y", 4) ∈ var_axes (mkVar ["time"; "y"; "x"] (Remote [2; 4; 3]) ∅))
    by (unfold var_axes; simpl; right; left).
  assert (Hx : ("x", 3) ∈ var_axes (mkVar ["time"; "y"; "x"] (Remote [2; 4; 3]) ∅))
    by (unfold var_axes; simpl; right; right; left).
  assert (Hne : "LWDOWN" <> "lon") by discriminate.
  split.
  - apply (proj1 (assign_coords_checks_lengths (ramp 3) (ramp 4) ((fun _ : float => ramp 3) <$> ramp 4)
                    ((fun _ : float => ramp 3) <$> ramp 4) (renamed_target 2 4 3) "LWDOWN" "LWDOWN" _ _ 4 3
                    (renamed_target_consistent 2 4 3) Hv Hne Hy Hv Hne Hx
                    (length_fmap _ _) (length_fmap _ _))).
    split; reflexivity.
  - apply (proj2 (assign_coords_checks_lengths (ramp 3) (ramp 2) ((fun _ : float => ramp 3) <$> ramp 2)
                    ((fun _ : float => ramp 3) <$> ramp 2) (renamed_target 2 4 3) "LWDOWN" "LWDOWN" _ _ 4 3
                    (renamed_target_consistent 2 4 3) Hv Hne Hy Hv Hne Hx
                    (length_fmap _ _) (length_fmap _ _))).
    intros [Hlen _]. vm_compute in Hlen. discriminate Hlen.
Defined.

(** X16. What the target holds under the name [lon] has no effect on the
    [assign_coords] cell: the first assignment replaces that variable
    before any size is compared, so the cell does on the dataset what it
    does on the dataset without it.  Hence, when no variable of the target
    has another name, the cell succeeds for coordinates of any lengths,
    whatever the sizes of the old [lon]. *)
Theorem assign_coords_replaces_lon (x y : list float) (ds : Dataset) :
  (forall lon lat : ndarray,
     assign_coords_cell x y lon lat ds =
     assign_coords_cell x y lon lat (drop_var "lon" ds)) /\
  (forall lon_rows lat_rows : list (list float),
     (forall k, k <> "lon" -> variables ds !! k = None) ->
     length lon_rows = length y -> length lat_rows = length y ->
     exists ds',
       assign_coords_cell x y (Arr2 (length x) lon_rows) (Arr2 (length x) lat_rows) ds =
         Ok ds').
Proof.
  assert (Hdrop : forall lon lat : ndarray,
            assign_coords_cell x y lon lat ds =
            assign_coords_cell x y lon lat (drop_var "lon" ds)).
  { intros lon lat. unfold assign_coords_cell, assign_coords_tuple.
    destruct (decide (length ["y"; "x"] = length (shape lon))); [|done].
    unfold update_coord at 2 4, drop_var. cbn [variables coord_names attrs].
    by rewrite insert_delete_eq. }
  split; [exact Hdrop|].
  intros lon_rows lat_rows Honly Hlon Hlat. rewrite Hdrop.
  destruct (assign_coords_cell_ok x y lon_rows lat_rows (drop_var "lon" ds)
              {[ "y" := length y; "x" := length x ]})
    as (ds' & Hcell & _); [| | |done..|by exists ds'].
  - assert (Hempty : variables (drop_var "lon" ds) = ∅).
    { apply map_eq. intros k. unfold drop_var. cbn [variables].
      rewrite lookup_empty. destruct (decide (k = "lon")) as [->|Hk].
      - apply lookup_delete_eq.
      - rewrite lookup_delete_ne by done. by apply Honly. }
    rewrite Hempty. split.
    + intros k v d n Hk. by rewrite lookup_empty in Hk.
    + intros d v _ Hk. by rewrite lookup_empty in Hk.
  - apply lookup_insert_eq.
  - rewrite lookup_insert_ne by discriminate. apply lookup_insert_eq.
Qed.

Lemma assign_coords_replaces_lon_witness :
  dims (mkDataset {[ "lon" := mkVar ["y"; "x"] (Remote [4; 3]) ∅ ]} ∅
          {[ "y" := 4; "x" := 3 ]} ∅) !! "y" = Some 4 /\
  length (ramp 2) = 2 /\
  exists ds',
    assign_coords_cell (ramp 3) (ramp 2)
      (Arr2 (length (ramp 3)) ((fun _ : float => ramp 3) <$> ramp 2))
      (Arr2 (length (ramp 3)) ((fun _ : float => ramp 3) <$> ramp 2))
      (mkDataset {[ "lon" := mkVar ["y"; "x"] (Remote [4; 3]) ∅ ]} ∅
         {[ "y" := 4; "x" := 3 ]} ∅) = Ok ds'.
Proof.
  split; [reflexivity|]. split; [reflexivity|].
  apply (proj2 (assign_coords_replaces_lon (ramp 3) (ramp 2)
                  (mkDataset {[ "lon" := mkVar ["y"; "x"] (Remote [4; 3]) ∅ ]} ∅
                     {[ "y" := 4; "x" := 3 ]} ∅))).
  - intros k Hk. simpl. by apply lookup_singleton_ne.
  - apply length_fmap.
  - apply length_fmap.
Defined.

(** ** What the attribute cell writes *)

Lemma set_var_attr_inv (name key : string) (value : attr_value) (ds ds' : Dataset) :
  set_var_attr name key value ds = Ok ds' ->
  resolves ds name /\
  variables ds' = alter (with_attr key value) name (variables ds) /\
  (coord_names ds' = coord_names ds /\ dims ds' = dims ds /\ attrs ds' = attrs ds).
Proof.
  unfold set_var_attr, resolves. destruct (variables ds !! name) as [v|] eqn:Hv.
  - intros [= <-]. split; [left; by eexists|]. split; [|done]. simpl.
    apply map_eq. intros k. rewrite lookup_alter, lookup_insert.
    case_decide; [subst k; by rewrite Hv|done].
  - destruct (dims ds !! name) as [n|]; [|by destruct (attrs ds !! name)].
    intros [= <-]. split; [right; by eexists|]. split; [|done].
    symmetry. apply alter_id. intros v. by rewrite Hv.
Qed.

Lemma set_var_attr_class (name key : string) (value : attr_value) (ds : Dataset) (e : exn) :
  set_var_attr name key value ds = Raise e -> exn_class e = "AttributeError".
Proof.
  unfold set_var_attr. destruct (variables ds !! name); [done|].
  destruct (dims ds !! name); [done|]. destruct (attrs ds !! name); by intros [= <-].
Qed.

Lemma set_var_attr_resolves (name key : string) (value : attr_value) (ds : Dataset) :
  name ∈ annotated -> annotatable ds ->
  exists ds', set_var_attr name key value ds = Ok ds' /\ annotatable ds'.
Proof.
  intros Hin Hall. unfold set_var_attr.
  destruct (variables ds !! name) as [v|] eqn:Hv.
  - eexists. split; [done|]. intros k Hk. unfold resolves. simpl.
    rewrite lookup_insert. case_decide; [left; by eexists|]. by apply Hall.
  - destruct (Hall name Hin) as [[v Hv']|[n ->]]; [congruence|]. by exists ds.
Qed.

Lemma attrs_cell_succeeds (ds : Dataset) :
  annotatable ds -> exists ds', attrs_cell ds = Ok ds'.
Proof.
  intros Hall. unfold attrs_cell.
  repeat
    match goal with
    | Hd : annotatable ?d |- exists ds', set_var_attr ?n ?k ?v ?d ≫= _ = Ok ds' =>
        let Hn := fresh "Hn" in
        assert (Hn : n ∈ annotated)
          by (unfold annotated; rewrite !elem_of_cons; tauto);
        destruct (set_var_attr_resolves n k v d Hn Hd) as (? & -> & ?);
        clear Hd Hn; cbn [mbind result_bind]
    end.
  match goal with
  | Hd : annotatable ?d |- exists ds', set_var_attr ?n ?k ?v ?d = Ok ds' =>
      let Hn := fresh "Hn" in
      assert (Hn : n ∈ annotated)
        by (unfold annotated; rewrite !elem_of_cons; tauto);
      destruct (set_var_attr_resolves n k v d Hn Hd) as (? & -> & ?); by eexists
  end.
Qed.

Lemma lookup_alter_is_Some (f : DataVar -> DataVar) (m : gmap string DataVar) (i j : string) :
  is_Some (alter f i m !! j) <-> is_Some (m !! j).
Proof.
  rewrite lookup_alter. case_decide; [|done]. subst j.
  destruct (m !! i); simpl; split; intros [? ?]; by eauto.
Qed.

(** The attribute cell, variable by variable. *)
Lemma attrs_cell_inv (ds ds' : Dataset) :
  attrs_cell ds = Ok ds' ->
  annotatable ds /\
  (forall name,
     variables ds' !! name = put_attrs (cf_attrs name) <$> variables ds !! name) /\
  coord_names ds' = coord_names ds /\ dims ds' = dims ds /\ attrs ds' = attrs ds.
Proof.
  unfold attrs_cell. intros H.
  apply bind_ok in H as (d1 & (Sx & V1 & C1 & D1 & A1)%set_var_attr_inv & H).
  apply bind_ok in H as (d2 & (_ & V2 & C2 & D2 & A2)%set_var_attr_inv & H).
  rewrite V1 in V2. rewrite C1 in C2. rewrite D1 in D2. rewrite A1 in A2. clear d1 V1 C1 D1 A1.
  apply bind_ok in H as (d3 & (_ & V3 & C3 & D3 & A3)%set_var_attr_inv & H).
  rewrite V2 in V3. rewrite C2 in C3. rewrite D2 in D3. rewrite A2 in A3. clear d2 V2 C2 D2 A2.
  apply bind_ok in H as (d4 & (_ & V4 & C4 & D4 & A4)%set_var_attr_inv & H).
  rewrite V3 in V4. rewrite C3 in C4. rewrite D3 in D4. rewrite A3 in A4. clear d3 V3 C3 D3 A3.
  apply bind_ok in H as (d5 & (Sy & V5 & C5 & D5 & A5)%set_var_attr_inv & H).
  unfold resolves in Sy. rewrite V4, D4 in Sy.
  rewrite V4 in V5. rewrite C4 in C5. rewrite D4 in D5. rewrite A4 in A5.
  clear d4 V4 C4 D4 A4.
  apply bind_ok in H as (d6 & (_ & V6 & C6 & D6 & A6)%set_var_attr_inv & H).
  rewrite V5 in V6. rewrite C5 in C6. rewrite D5 in D6. rewrite A5 in A6. clear d5 V5 C5 D5 A5.
  apply bind_ok in H as (d7 & (_ & V7 & C7 & D7 & A7)%set_var_attr_inv & H).
  rewrite V6 in V7. rewrite C6 in C7. rewrite D6 in D7. rewrite A6 in A7. clear d6 V6 C6 D6 A6.
  apply bind_ok in H as (d8 & (_ & V8 & C8 & D8 & A8)%set_var_attr_inv & H).
  rewrite V7 in V8. rewrite C7 in C8. rewrite D7 in D8. rewrite A7 in A8. clear d7 V7 C7 D7 A7.
  apply bind_ok in H as (d9 & (Sl & V9 & C9 & D9 & A9)%set_var_attr_inv & H).
  unfold resolves in Sl. rewrite V8, D8 in Sl.
  rewrite V8 in V9. rewrite C8 in C9. rewrite D8 in D9. rewrite A8 in A9.
  clear d8 V8 C8 D8 A8.
  apply bind_ok in H as (d10 & (_ & V10 & C10 & D10 & A10)%set_var_attr_inv & H).
  rewrite V9 in V10. rewrite C9 in C10. rewrite D9 in D10. rewrite A9 in A10.
  clear d9 V9 C9 D9 A9.
  apply bind_ok in H as (d11 & (_ & V11 & C11 & D11 & A11)%set_var_attr_inv & H).
  rewrite V10 in V11. rewrite C10 in C11. rewrite D10 in D11. rewrite A10 in A11.
  clear d10 V10 C10 D10 A10.
  apply bind_ok in H as (d12 & (Sa & V12 & C12 & D12 & A12)%set_var_attr_inv & H).
  unfold resolves in Sa. rewrite V11, D11 in Sa.
  rewrite V11 in V12. rewrite C11 in C12. rewrite D11 in D12. rewrite A11 in A12.
  clear d11 V11 C11 D11 A11.
  apply bind_ok in H as (d13 & (_ & V13 & C13 & D13 & A13)%set_var_attr_inv & H).
  rewrite V12 in V13. rewrite C12 in C13. rewrite D12 in D13. rewrite A12 in A13.
  clear d12 V12 C12 D12 A12.
  apply set_var_attr_inv in H as (_ & V14 & C14 & D14 & A14).
  rewrite V13 in V14. rewrite C13 in C14. rewrite D13 in D14. rewrite A13 in A14.
  clear d13 V13 C13 D13 A13.
  rewrite !lookup_alter_is_Some in Sy. rewrite !lookup_alter_is_Some in Sl.
  rewrite !lookup_alter_is_Some in Sa.
  split_and!; [| |done..].
  - intros k. unfold annotated. rewrite !elem_of_cons, elem_of_nil.
    intros [->|[->|[->|[->|[]]]]]; done.
  - intros name. rewrite V14.
    destruct (decide (name = "x")) as [->|Hx].
    { repeat first [rewrite lookup_alter_eq | rewrite lookup_alter_ne by discriminate].
      by destruct (variables ds !! "x"). }
    destruct (decide (name = "y")) as [->|Hy].
    { repeat first [rewrite lookup_alter_eq | rewrite lookup_alter_ne by discriminate].
      by destruct (variables ds !! "y"). }
    destruct (decide (name = "lon")) as [->|Hl].
    { repeat first [rewrite lookup_alter_eq | rewrite lookup_alter_ne by discriminate].
      by destruct (variables ds !! "lon"). }
    destruct (decide (name = "lat")) as [->|Ha].
    { repeat first [rewrite lookup_alter_eq | rewrite lookup_alter_ne by discriminate].
      by destruct (variables ds !! "lat"). }
    repeat (rewrite lookup_alter_ne by congruence).
    unfold cf_attrs. rewrite !decide_False by done.
    by destruct (variables ds !! name).
Qed.

Lemma attrs_cell_class (ds : Dataset) (e : exn) :
  attrs_cell ds = Raise e -> exn_class e = "AttributeError".
Proof.
  unfold attrs_cell.
  repeat
    match goal with
    | |- set_var_attr ?n ?k ?v ?d ≫= _ = Raise _ -> _ =>
        let H := fresh "H" in
        destruct (set_var_attr n k v d) eqn:H;
        [cbn [mbind result_bind]
        |intros [= <-]; by apply set_var_attr_class in H]
    end.
  apply set_var_attr_class.
Qed.

(** X11. The attribute cell succeeds exactly when each of [x], [y], [lon]
    and [lat] is a variable or a dimension of the dataset; when one of them
    is neither, it raises an [AttributeError].  So the cell also succeeds
    where [x] and [y] are dimensions without a coordinate variable, as
    before the [assign_coords] cell has run. *)
Theorem attrs_cell_succeeds_iff (ds : Dataset) :
  ((exists ds', attrs_cell ds = Ok ds') <-> annotatable ds) /\
  (~ annotatable ds -> raises "AttributeError" (attrs_cell ds)).
Proof.
  split; [split|].
  - intros [ds' Hds']. by apply attrs_cell_inv in Hds' as [Hall _].
  - apply attrs_cell_succeeds.
  - intros Hno. destruct (attrs_cell ds) as [ds'|[cls msg]] eqn:Hcell.
    + destruct Hno. by apply attrs_cell_inv in Hcell as [Hall _].
    + apply attrs_cell_class in Hcell. simpl in Hcell. subst cls. by exists msg.
Qed.

Lemma attrs_cell_succeeds_iff_witness :
  (~ annotatable (renamed_target 2 4 3) /\
   raises "AttributeError" (attrs_cell (renamed_target 2 4 3))) /\
  (annotatable (bare_grid 4 3) /\ exists ds', attrs_cell (bare_grid 4 3) = Ok ds').
Proof.
  assert (Hno : ~ annotatable (renamed_target 2 4 3)).
  { intros Hall. destruct (Hall "lon") as [[v Hv]|[n Hn]].
    - unfold annotated. rewrite !elem_of_cons. tauto.
    - vm_compute in Hv. discriminate Hv.
    - vm_compute in Hn. discriminate Hn. }
  assert (Hyes : annotatable (bare_grid 4 3)).
  { intros k. unfold annotated, resolves. rewrite !elem_of_cons, elem_of_nil.
    intros [->|[->|[->|[->|[]]]]]; vm_compute; eauto. }
  split.
  - split; [exact Hno|]. exact (proj2 (attrs_cell_succeeds_iff (renamed_target 2 4 3)) Hno).
  - split; [exact Hyes|]. exact (proj2 (proj1 (attrs_cell_succeeds_iff (bare_grid 4 3))) Hyes).
Defined.

Lemma put_attrs_fields (kvs : list (string * attr_value)) (v : DataVar) :
  var_dims (put_attrs kvs v) = var_dims v /\
  var_data (put_attrs kvs v) = var_data v /\
  var_attrs (put_attrs kvs v) =
    foldl (fun a kv => <[fst kv := snd kv]> a) (var_attrs v) kvs.
Proof.
  revert v. induction kvs as [|[k x] kvs IH]; intros v; [done|].
  change (put_attrs ((k, x) :: kvs) v) with (put_attrs kvs (with_attr k x v)).
  destruct (IH (with_attr k x v)) as (-> & -> & ->). done.
Qed.

Lemma foldl_insert_lookup_other (kvs : list (string * attr_value))
    (a : gmap string attr_value) (key : string) :
  key ∉ kvs.*1 ->
  foldl (fun a kv => <[fst kv := snd kv]> a) a kvs !! key = a !! key.
Proof.
  revert a. induction kvs as [|[k x] kvs IH]; intros a Hkey; [done|].
  cbn [foldl]. rewrite fmap_cons, not_elem_of_cons in Hkey. destruct Hkey as [Hne Hkey].
  rewrite IH by done. simpl. by rewrite lookup_insert_ne.
Qed.

Lemma foldl_insert_lookup (kvs : list (string * attr_value))
    (a : gmap string attr_value) (key : string) (val : attr_value) :
  NoDup kvs.*1 -> (key, val) ∈ kvs ->
  foldl (fun a kv => <[fst kv := snd kv]> a) a kvs !! key = Some val.
Proof.
  revert a. induction kvs as [|[k x] kvs IH]; intros a Hnd Hin.
  - by apply elem_of_nil in Hin.
  - rewrite fmap_cons in Hnd. apply NoDup_cons in Hnd as [Hk Hnd]. cbn [foldl].
    apply elem_of_cons in Hin as [[= -> ->]|Hin].
    + rewrite foldl_insert_lookup_other by done. simpl. by rewrite lookup_insert_eq.
    + by apply IH.
Qed.

Lemma cf_attrs_NoDup (name : string) : NoDup (cf_attrs name).*1.
Proof.
  unfold cf_attrs. repeat case_decide; simpl;
    repeat apply NoDup_cons_2; try apply NoDup_nil_2;
    intros Hin; repeat (apply elem_of_cons in Hin as [Hin|Hin]; [discriminate Hin|]);
    by apply elem_of_nil in Hin.
Qed.

Lemma cf_attrs_other (name : string) : name ∉ annotated -> cf_attrs name = [].
Proof.
  unfold annotated. rewrite !not_elem_of_cons. intros (? & ? & ? & ? & _).
  unfold cf_attrs. by repeat case_decide.
Qed.

(** X12. After the attribute cell, each of [x], [y], [lon], [lat] that is
    a variable of the dataset carries every attribute the cell lists for it,
    with the value of the cell ([axis], [standard_name], [long_name] and
    [resolution] = 1000 on [x] and [y]; [units], [standard_name] and
    [long_name] on [lon] and [lat]); its other attributes, its dimensions
    and its values are as before.  A name that is no variable, such as [x]
    when it is a dimension only, is no variable afterwards either: what the
    cell writes to it is lost.  All other variables, the coordinates, the
    dimension sizes and the global attributes are untouched. *)
Theorem attrs_cell_sets_cf_attributes (ds ds' : Dataset) :
  attrs_cell ds = Ok ds' ->
  (forall name v,
     variables ds !! name = Some v ->
     exists v',
       variables ds' !! name = Some v' /\
       var_dims v' = var_dims v /\ var_data v' = var_data v /\
       (forall key val, (key, val) ∈ cf_attrs name -> var_attrs v' !! key = Some val) /\
       (forall key, key ∉ (cf_attrs name).*1 -> var_attrs v' !! key = var_attrs v !! key)) /\
  (forall name, variables ds !! name = None -> variables ds' !! name = None) /\
  (forall name, name ∉ annotated -> variables ds' !! name = variables ds !! name) /\
  coord_names ds' = coord_names ds /\ dims ds' = dims ds /\ attrs ds' = attrs ds.
Proof.
  intros (_ & Hlook & HC & HD & HA)%attrs_cell_inv. split_and!; try done.
  - intros name v Hv. exists (put_attrs (cf_attrs name) v).
    rewrite Hlook, Hv. split; [done|].
    destruct (put_attrs_fields (cf_attrs name) v) as (Hd & Hdata & Hattrs).
    split_and!; try done.
    + intros key val Hin. rewrite Hattrs.
      by apply foldl_insert_lookup; [apply cf_attrs_NoDup|].
    + intros key Hkey. rewrite Hattrs. by apply foldl_insert_lookup_other.
  - intros name Hname. by rewrite Hlook, Hname.
  - intros name Hname. rewrite Hlook, (cf_attrs_other name Hname).
    by destruct (variables ds !! name).
Qed.

Lemma attrs_cell_sets_cf_attributes_witness :
  match attrs_cell (bare_grid 4 3) with
  | Ok ds' =>
      variables ds' !! "x" = None /\
      exists v', variables ds' !! "lon" = Some v' /\
                 var_data v' = Remote [4; 3] /\
                 var_attrs v' !! "units" = Some (AStr "degrees_east") /\
                 var_attrs v' !! "grid_mapping" = Some (AStr "crs")
  | Raise _ => False
  end.
Proof.
  destruct (attrs_cell _) as [ds'|e] eqn:H.
  - destruct (attrs_cell_sets_cf_attributes _ _ H) as (Hvars & Hnone & _).
    split; [apply Hnone; reflexivity|].
    destruct (Hvars "lon" _ eq_refl) as (v' & Hv' & _ & Hdata & Hset & Hkeep).
    exists v'. split; [exact Hv'|]. split; [exact Hdata|]. split.
    + apply Hset. vm_compute. left.
    + rewrite Hkeep; [reflexivity|]. intros Hin.
      change ((cf_attrs "lon").*1) with ["units"; "standard_name"; "long_name"] in Hin.
      repeat (apply elem_of_cons in Hin as [Hin|Hin]; [discriminate Hin|]).
      by apply elem_of_nil in Hin.
  - vm_compute in H. discriminate H.
Defined.

Lemma put_attrs_twice (kvs : list (string * attr_value)) (v : DataVar) :
  NoDup kvs.*1 -> put_attrs kvs (put_attrs kvs v) = put_attrs kvs v.
Proof.
  intros Hnd.
  destruct (put_attrs_fields kvs (put_attrs kvs v)) as (Hd2 & Hdata2 & Ha2).
  destruct (put_attrs_fields kvs v) as (Hd1 & Hdata1 & Ha1).
  destruct (put_attrs kvs (put_attrs kvs v)) as [d2 x2 a2].
  destruct (put_attrs kvs v) as [d1 x1 a1]. simpl in *. subst d2 x2. f_equal.
  apply map_eq. intros key. rewrite Ha2.
  destruct (decide (key ∈ kvs.*1)) as [Hin|Hout].
  - apply list_elem_of_fmap in Hin as ([k val] & -> & Hin). simpl.
    rewrite (foldl_insert_lookup kvs a1 k val Hnd Hin).
    by rewrite Ha1, (foldl_insert_lookup kvs _ k val Hnd Hin).
  - by rewrite foldl_insert_lookup_other.
Qed.

(** X13. The attribute cell can be run again: on the dataset it has
    produced it succeeds and changes nothing. *)
Theorem attrs_cell_idempotent (ds ds' : Dataset) :
  attrs_cell ds = Ok ds' -> attrs_cell ds' = Ok ds'.
Proof.
  intros Hcell. pose proof Hcell as (Hall & Hlook & HC & HD & HA)%attrs_cell_inv.
  assert (Hall' : annotatable ds').
  { intros k Hk. unfold resolves. rewrite Hlook, HD.
    destruct (Hall k Hk) as [[v ->]|Hd]; [left; by eexists|by right]. }
  destruct (attrs_cell_succeeds ds' Hall') as (ds'' & Hagain). rewrite Hagain. f_equal.
  apply attrs_cell_inv in Hagain as (_ & Hlook' & HC' & HD' & HA').
  destruct ds' as [V' C' D' A'], ds'' as [V'' C'' D'' A'']. simpl in *. f_equal; try done.
  apply map_eq. intros name. rewrite Hlook', Hlook.
  destruct (variables ds !! name) as [v|]; [|done]. simpl.
  by rewrite put_attrs_twice by apply cf_attrs_NoDup.
Qed.

Lemma attrs_cell_idempotent_witness :
  match attrs_cell (bare_grid 4 3) with
  | Ok ds' => attrs_cell ds' = Ok ds'
  | Raise _ => False
  end.
Proof.
  destruct (attrs_cell _) as [ds'|e] eqn:H.
  - exact (attrs_cell_idempotent _ _ H).
  - vm_compute in H. discriminate H.
Defined.

(** ** The run as a whole *)

Lemma notebook_after_offsets (tr : float -> float -> float * float) (ds : Dataset)
    (mx my : list float) (x_index y_index : list string) (out out' : list string) :
  offset_cell ds out = (Ok (x_index, y_index), out') ->
  notebook tr ds mx my out = (after_offsets tr ds mx my x_index y_index, out').
Proof.
  intros Hoff. unfold notebook, after_offsets, mbind, Py_bind, lift, mret, Py_ret.
  rewrite Hoff. destruct (slicing_cell mx my x_index y_index) as [[x y]|e]; [|done].
  destruct (rename_cell ds) as [ds1|e]; [|done].
  destruct (reprojection_cell tr x y) as [lon lat]. cbn [fst snd].
  destruct (assign_coords_cell x y lon lat ds1) as [ds2|e]; [|done].
  by destruct (attrs_cell ds2) as [ds3|e].
Qed.

Lemma after_offsets_class (tr : float -> float -> float * float) (ds : Dataset)
    (mx my : list float) (xs xe ys ye : string) (e : exn) :
  digit_string xs -> digit_string xe -> digit_string ys -> digit_string ye ->
  after_offsets tr ds mx my [xs; xe] [ys; ye] = Raise e -> exn_class e = "ValueError".
Proof.
  intros Hxs Hxe Hys Hye.
  destruct (py_int_digit_string xs Hxs) as (x0 & Hx0 & _).
  destruct (py_int_digit_string xe Hxe) as (x1 & Hx1 & _).
  destruct (py_int_digit_string ys Hys) as (y0 & Hy0 & _).
  destruct (py_int_digit_string ye Hye) as (y1 & Hy1 & _).
  unfold after_offsets.
  rewrite (slicing_cell_digits mx my xs xe ys ye x0 x1 y0 y1) by done.
  destruct (rename_cell ds) as [ds1|e1] eqn:Hren.
  2: { intros [= <-]. by apply (rename_cell_class ds). }
  destruct (assign_coords_cell _ _ _ _ ds1) as [ds2|e2] eqn:Hassign.
  2: { intros [= <-]. by apply assign_coords_cell_class in Hassign. }
  apply assign_coords_cell_inv in Hassign as (HV & _).
  destruct (attrs_cell_ok ds2) as (ds3 & -> & _); [|done].
  intros k. unfold annotated. rewrite HV, !elem_of_cons, elem_of_nil.
  intros [->|[->|[->|[->|[]]]]]; by simplify_map_eq.
Qed.

(** X14. How a run can end.  A run that succeeds has printed nothing.  A
    run that fails does so in one of four ways: [KeyError] when the target
    has no [history] attribute, [TypeError] when the history is not text,
    the [AttributeError] of splitting [None] when the history lacks the
    offset of an axis (after printing 'No match found.'), or, with both
    offsets present and nothing printed, a [ValueError] from renaming or
    from assigning the coordinates.  In particular no run ends in an
    [IndexError]. *)
Theorem notebook_outcomes (tr : float -> float -> float * float) (ds : Dataset)
    (mx my : list float) (r : result Bound) (out : list string) :
  run (notebook tr ds mx my) = (r, out) ->
  match r with
  | Ok _ => out = []
  | Raise e =>
      (exn_class e = "KeyError" /\ attrs ds !! "history" = None /\ out = []) \/
      (exn_class e = "TypeError" /\
       (exists v, attrs ds !! "history" = Some (AFloat v)) /\ out = []) \/
      (e = none_split_error /\
       (exists h, attrs ds !! "history" = Some (AStr h) /\
                  (~ axis_occurrence "west_east" h \/ ~ axis_occurrence "south_north" h)) /\
       "No match found." ∈ out) \/
      (exn_class e = "ValueError" /\
       (exists h, attrs ds !! "history" = Some (AStr h) /\
                  axis_occurrence "west_east" h /\ axis_occurrence "south_north" h) /\
       out = [])
  end.
Proof.
  unfold run. destruct (offset_cell ds []) as [[[xi yi]|e] out0] eqn:Hoff.
  - rewrite (notebook_after_offsets tr ds mx my xi yi [] out0 Hoff).
    apply offset_cell_ok_inv in Hoff
      as (-> & h & xs & xe & ys & ye & Hh & [= -> ->] & Hxs & Hxe & Hys & Hye & Hw & Hs).
    intros [= <- <-].
    destruct (after_offsets tr ds mx my [xs; xe] [ys; ye]) as [b|e] eqn:Hafter; [done|].
    right. right. right. split_and!; [| |done].
    + by apply (after_offsets_class tr ds mx my xs xe ys ye).
    + exists h. split_and!.
      * unfold history_of in Hh. destruct (attrs ds !! "history") as [[s|v]|]; congruence.
      * rewrite pattern_we_axis in Hw.
        apply re_search_sound in Hw as (pre & post & -> & _). by exists pre, xs, xe, post.
      * rewrite pattern_sn_axis in Hs.
        apply re_search_sound in Hs as (pre & post & -> & _). by exists pre, ys, ye, post.
  - rewrite (notebook_stops_with_offset_cell tr ds mx my e [] out0 Hoff).
    intros [= <- <-].
    destruct (attrs ds !! "history") as [[h|v]|] eqn:Hattr.
    + assert (Hh : history_of ds = Ok h) by (unfold history_of; by rewrite Hattr).
      rewrite (offset_cell_cases ds h [] Hh), pattern_we_axis, pattern_sn_axis in Hoff.
      right. right. left.
      destruct (re_search (axis_pattern "west_east") h) as [gw|] eqn:Hw;
        destruct (re_search (axis_pattern "south_north") h) as [gs|] eqn:Hs;
        [discriminate Hoff| | |]; inversion Hoff; subst e out0.
      * split_and!; [done| |simpl; left].
        exists h. split; [done|]. right. by rewrite <- occurs_axis_pattern, <- re_search_none.
      * split_and!; [done| |simpl; left].
        exists h. split; [done|]. left. by rewrite <- occurs_axis_pattern, <- re_search_none.
      * split_and!; [done| |simpl; left].
        exists h. split; [done|]. left. by rewrite <- occurs_axis_pattern, <- re_search_none.
    + assert (Hh : history_of ds = Raise (TypeError "expected string or bytes-like object"))
        by (unfold history_of; by rewrite Hattr).
      rewrite (offset_cell_no_history ds _ [] Hh) in Hoff. inversion Hoff; subst e out0.
      right. left. split_and!; [done|by exists v|done].
    + assert (Hh : history_of ds = Raise (KeyError "'history'"))
        by (unfold history_of; by rewrite Hattr).
      rewrite (offset_cell_no_history ds _ [] Hh) in Hoff. inversion Hoff; subst e out0.
      left. by split_and!.
Qed.

Lemma notebook_outcomes_witness :
  run (notebook (fun a b => (a, b)) (mkDataset ∅ ∅ ∅ ∅) [] []) =
    (Raise (KeyError "'history'"), []) /\
  run (notebook (fun a b => (a, b)) (sample_target "no offsets recorded" 2 4 3) [] []) =
    (Raise none_split_error, ["No match found."; "No match found."]) /\
  ((exn_class (KeyError "'history'") = "KeyError" /\
    attrs (mkDataset ∅ ∅ ∅ ∅) !! "history" = None /\ @nil string = []) \/
   (exn_class (KeyError "'history'") = "TypeError" /\
    (exists v, attrs (mkDataset ∅ ∅ ∅ ∅) !! "history" = Some (AFloat v)) /\
    @nil string = []) \/
   (KeyError "'history'" = none_split_error /\
    (exists h, attrs (mkDataset ∅ ∅ ∅ ∅) !! "history" = Some (AStr h) /\
               (~ axis_occurrence "west_east" h \/ ~ axis_occurrence "south_north" h)) /\
    "No match found." ∈ @nil string) \/
   (exn_class (KeyError "'history'") = "ValueError" /\
    (exists h, attrs (mkDataset ∅ ∅ ∅ ∅) !! "history" = Some (AStr h) /\
               axis_occurrence "west_east" h /\ axis_occurrence "south_north" h) /\
    @nil string = [])).
Proof.
  split; [reflexivity|]. split; [reflexivity|].
  exact (notebook_outcomes (fun a b => (a, b)) (mkDataset ∅ ∅ ∅ ∅) [] []
           (Raise (KeyError "'history'")) [] eq_refl).
Defined.

(** X15. The alignment, for any offsets.  Take a well-formed target, a
    history with one offset per axis, [west_east,cs,ce] and
    [south_north,rs,re], both within the reference ([cs <= ce < W_ref],
    [rs <= re < H_ref]), and target sizes [re - rs + 1] by [ce - cs + 1].
    Then the run succeeds and prints nothing; [x] is the [ce - cs + 1]
    reference columns from [cs], [y] the [re - rs + 1] reference rows from
    [H_ref - re - 1]; and element (i, j) of [lon] and [lat] is the image of
    the reference point (column [cs + j], row [H_ref - re - 1 + i]). *)
Theorem notebook_aligns_offsets (tr : float -> float -> float * float)
    (ds : Dataset) (mx my : list float) (h xs xe ys ye : string) (cs ce rs re : Z) :
  history_of ds = Ok h ->
  sole_offset "west_east" xs xe h -> sole_offset "south_north" ys ye h ->
  py_int xs = Ok cs -> py_int xe = Ok ce -> py_int ys = Ok rs -> py_int ye = Ok re ->
  (cs <= ce < Z.of_nat (length mx))%Z -> (rs <= re < Z.of_nat (length my))%Z ->
  cf_renamable ds -> consistent (dims ds) (variables ds) ->
  dims ds !! "south_north" = Some (Z.to_nat (re - rs + 1)) ->
  dims ds !! "west_east" = Some (Z.to_nat (ce - cs + 1)) ->
  exists b,
    run (notebook tr ds mx my) = (Ok b, []) /\
    b_x b = take (Z.to_nat (ce - cs + 1)) (drop (Z.to_nat cs) mx) /\
    b_y b = take (Z.to_nat (re - rs + 1))
              (drop (Z.to_nat (Z.of_nat (length my) - re - 1)) my) /\
    shape (b_lon b) = [Z.to_nat (re - rs + 1); Z.to_nat (ce - cs + 1)] /\
    shape (b_lat b) = [Z.to_nat (re - rs + 1); Z.to_nat (ce - cs + 1)] /\
    dims (b_ds b) !! "y" = Some (Z.to_nat (re - rs + 1)) /\
    dims (b_ds b) !! "x" = Some (Z.to_nat (ce - cs + 1)) /\
    forall i j xj yi,
      i < Z.to_nat (re - rs + 1) -> j < Z.to_nat (ce - cs + 1) ->
      my !! (Z.to_nat (Z.of_nat (length my) - re - 1) + i) = Some yi ->
      mx !! (Z.to_nat cs + j) = Some xj ->
      arr2_get (b_lon b) i j = Some (fst (tr xj yi)) /\
      arr2_get (b_lat b) i j = Some (snd (tr xj yi)).
Proof.
  intros Hh Hwe Hsn Hcs Hce Hrs Hre Hcols Hrows Hren Hcons Hdy Hdx.
  pose proof (py_int_nonneg _ _ Hcs). pose proof (py_int_nonneg _ _ Hrs).
  pose proof Hwe as (_ & _ & _ & Hdxs & Hdxe & _).
  pose proof Hsn as (_ & _ & _ & Hdys & Hdye & _).
  apply sole_offset_search in Hwe, Hsn.
  rewrite <- pattern_we_axis in Hwe. rewrite <- pattern_sn_axis in Hsn.
  assert (Hoff : offset_cell ds [] = (Ok ([xs; xe], [ys; ye]), [])).
  { rewrite (offset_cell_cases ds h [] Hh), Hwe, Hsn.
    by rewrite !py_split_offset_text. }
  destruct (py_slice_in_range mx cs (ce + 1)) as (Hx & Hxlen & Hxget); [lia..|].
  destruct (py_slice_in_range my (Z.of_nat (length my) - re - 1)
              (Z.of_nat (length my) - rs)) as (Hy & Hylen & Hyget); [lia..|].
  replace (ce + 1 - cs)%Z with (ce - cs + 1)%Z in * by lia.
  replace (Z.of_nat (length my) - rs - (Z.of_nat (length my) - re - 1))%Z
    with (re - rs + 1)%Z in * by lia.
  set (x := py_slice (Some cs) (Some (ce + 1)%Z) mx) in *.
  set (y := py_slice (Some (Z.of_nat (length my) - re - 1)%Z)
              (Some (Z.of_nat (length my) - rs)%Z) my) in *.
  assert (Hslice : slicing_cell mx my [xs; xe] [ys; ye] = Ok (x, y))
    by (by apply slicing_cell_digits).
  pose proof (rename_cell_succeeds ds Hren) as Hcell.
  set (ds1 := mkDataset _ _ _ _) in Hcell.
  pose proof (rename_cell_consistent ds ds1 Hren Hcons Hcell) as Hcons1.
  assert (Hy1 : dims ds1 !! "y" = Some (length y)).
  { rewrite Hylen. apply (rename_cell_dims ds ds1 "y" _ Hren Hcell). by exists "south_north". }
  assert (Hx1 : dims ds1 !! "x" = Some (length x)).
  { rewrite Hxlen. apply (rename_cell_dims ds ds1 "x" _ Hren Hcell). by exists "west_east". }
  pose proof (reprojection_cell_rows tr x y) as Hproj.
  set (lon_rows := (fun yi => (fun xj => fst (tr xj yi)) <$> x) <$> y) in Hproj.
  set (lat_rows := (fun yi => (fun xj => snd (tr xj yi)) <$> x) <$> y) in Hproj.
  destruct (assign_coords_cell_ok x y lon_rows lat_rows ds1 (dims ds1))
    as (ds2 & Hassign & Hhas & Hy2 & Hx2); [done..| | |].
  { unfold lon_rows. by rewrite length_fmap. }
  { unfold lat_rows. by rewrite length_fmap. }
  destruct (attrs_cell_ok ds2 Hhas) as (ds3 & Hattrs & (Hdims3 & _)).
  exists (mkBound [xs; xe] [ys; ye] x y
            (Arr2 (length x) lon_rows) (Arr2 (length x) lat_rows) ds3).
  split.
  { unfold run. rewrite (notebook_after_offsets tr ds mx my _ _ [] [] Hoff).
    unfold after_offsets. rewrite Hslice, Hcell, Hproj. cbn [fst snd].
    by rewrite Hassign, Hattrs. }
  cbn [b_x b_y b_lon b_lat b_ds shape].
  split_and!; try done.
  - unfold lon_rows. by rewrite length_fmap, Hylen, Hxlen.
  - unfold lat_rows. by rewrite length_fmap, Hylen, Hxlen.
  - by rewrite Hdims3, Hy2, Hylen.
  - by rewrite Hdims3, Hx2, Hxlen.
  - intros i j xj yi Hi Hj Hyi Hxj.
    rewrite <- Hyget in Hyi by done. rewrite <- Hxget in Hxj by done. split.
    + by apply (mesh_rows_get (fun a b => fst (tr a b))).
    + by apply (mesh_rows_get (fun a b => snd (tr a b))).
Qed.

Lemma notebook_aligns_offsets_witness :
  exists b,
    run (notebook (fun a b => (a, b)) (sample_target "ncks -d west_east,1,2 -d south_north,0,2" 1 3 2)
           (ramp 4) (ramp 5)) = (Ok b, []) /\
    b_x b = take 2 (drop 1 (ramp 4)) /\ b_y b = take 3 (drop 2 (ramp 5)) /\
    arr2_get (b_lon b) 0 1 = Some 2%float /\ arr2_get (b_lat b) 0 1 = Some 2%float.
Proof.
  assert (Hwe : sole_offset "west_east" "1" "2" "ncks -d west_east,1,2 -d south_north,0,2").
  { exists "ncks -d ", " -d south_north,0,2".
    split; [reflexivity|]. split; [by split|]. split; [by split|]. split; [reflexivity|].
    apply (sole_by_positions "west_east" _ "ncks -d " ",1,2 -d south_north,0,2");
      [reflexivity|vm_compute; reflexivity]. }
  assert (Hsn : sole_offset "south_north" "0" "2" "ncks -d west_east,1,2 -d south_north,0,2").
  { exists "ncks -d west_east,1,2 -d ", "".
    split; [reflexivity|]. split; [by split|]. split; [by split|]. split; [exact I|].
    apply (sole_by_positions "south_north" _ "ncks -d west_east,1,2 -d " ",0,2");
      [reflexivity|vm_compute; reflexivity]. }
  assert (Hc : (1 <= 2 < Z.of_nat (length (ramp 4)))%Z)
    by (vm_compute; split; [discriminate|reflexivity]).
  assert (Hr : (0 <= 2 < Z.of_nat (length (ramp 5)))%Z)
    by (vm_compute; split; [discriminate|reflexivity]).
  destruct (notebook_aligns_offsets (fun a b => (a, b))
              (sample_target "ncks -d west_east,1,2 -d south_north,0,2" 1 3 2)
              (ramp 4) (ramp 5) _ "1" "2" "0" "2" 1%Z 2%Z 0%Z 2%Z
              eq_refl Hwe Hsn eq_refl eq_refl eq_refl eq_refl Hc Hr
              (sample_target_renamable _ 1 3 2) (sample_target_consistent _ 1 3 2)
              eq_refl eq_refl)
    as (b & Hrun & Hx & Hy & _ & _ & _ & _ & Hget).
  exists b. split; [exact Hrun|]. split; [exact Hx|]. split; [exact Hy|].
  exact (Hget 0 1 2%float 2%float ltac:(vm_compute; lia) ltac:(vm_compute; lia)
           eq_refl eq_refl).
Defined.
